(** * CronGuard: the monitor status model

    A shallow embedding of the core of the CronGuard sources and the
    properties of it that the design document states:
    - [types.ts]: [parseScheduleInterval], [getMonitorStatus];
    - [db.ts]: the two tables and the prepared statements;
    - [storage.ts]: [getAllMonitors], [getMonitor], [createMonitor],
      [updateMonitor], [deleteMonitor], [recordPing], [pauseMonitor],
      [resumeMonitor], [checkAndResumeMonitors], [getStats];
    - [validation.ts]: [schedulePattern], [pingSchema];
    - [rate-limit.ts]: [checkRateLimit] and the periodic cleanup;
    - the route [/api/ping/[id]]: [GET] and [POST];
    - the dashboard: [buildPingDisplay], [formatRelativeTime].

    Conventions of the embedding.
    - A JavaScript string is a [string] whose characters are the code
      units below 256; [toLowerCase], [\s], [\d] and [trim] are given on
      that range.
    - A JavaScript number that is an integer in the safe range is a [Z];
      on such values [Math.floor (a / b)] is [a / b] and
      [Math.ceil (a / b)] is [- ((- a) / b)].
    - [NaN] and [undefined]/[null] are [None].
    - The clock ([Date.now ()], [new Date ().toISOString ()]) and the
      identifier source ([crypto.randomUUID ()]) are read from the
      environment: every reading is an explicit argument.
    - [new Date (s).getTime ()] is the parameter [getTime]; [None] is the
      time value of an invalid date. [Iso.getTime] instantiates it on the
      ISO format.
    - The SQLite database is a pair of finite maps keyed by the primary
      key [id]; a statement is a function on it, [None] when a constraint
      fails. A text column is compared byte by byte, as the collation
      BINARY does: [String.compare].
    - A handler runs to its end without interruption, except where it
      awaits: [POSTawait] takes what the requests served meanwhile do to
      the server as an argument. *)

From Stdlib Require Import ZArith Ascii String Lia List.
From stdpp Require Import base option gmap strings list fin_maps pretty sorting.

Open Scope string_scope.
Open Scope Z_scope.

(** ** JavaScript strings *)

Module Js.

Definition code (c : ascii) : Z := Z.of_N (N_of_ascii c).

(** [\d] *)
Definition isDigit (c : ascii) : bool :=
  (48 <=? code c) && (code c <=? 57).

(** [\s], and the characters [trim] removes: TAB, LF, VT, FF, CR, SP, NBSP. *)
Definition isSpace (c : ascii) : bool :=
  ((9 <=? code c) && (code c <=? 13)) || (code c =? 32) || (code c =? 160).

(** [String.prototype.toLowerCase] on one code unit: A-Z, and the Latin-1
    capitals 192-222 except the multiplication sign 215. *)
Definition lowerChar (c : ascii) : ascii :=
  let n := code c in
  if ((65 <=? n) && (n <=? 90)) || ((192 <=? n) && (n <=? 222) && negb (n =? 215))
  then ascii_of_N (Z.to_N (n + 32))
  else c.

Fixpoint toLowerCase (s : string) : string :=
  match s with
  | EmptyString => EmptyString
  | String c r => String (lowerChar c) (toLowerCase r)
  end.

(** [s.startsWith (p)]; [stripPrefix] also gives what follows [p]. *)
Fixpoint stripPrefix (p s : string) : option string :=
  match p, s with
  | EmptyString, _ => Some s
  | String a p', String b s' => if Ascii.eqb a b then stripPrefix p' s' else None
  | String _ _, EmptyString => None
  end.

Definition startsWith (p s : string) : bool :=
  match stripPrefix p s with Some _ => true | None => false end.

(** [s.includes (p)] *)
Fixpoint includes (p s : string) : bool :=
  startsWith p s ||
  match s with
  | EmptyString => false
  | String _ r => includes p r
  end.

(** The longest prefix whose characters satisfy [f], and the rest. *)
Fixpoint span (f : ascii -> bool) (s : string) : string * string :=
  match s with
  | EmptyString => (EmptyString, EmptyString)
  | String c r =>
      if f c then let '(a, b) := span f r in (String c a, b)
      else (EmptyString, s)
  end.

Definition isEmpty (s : string) : bool :=
  match s with EmptyString => true | _ => false end.

(** A string is truthy when it is not empty; [null]/[undefined] is falsy. *)
Definition truthy (o : option string) : bool :=
  match o with Some s => negb (isEmpty s) | None => false end.

(** The value of a run of digits in base [radix], most significant first. *)
Definition digitValue (c : ascii) : option Z :=
  let n := code c in
  if (48 <=? n) && (n <=? 57) then Some (n - 48)
  else if (97 <=? n) && (n <=? 122) then Some (n - 87)
  else if (65 <=? n) && (n <=? 90) then Some (n - 55)
  else None.

Fixpoint digitsFrom (radix acc : Z) (s : string) : Z * bool :=
  match s with
  | EmptyString => (acc, false)
  | String c r =>
      match digitValue c with
      | Some d =>
          if d <? radix then (fst (digitsFrom radix (radix * acc + d) r), true)
          else (acc, false)
      | None => (acc, false)
      end
  end.

(** [parseInt (s)] with no radix argument: leading white space, a sign, a
    [0x]/[0X] prefix for base 16, then the longest run of digits; [None]
    is [NaN]. *)
Definition parseInt (s : string) : option Z :=
  let s1 := snd (span isSpace s) in
  let '(neg, s2) :=
    match s1 with
    | String "-" r => (true, r)
    | String "+" r => (false, r)
    | _ => (false, s1)
    end in
  let '(radix, s3) :=
    match s2 with
    | String "0" (String "x" r) => (16, r)
    | String "0" (String "X" r) => (16, r)
    | _ => (10, s2)
    end in
  match digitsFrom radix 0 s3 with
  | (v, true) => Some (if neg then - v else v)
  | (_, false) => None
  end.

(** [parseInt] of a capture of [\d+]: the decimal value of the digits. *)
Definition parseDigits (ds : string) : Z := fst (digitsFrom 10 0 ds).

(** [s.trim ()] *)
Fixpoint trimEnd (s : string) : string :=
  match s with
  | EmptyString => EmptyString
  | String c r =>
      let r' := trimEnd r in
      if isSpace c && isEmpty r' then EmptyString else String c r'
  end.

Definition trim (s : string) : string := trimEnd (snd (span isSpace s)).

(** [s.split (",")[0]] *)
Fixpoint beforeComma (s : string) : string :=
  match s with
  | EmptyString => EmptyString
  | String c r => if Ascii.eqb c "," then EmptyString else String c (beforeComma r)
  end.

(** A match of [/every\s+(\d+)\s*UNIT/] that starts at the head of [s]:
    the capture. The three classes and the literals that follow them are
    disjoint, so the greedy quantifiers never give a character back and
    each run is the longest one. *)
Definition matchEveryAt (unit s : string) : option string :=
  match stripPrefix "every" s with
  | None => None
  | Some r0 =>
      let '(ws, r1) := span isSpace r0 in
      if isEmpty ws then None else
      let '(ds, r2) := span isDigit r1 in
      if isEmpty ds then None else
      let '(_, r3) := span isSpace r2 in
      if startsWith unit r3 then Some ds else None
  end.

(** [s.match (/every\s+(\d+)\s*UNIT/)]: the leftmost match, its group 1. *)
Fixpoint matchEvery (unit s : string) : option string :=
  match matchEveryAt unit s with
  | Some ds => Some ds
  | None =>
      match s with
      | EmptyString => None
      | String _ r => matchEvery unit r
      end
  end.

End Js.

(** ** [types.ts] *)

(** The string literal types ['healthy' | 'late' | 'down' | 'paused'] and
    ['success' | 'failure']. *)
Inductive MonitorStatus := Healthy | Late | Down | Paused.

Inductive PingStatus := Success | Failure.

(** The fields of [Ping] carry the prefix [ping_], as [id] and [status]
    are fields of [Monitor] too. An optional field is an [option]. *)
Record Ping := mkPing {
  ping_id : string;
  ping_timestamp : string;
  ping_status : PingStatus;
  ping_duration : option Z;
  ping_message : option string;
  ping_ip : option string
}.

Record Monitor := mkMonitor {
  id : string;
  name : string;
  schedule : string;
  intervalMinutes : option Z;
  graceMinutes : Z;
  status : MonitorStatus;
  lastPing : option string;
  nextExpected : option string;
  pings : list Ping;
  createdAt : string;
  paused : bool;
  pausedAt : option string;
  pausedUntil : option string;
  pauseReason : option string
}.

Definition parseScheduleInterval (schedule : string) : Z :=
  let lower := Js.toLowerCase schedule in
  match Js.matchEvery "min" lower with
  | Some ds => Js.parseDigits ds
  | None =>
  if Js.includes "every minute" lower then 1 else
  match Js.matchEvery "hour" lower with
  | Some ds => Js.parseDigits ds * 60
  | None =>
  if Js.includes "every hour" lower then 60 else
  if Js.includes "every day" lower || Js.includes "daily" lower then 24 * 60 else
  if Js.includes "every week" lower || Js.includes "weekly" lower then 7 * 24 * 60 else
  24 * 60
  end
  end.

(** The interval [getMonitorStatus] and [buildPingDisplay] work with:
    [monitor.intervalMinutes || parseScheduleInterval (monitor.schedule)].
    [undefined] and [0] are falsy. *)
Definition monitorInterval (monitor : Monitor) : Z :=
  match intervalMinutes monitor with
  | Some i => if i =? 0 then parseScheduleInterval (schedule monitor) else i
  | None => parseScheduleInterval (schedule monitor)
  end.

Section Status.

(** [new Date (s).getTime ()]; [None] is [NaN]. *)
Variable getTime : string -> option Z.

(** [now] is the reading of [Date.now ()]; each path reads it once. A
    comparison with [NaN] is false. *)
Definition getMonitorStatus (now : Z) (monitor : Monitor) : MonitorStatus :=
  if paused monitor then
    if Js.truthy (pausedUntil monitor) then
      match getTime (default "" (pausedUntil monitor)) with
      | Some resumeTime =>
          if now >=? resumeTime then Paused else Paused
      | None => Paused
      end
    else Paused
  else
  if negb (Js.truthy (lastPing monitor)) then Down else
  match getTime (default "" (lastPing monitor)) with
  | None => Healthy
  | Some lastPingTime =>
      let graceMs := graceMinutes monitor * 60 * 1000 in
      let intervalMs := monitorInterval monitor * 60 * 1000 in
      let expectedNextPing := lastPingTime + intervalMs in
      let timeSinceExpected := now - expectedNextPing in
      if timeSinceExpected >? graceMs then Down
      else if timeSinceExpected >? 0 then Late
      else Healthy
  end.

End Status.

(** ** Dates in the ISO format

    [YYYY-MM-DDTHH:mm:ssZ] and [YYYY-MM-DDTHH:mm:ss.fffZ]: what
    [toISOString] writes and what the pause route's validation lets in. *)

Module Iso.

Definition digits (n : nat) (s : string) : option (Z * string) :=
  let d := substring 0 n s in
  if (String.length d =? n)%nat && Js.isEmpty (snd (Js.span Js.isDigit d))
  then Some (Js.parseDigits d, substring n (String.length s - n) s)
  else None.

Definition lit (p : string) (s : string) : option string := Js.stripPrefix p s.

(** Days from 1970-01-01 to the civil date, in the proleptic Gregorian
    calendar. *)
Definition daysFromCivil (y m d : Z) : Z :=
  let y' := if m <=? 2 then y - 1 else y in
  let era := y' / 400 in
  let yoe := y' - era * 400 in
  let mp := if m >? 2 then m - 3 else m + 9 in
  let doy := (153 * mp + 2) / 5 + d - 1 in
  let doe := yoe * 365 + yoe / 4 - yoe / 100 + doy in
  era * 146097 + doe - 719468.

(** The fraction of a second, in milliseconds: its first three digits. *)
Definition fraction (s : string) : option (Z * string) :=
  match s with
  | String "." r =>
      let '(ds, rest) := Js.span Js.isDigit r in
      if Js.isEmpty ds then None
      else Some (Js.parseDigits (substring 0 3 (ds ++ "00")), rest)
  | _ => Some (0, s)
  end.

Definition getTime (s : string) : option Z :=
  '(y, s) ← digits 4 s; s ← lit "-" s;
  '(mo, s) ← digits 2 s; s ← lit "-" s;
  '(d, s) ← digits 2 s; s ← lit "T" s;
  '(h, s) ← digits 2 s; s ← lit ":" s;
  '(mi, s) ← digits 2 s; s ← lit ":" s;
  '(sec, s) ← digits 2 s;
  '(ms, s) ← fraction s;
  if negb (String.eqb s "Z") then None else
  if (1 <=? mo) && (mo <=? 12) && (1 <=? d) && (d <=? 31)
     && (h <=? 23) && (mi <=? 59) && (sec <=? 59)
  then Some ((((daysFromCivil y mo d * 24 + h) * 60 + mi) * 60 + sec) * 1000 + ms)
  else None.

End Iso.

(** ** [db.ts]: the tables and the prepared statements *)

(** A row of [monitors]; the primary key [id] is the key of the table. *)
Record MonitorRow := mkMonitorRow {
  r_name : string;
  r_schedule : string;
  r_interval_minutes : Z;
  r_grace_minutes : Z;
  r_last_ping : option string;
  r_created_at : string;
  r_paused : Z;
  r_paused_at : option string;
  r_paused_until : option string;
  r_pause_reason : option string
}.

(** A row of [pings]; the primary key [id] is the key of the table. *)
Record PingRow := mkPingRow {
  p_monitor_id : string;
  p_timestamp : string;
  p_status : PingStatus;
  p_duration : option Z;
  p_message : option string;
  p_ip : option string
}.

Record Db := mkDb {
  monitors : gmap string MonitorRow;
  pingRows : gmap string PingRow
}.

(** What a call gives back: a value, or an exception. *)
Inductive outcome (A : Type) :=
  | Returned (a : A)
  | Thrown.
Arguments Returned {A} a.
Arguments Thrown {A}.

Module Stmt.

Definition getMonitor (id : string) (db : Db) : option MonitorRow :=
  monitors db !! id.

(** [ORDER BY timestamp DESC] compares the stored text. *)
Definition newerFirst (a b : string * PingRow) : Prop :=
  String.leb (p_timestamp b.2) (p_timestamp a.2) = true.

#[global] Instance newerFirst_dec : RelDecision newerFirst.
Proof. intros a b. unfold newerFirst. apply _. Defined.

Definition getPingsForMonitor (id : string) (db : Db) : list (string * PingRow) :=
  take 75 (merge_sort newerFirst
    (List.filter (fun kr => String.eqb (p_monitor_id kr.2) id)
       (map_to_list (pingRows db)))).

(** [INSERT INTO monitors]: the primary key must be new. *)
Definition insertMonitor (id : string) (row : MonitorRow) (db : Db) : option Db :=
  match monitors db !! id with
  | Some _ => None
  | None => Some (mkDb (<[id := row]> (monitors db)) (pingRows db))
  end.

Definition updateMonitor (id name schedule : string) (intervalMinutes graceMinutes : Z)
    (lastPing : option string) (paused : Z)
    (pausedAt pausedUntil pauseReason : option string) (db : Db) : Db :=
  mkDb (alter (fun row =>
          mkMonitorRow name schedule intervalMinutes graceMinutes lastPing
            (r_created_at row) paused pausedAt pausedUntil pauseReason)
        id (monitors db))
       (pingRows db).

(** [INSERT INTO pings]: the primary key must be new and the foreign key
    [monitor_id] must name a monitor. *)
Definition insertPing (id : string) (row : PingRow) (db : Db) : option Db :=
  match pingRows db !! id, monitors db !! p_monitor_id row with
  | None, Some _ => Some (mkDb (monitors db) (<[id := row]> (pingRows db)))
  | _, _ => None
  end.

Definition updateMonitorLastPing (timestamp id : string) (db : Db) : Db :=
  mkDb (alter (fun row =>
          mkMonitorRow (r_name row) (r_schedule row) (r_interval_minutes row)
            (r_grace_minutes row) (Some timestamp) (r_created_at row)
            (r_paused row) (r_paused_at row) (r_paused_until row)
            (r_pause_reason row))
        id (monitors db))
       (pingRows db).

Definition pauseMonitor (id pausedAt : string) (pausedUntil pauseReason : option string)
    (db : Db) : Db :=
  mkDb (alter (fun row =>
          mkMonitorRow (r_name row) (r_schedule row) (r_interval_minutes row)
            (r_grace_minutes row) (r_last_ping row) (r_created_at row)
            1 (Some pausedAt) pausedUntil pauseReason)
        id (monitors db))
       (pingRows db).

Definition resumedRow (row : MonitorRow) : MonitorRow :=
  mkMonitorRow (r_name row) (r_schedule row) (r_interval_minutes row)
    (r_grace_minutes row) (r_last_ping row) (r_created_at row)
    0 None None None.

Definition resumeMonitor (id : string) (db : Db) : Db :=
  mkDb (alter resumedRow id (monitors db)) (pingRows db).

(** [WHERE paused = 1 AND paused_until IS NOT NULL AND paused_until <= ?]:
    [<=] on two texts is the order of their bytes. *)
Definition dueToResume (now : string) (row : MonitorRow) : bool :=
  (r_paused row =? 1) &&
  match r_paused_until row with
  | Some u => String.leb u now
  | None => false
  end.

Definition getPausedMonitorsToResume (now : string) (db : Db) : list string :=
  (List.filter (fun kr => dueToResume now kr.2) (map_to_list (monitors db))).*1.

(** [ORDER BY created_at DESC] compares the stored text. *)
Definition createdLaterFirst (a b : string * MonitorRow) : Prop :=
  String.leb (r_created_at b.2) (r_created_at a.2) = true.

#[global] Instance createdLaterFirst_dec : RelDecision createdLaterFirst.
Proof. intros a b. unfold createdLaterFirst. apply _. Defined.

Definition getAllMonitors (db : Db) : list (string * MonitorRow) :=
  merge_sort createdLaterFirst (map_to_list (monitors db)).

(** [DELETE FROM monitors WHERE id = ?], with [foreign_keys = ON]: the
    pings of the monitor go with it ([ON DELETE CASCADE]). The number is
    [changes], the count of monitor rows deleted. *)
Definition deleteMonitor (id : string) (db : Db) : Z * Db :=
  match monitors db !! id with
  | None => (0, db)
  | Some _ =>
      (1, mkDb (delete id (monitors db))
               (filter (fun kr => p_monitor_id kr.2 <> id) (pingRows db)))
  end.

(** [SELECT COUNT( * ) as count FROM pings] *)
Definition countPings (db : Db) : Z := Z.of_nat (size (pingRows db)).

(** [SELECT COUNT( * ) as count FROM monitors] *)
Definition countMonitors (db : Db) : Z := Z.of_nat (size (monitors db)).

End Stmt.

(** [db.transaction (body) ()]: the statements of [body] are committed
    together, or, when one of them fails, none is and the call throws. *)
Definition transaction (body : Db -> option Db) (db : Db) : outcome unit * Db :=
  match body db with
  | Some db' => (Returned tt, db')
  | None => (Thrown, db)
  end.

(** ** [storage.ts] *)

(** The fields of a [Partial<Monitor>] that [updateMonitor] reads. [None]
    is a field that is absent or [null]: [??] treats the two alike. *)
Record MonitorUpdates := mkUpdates {
  u_name : option string;
  u_schedule : option string;
  u_graceMinutes : option Z;
  u_lastPing : option string;
  u_paused : option bool;
  u_pausedAt : option string;
  u_pausedUntil : option string;
  u_pauseReason : option string
}.

Definition set_status (st : MonitorStatus) (m : Monitor) : Monitor :=
  mkMonitor (id m) (name m) (schedule m) (intervalMinutes m) (graceMinutes m) st
    (lastPing m) (nextExpected m) (pings m) (createdAt m) (paused m)
    (pausedAt m) (pausedUntil m) (pauseReason m).

Definition rowToPing (kr : string * PingRow) : Ping :=
  mkPing kr.1 (p_timestamp kr.2) (p_status kr.2) (p_duration kr.2)
    (p_message kr.2) (p_ip kr.2).

(** [m.status === st] *)
Definition MonitorStatus_eqb (a b : MonitorStatus) : bool :=
  match a, b with
  | Healthy, Healthy | Late, Late | Down, Down | Paused, Paused => true
  | _, _ => false
  end.

(** What [getStats] returns. *)
Record Stats := mkStats {
  stats_total : Z;
  stats_healthy : Z;
  stats_late : Z;
  stats_down : Z;
  stats_paused : Z;
  totalPings : Z
}.

Section Storage.

Variable getTime : string -> option Z.

(** [now] is the clock reading of the [getMonitorStatus] call. *)
Definition rowToMonitor (now : Z) (id : string) (row : MonitorRow) (pings : list Ping)
    : Monitor :=
  let monitor :=
    mkMonitor id (r_name row) (r_schedule row) (Some (r_interval_minutes row))
      (r_grace_minutes row) Down (r_last_ping row) None pings (r_created_at row)
      (r_paused row =? 1) (r_paused_at row) (r_paused_until row)
      (r_pause_reason row) in
  set_status (getMonitorStatus getTime now monitor) monitor.

Definition getMonitor (now : Z) (id : string) (db : Db) : option Monitor :=
  match Stmt.getMonitor id db with
  | None => None
  | Some row =>
      Some (rowToMonitor now id row (rowToPing <$> Stmt.getPingsForMonitor id db))
  end.

(** [newId] is the value of [generateId ()] and [createdAt] that of
    [new Date ().toISOString ()]; [graceMinutes] is [None] when the
    argument is left out. *)
Definition createMonitor (newId createdAt : string) (name schedule : string)
    (graceMinutes : option Z) (db : Db) : outcome Monitor * Db :=
  let graceMinutes := default 15 graceMinutes in
  let intervalMinutes := parseScheduleInterval schedule in
  match Stmt.insertMonitor newId
          (mkMonitorRow name schedule intervalMinutes graceMinutes None createdAt
             0 None None None) db with
  | None => (Thrown, db)
  | Some db' =>
      (Returned (mkMonitor newId name schedule (Some intervalMinutes) graceMinutes
                   Down None None [] createdAt false None None None), db')
  end.

(** The status of [existing] is not read, so one clock reading [now]
    serves both [getMonitor] calls. [existing] comes from [rowToMonitor],
    which always fills [intervalMinutes]: the [default 0] below is never
    reached. *)
Definition updateMonitor (now : Z) (id : string) (updates : MonitorUpdates) (db : Db)
    : option Monitor * Db :=
  match getMonitor now id db with
  | None => (None, db)
  | Some existing =>
      let schedule' := default (schedule existing) (u_schedule updates) in
      let intervalMinutes' :=
        if Js.truthy (u_schedule updates)
        then Some (parseScheduleInterval (default "" (u_schedule updates)))
        else intervalMinutes existing in
      let db' :=
        Stmt.updateMonitor id
          (default (name existing) (u_name updates))
          schedule'
          (default 0 intervalMinutes')
          (default (graceMinutes existing) (u_graceMinutes updates))
          (from_option Some (lastPing existing) (u_lastPing updates))
          (if default (paused existing) (u_paused updates) then 1 else 0)
          (from_option Some (pausedAt existing) (u_pausedAt updates))
          (from_option Some (pausedUntil existing) (u_pausedUntil updates))
          (from_option Some (pauseReason existing) (u_pauseReason updates))
          db in
      (getMonitor now id db', db')
  end.

(** [newId] is the value of [generateId ()] and [timestamp] that of
    [new Date ().toISOString ()]. The result is the ping, [null] ([None])
    for an unknown monitor, or the exception of a failed transaction. *)
Definition recordPing (newId timestamp : string) (id : string) (success : bool)
    (duration : option Z) (message ip : option string) (db : Db)
    : outcome (option Ping) * Db :=
  match Stmt.getMonitor id db with
  | None => (Returned None, db)
  | Some _ =>
      let ping :=
        mkPing newId timestamp (if success then Success else Failure)
          duration message ip in
      match
        transaction (fun db =>
          db1 ← Stmt.insertPing (ping_id ping)
                  (mkPingRow id (ping_timestamp ping) (ping_status ping)
                     (ping_duration ping) (ping_message ping) (ping_ip ping)) db;
          Some (Stmt.updateMonitorLastPing (ping_timestamp ping) id db1)) db
      with
      | (Returned _, db') => (Returned (Some ping), db')
      | (Thrown, db') => (Thrown, db')
      end
  end.

Definition pauseMonitor (now : Z) (pausedAt : string) (id : string)
    (reason until : option string) (db : Db) : option Monitor * Db :=
  match getMonitor now id db with
  | None => (None, db)
  | Some _ =>
      let db' := Stmt.pauseMonitor id pausedAt until reason db in
      (getMonitor now id db', db')
  end.

Definition resumeMonitor (now : Z) (id : string) (db : Db) : option Monitor * Db :=
  match getMonitor now id db with
  | None => (None, db)
  | Some _ =>
      let db' := Stmt.resumeMonitor id db in
      (getMonitor now id db', db')
  end.

(** [clock i] is the clock reading of the [getMonitorStatus] call for the
    row of index [i]. *)
Definition getAllMonitors (clock : nat -> Z) (db : Db) : list Monitor :=
  imap (fun i kr =>
          rowToMonitor (clock i) kr.1 kr.2 (rowToPing <$> Stmt.getPingsForMonitor kr.1 db))
       (Stmt.getAllMonitors db).

Definition getStats (clock : nat -> Z) (db : Db) : Stats :=
  let all := getAllMonitors clock db in
  let pingCount := Stmt.countPings db in
  let count st :=
    Z.of_nat (length (List.filter (fun m => MonitorStatus_eqb (status m) st) all)) in
  mkStats (Z.of_nat (length all)) (count Healthy) (count Late) (count Down)
    (count Paused) pingCount.

End Storage.

Definition deleteMonitor (id : string) (db : Db) : bool * Db :=
  let '(changes, db') := Stmt.deleteMonitor id db in
  (changes >? 0, db').

(** [now] is the value of [new Date ().toISOString ()]. The loop runs
    [resumeMonitor] on each selected id and collects it. *)
Definition checkAndResumeMonitors (now : string) (db : Db) : list string * Db :=
  let toResume := Stmt.getPausedMonitorsToResume now db in
  fold_left (fun '(resumed, db) id => ((resumed ++ [id])%list, Stmt.resumeMonitor id db))
    toResume ([], db).

(** ** The route [/api/monitors]: [PATCH]

    [validation.ts]: what [updateMonitorSchema.parse] leaves of a request
    body next to the [id]; the schema is a [z.object], which drops every
    other key. The handler passes it to [updateMonitor] as the updates. *)

Record UpdateMonitorInput := mkUpdateInput {
  in_name : option string;
  in_schedule : option string;
  in_graceMinutes : option Z
}.

Definition patchUpdates (validated : UpdateMonitorInput) : MonitorUpdates :=
  mkUpdates (in_name validated) (in_schedule validated) (in_graceMinutes validated)
    None None None None None.

(** ** [validation.ts]

    [schedulePattern.test (s)] for
    [/^(every\s+\d+\s*(min(ute)?s?|hours?)|every\s+(minute|hour|day|week)|daily|weekly)$/i].
    The letters of the expression are ASCII, so the flag [i] is the
    comparison of the lower-cased input; the classes [\s] and [\d] and the
    letters are disjoint, so each run is the longest one. *)
Definition schedulePattern (s : string) : bool :=
  let lower := Js.toLowerCase s in
  match Js.stripPrefix "every" lower with
  | Some r0 =>
      let '(ws, r1) := Js.span Js.isSpace r0 in
      if Js.isEmpty ws then false else
      let '(ds, r2) := Js.span Js.isDigit r1 in
      if Js.isEmpty ds then
        existsb (String.eqb r1) ["minute"; "hour"; "day"; "week"]
      else
        let '(_, r3) := Js.span Js.isSpace r2 in
        existsb (String.eqb r3) ["min"; "mins"; "minute"; "minutes"; "hour"; "hours"]
  | None => existsb (String.eqb lower) ["daily"; "weekly"]
  end.

(** ** [rate-limit.ts] *)

Record RateLimitEntry := mkEntry {
  count : Z;
  resetAt : Z
}.

Record RateLimitResult := mkRateLimitResult {
  allowed : bool;
  remaining : Z;
  result_resetAt : Z
}.

Definition WINDOW_MS : Z := 60 * 1000.
Definition MAX_REQUESTS_PER_WINDOW : Z := 5.

(** [now] is the reading of [Date.now ()]. *)
Definition checkRateLimit (now : Z) (monitorId : string)
    (rateLimitMap : gmap string RateLimitEntry)
    : RateLimitResult * gmap string RateLimitEntry :=
  let fresh :=
    let newEntry := mkEntry 1 (now + WINDOW_MS) in
    (mkRateLimitResult true (MAX_REQUESTS_PER_WINDOW - 1) (resetAt newEntry),
     <[monitorId := newEntry]> rateLimitMap) in
  match rateLimitMap !! monitorId with
  | None => fresh
  | Some entry =>
      if resetAt entry <? now then fresh
      else if count entry >=? MAX_REQUESTS_PER_WINDOW then
        (mkRateLimitResult false 0 (resetAt entry), rateLimitMap)
      else
        let entry' := mkEntry (count entry + 1) (resetAt entry) in
        (mkRateLimitResult true (MAX_REQUESTS_PER_WINDOW - count entry') (resetAt entry'),
         <[monitorId := entry']> rateLimitMap)
  end.

(** The body of the [setInterval] callback: the entries whose window is
    over are deleted. [now] is the reading of [Date.now ()]. *)
Definition cleanup (now : Z) (rateLimitMap : gmap string RateLimitEntry)
    : gmap string RateLimitEntry :=
  filter (fun ke => ~ (resetAt ke.2 < now)) rateLimitMap.

(** ** The route [/api/ping/[id]] *)

(** [Math.ceil (a / b)] for a non-zero [b]. *)
Definition ceilDiv (a b : Z) : Z := - ((- a) / b).

(** The values of the fields of a JSON object, as far as [pingSchema]
    tells them apart; a number is an integer. *)
Inductive JsonValue :=
  | JNull
  | JBool (b : bool)
  | JNum (n : Z)
  | JStr (s : string)
  | JOther.

(** What [request.json ()] finds: text that is no JSON, a JSON value that
    is not an object, or an object; of a key written twice the last
    occurrence counts. *)
Inductive Body :=
  | NotJson
  | JsonNotObject
  | JsonObject (fields : list (string * JsonValue)).

Record Request := mkRequest {
  x_forwarded_for : option string;
  x_real_ip : option string;
  content_length : option string;
  body : Body
}.

Inductive ResponseBody :=
  | TextBody (text : string)
  | ErrorBody (error : string) (details : bool)
  | PingBody (res_ping_id : option string) (monitor_id monitor_name : string)
      (monitor_status : MonitorStatus).

Record Response := mkResponse {
  res_status : Z;
  res_body : ResponseBody;
  res_headers : list (string * string)
}.

(** The readings of the clock and of the identifier source that a request
    makes, in the order the handler makes them. *)
Record Env := mkEnv {
  startTime : Z;
  limitTime : Z;
  retryTime : Z;
  statusTime : Z;
  endTime : Z;
  newId : string;
  timestamp : string
}.

Record Server := mkServer {
  rateLimitMap : gmap string RateLimitEntry;
  database : Db
}.

Definition getClientIp (request : Request) : option string :=
  let forwarded := (fun s => Js.trim (Js.beforeComma s)) <$> x_forwarded_for request in
  if Js.truthy forwarded then forwarded
  else if Js.truthy (x_real_ip request) then x_real_ip request
  else None.

Definition rateLimitHeaders (remaining resetAt : Z) : list (string * string) :=
  [("X-RateLimit-Remaining", pretty remaining);
   ("X-RateLimit-Reset", pretty (ceilDiv resetAt 1000))].

(** [validation.ts]: [pingSchema.parse]; [None] is a [ZodError]. *)
Record PingInput := mkPingInput {
  v_success : bool;
  v_duration : option Z;
  v_message : option string
}.

Definition field (key : string) (fields : list (string * JsonValue)) : option JsonValue :=
  snd <$> List.find (fun kv => String.eqb kv.1 key) (rev fields).

Definition pingSchema_parse (body : Body) : option PingInput :=
  match body with
  | NotJson | JsonNotObject => None
  | JsonObject fields =>
      success ←
        match field "success" fields with
        | None => Some true
        | Some (JBool b) => Some b
        | Some _ => None
        end;
      duration ←
        match field "duration" fields with
        | None => Some None
        | Some (JNum n) =>
            if (0 <=? n) && (n <=? 86400000) then Some (Some n) else None
        | Some _ => None
        end;
      message ←
        match field "message" fields with
        | None => Some None
        | Some (JStr s) =>
            if (String.length s <=? 500)%nat then Some (Some s) else None
        | Some _ => None
        end;
      Some (mkPingInput success duration message)
  end.

(** The JSON answer of an accepted [POST]:
    [{ status: 'ok', ping_id, monitor: { id, name, status } }]. *)
Definition pingRecorded (ping : option Ping) (monitor : Monitor)
    (rateLimit : RateLimitResult) : Response :=
  mkResponse 200
    (PingBody (ping_id <$> ping) (id monitor) (name monitor) (status monitor))
    (rateLimitHeaders (remaining rateLimit) (result_resetAt rateLimit)).

Section PingRoute.

Variable getTime : string -> option Z.

Definition GET (env : Env) (request : Request) (id : string) (server : Server)
    : outcome Response * Server :=
  let '(rateLimit, rateLimitMap') :=
    checkRateLimit (limitTime env) id (rateLimitMap server) in
  let db := database server in
  if negb (allowed rateLimit) then
    (Returned (mkResponse 429 (TextBody "Rate limit exceeded")
       ([("Content-Type", "text/plain");
         ("Retry-After",
          pretty (ceilDiv (result_resetAt rateLimit - retryTime env) 1000))]
        ++ rateLimitHeaders (remaining rateLimit) (result_resetAt rateLimit))%list),
     mkServer rateLimitMap' db)
  else
  match getMonitor getTime (statusTime env) id db with
  | None =>
      (Returned (mkResponse 404 (ErrorBody "Monitor not found" false) []),
       mkServer rateLimitMap' db)
  | Some monitor =>
      let duration := endTime env - startTime env in
      let ip := getClientIp request in
      match recordPing (newId env) (timestamp env) id true (Some duration) None ip db with
      | (Thrown, db') => (Thrown, mkServer rateLimitMap' db')
      | (Returned ping, db') =>
          (Returned (mkResponse 200 (TextBody "OK")
             ([("Content-Type", "text/plain");
               ("X-Ping-ID", default "" (ping_id <$> ping))]
              ++ rateLimitHeaders (remaining rateLimit) (result_resetAt rateLimit))%list),
           mkServer rateLimitMap' db')
      end
  end.

Definition POST (env : Env) (request : Request) (id : string) (server : Server)
    : outcome Response * Server :=
  let '(rateLimit, rateLimitMap') :=
    checkRateLimit (limitTime env) id (rateLimitMap server) in
  let db := database server in
  if negb (allowed rateLimit) then
    (Returned (mkResponse 429 (ErrorBody "Rate limit exceeded" false)
       ([("Retry-After",
          pretty (ceilDiv (result_resetAt rateLimit - retryTime env) 1000))]
        ++ rateLimitHeaders (remaining rateLimit) (result_resetAt rateLimit))%list),
     mkServer rateLimitMap' db)
  else
  match getMonitor getTime (statusTime env) id db with
  | None =>
      (Returned (mkResponse 404 (ErrorBody "Monitor not found" false) []),
       mkServer rateLimitMap' db)
  | Some monitor =>
      let hasBody :=
        Js.truthy (content_length request) &&
        match Js.parseInt (default "" (content_length request)) with
        | Some n => n >? 0
        | None => false
        end in
      let record (input : PingInput) :=
        let ip := getClientIp request in
        match recordPing (newId env) (timestamp env) id (v_success input)
                (v_duration input) (v_message input) ip db with
        | (Thrown, db') => (Thrown, mkServer rateLimitMap' db')
        | (Returned ping, db') =>
            (Returned (pingRecorded ping monitor rateLimit), mkServer rateLimitMap' db')
        end in
      if hasBody then
        match body request with
        | NotJson =>
            (Returned (mkResponse 400 (ErrorBody "Invalid JSON in request body" false) []),
             mkServer rateLimitMap' db)
        | parsed =>
            match pingSchema_parse parsed with
            | None =>
                (Returned (mkResponse 400 (ErrorBody "Invalid request body" true) []),
                 mkServer rateLimitMap' db)
            | Some validated => record validated
            end
        end
      else record (mkPingInput true None None)
  end.

End PingRoute.

(** ** The route [/api/ping/[id]]: [POST] among other requests

    [POST] reads the monitor, awaits the body of the request, and records
    the ping. While it awaits, the server serves other requests: [during]
    is what they do to the server's state. A request with no body is not
    awaited. With [during] the identity this is [POST]. *)

Section PingRouteAwait.

Variable getTime : string -> option Z.

Definition POSTawait (env : Env) (request : Request) (id : string)
    (during : Server -> Server) (server : Server) : outcome Response * Server :=
  let '(rateLimit, rateLimitMap') :=
    checkRateLimit (limitTime env) id (rateLimitMap server) in
  let db := database server in
  if negb (allowed rateLimit) then
    (Returned (mkResponse 429 (ErrorBody "Rate limit exceeded" false)
       ([("Retry-After",
          pretty (ceilDiv (result_resetAt rateLimit - retryTime env) 1000))]
        ++ rateLimitHeaders (remaining rateLimit) (result_resetAt rateLimit))%list),
     mkServer rateLimitMap' db)
  else
  match getMonitor getTime (statusTime env) id db with
  | None =>
      (Returned (mkResponse 404 (ErrorBody "Monitor not found" false) []),
       mkServer rateLimitMap' db)
  | Some monitor =>
      let hasBody :=
        Js.truthy (content_length request) &&
        match Js.parseInt (default "" (content_length request)) with
        | Some n => n >? 0
        | None => false
        end in
      let record (input : PingInput) (server : Server) :=
        let ip := getClientIp request in
        match recordPing (newId env) (timestamp env) id (v_success input)
                (v_duration input) (v_message input) ip (database server) with
        | (Thrown, db') => (Thrown, mkServer (rateLimitMap server) db')
        | (Returned ping, db') =>
            (Returned (pingRecorded ping monitor rateLimit),
             mkServer (rateLimitMap server) db')
        end in
      if hasBody then
        let server := during (mkServer rateLimitMap' db) in
        match body request with
        | NotJson =>
            (Returned (mkResponse 400 (ErrorBody "Invalid JSON in request body" false) []),
             server)
        | parsed =>
            match pingSchema_parse parsed with
            | None =>
                (Returned (mkResponse 400 (ErrorBody "Invalid request body" true) []),
                 server)
            | Some validated => record validated server
            end
        end
      else record (mkPingInput true None None) (mkServer rateLimitMap' db)
  end.

End PingRouteAwait.

(** ** The dashboard: [buildPingDisplay] *)

Inductive ItemType := ItemPing | ItemMissed | ItemLate.

Record DisplayItem := mkItem {
  item_type : ItemType;
  item_ping : option Ping;
  item_timestamp : option Z
}.

Definition pingItem (ping : Ping) : DisplayItem := mkItem ItemPing (Some ping) None.
Definition missedItem (t : Z) : DisplayItem := mkItem ItemMissed None (Some t).
Definition lateItem (t : Z) : DisplayItem := mkItem ItemLate None (Some t).

(** [for (let i = 0; i < missedCount; i++) result.push ({ type: 'missed',
    timestamp: stamp (i) })] *)
Definition missedRun (missedCount : Z) (stamp : Z -> Z) : list DisplayItem :=
  (fun i => missedItem (stamp (Z.of_nat i))) <$> seq 0 (Z.to_nat missedCount).

Section Dashboard.

Variable getTime : string -> option Z.

(** The markers pushed before the history. [None]: the loop does not end,
    its bound [missedCount] being a division by zero. *)
Definition leadingMarkers (now : Z) (monitor : Monitor) : option (list DisplayItem) :=
  let intervalMs := monitorInterval monitor * 60 * 1000 in
  let graceMs := graceMinutes monitor * 60 * 1000 in
  if negb (Js.truthy (lastPing monitor)) then Some [] else
  match getTime (default "" (lastPing monitor)) with
  | None => Some []
  | Some lastPingTime =>
      let timeSinceLastPing := now - lastPingTime in
      if (timeSinceLastPing >? intervalMs) && (timeSinceLastPing <=? intervalMs + graceMs)
      then Some [lateItem now]
      else if timeSinceLastPing >? intervalMs + graceMs then
        if intervalMs =? 0 then None else
        let missedCount := (timeSinceLastPing - graceMs) / intervalMs in
        Some (missedRun missedCount (fun i => now - i * intervalMs))
      else Some []
  end.

(** The markers pushed after [ping] when [next] follows it in the list. *)
Definition gapMarkers (intervalMs graceMs : Z) (ping next : Ping)
    : option (list DisplayItem) :=
  match getTime (ping_timestamp ping), getTime (ping_timestamp next) with
  | Some currentTime, Some nextTime =>
      let gap := currentTime - nextTime in
      if gap >? intervalMs + graceMs then
        if intervalMs =? 0 then (if gap >? 0 then None else Some []) else
        let missedCount := ceilDiv gap intervalMs - 1 in
        Some (missedRun missedCount (fun j => currentTime - (j + 1) * intervalMs))
      else Some []
  | _, _ => Some []
  end.

Fixpoint historyMarkers (intervalMs graceMs : Z) (pings : list Ping)
    : option (list DisplayItem) :=
  match pings with
  | [] => Some []
  | ping :: rest =>
      markers ←
        match rest with
        | [] => Some []
        | next :: _ => gapMarkers intervalMs graceMs ping next
        end;
      items ← historyMarkers intervalMs graceMs rest;
      Some (pingItem ping :: markers ++ items)%list
  end.

(** [now] is the reading of [Date.now ()]. *)
Definition buildPingDisplay (now : Z) (monitor : Monitor) : option (list DisplayItem) :=
  let intervalMs := monitorInterval monitor * 60 * 1000 in
  let graceMs := graceMinutes monitor * 60 * 1000 in
  leading ← leadingMarkers now monitor;
  history ← historyMarkers intervalMs graceMs (pings monitor);
  Some (take 75 (leading ++ history)%list).

End Dashboard.

(** ** The dashboard: [formatRelativeTime] *)

Section Relative.

Variable getTime : string -> option Z.

(** [formatRelativeTime] of the dashboard; [now] is the reading of
    [Date.now ()]. With a date that is not valid every comparison is one
    with [NaN] and fails. *)
Definition formatRelativeTime (now : Z) (dateStr : option string) : string :=
  if negb (Js.truthy dateStr) then "Never" else
  match getTime (default "" dateStr) with
  | None => "Just now"
  | Some time =>
      let diff := now - time in
      let minutes := diff / 60000 in
      let hours := minutes / 60 in
      let days := hours / 24 in
      if days >? 0 then pretty days ++ "d ago"
      else if hours >? 0 then pretty hours ++ "h ago"
      else if minutes >? 0 then pretty minutes ++ "m ago"
      else "Just now"
  end.

End Relative.

(** * The vocabulary of the properties *)

(** ** The schedule patterns by their meaning *)

(** Every character of [s] is of the class [f]. *)
Fixpoint allChars (f : ascii -> bool) (s : string) : bool :=
  match s with
  | EmptyString => true
  | String c r => f c && allChars f r
  end.

(** [s] does not begin with a character of the class [f]. *)
Definition stopsAt (f : ascii -> bool) (s : string) : bool :=
  match s with
  | EmptyString => true
  | String c _ => negb (f c)
  end.

(** The regular expression [/every\s+(\d+)\s*UNIT/], anchored at the head
    of [s], by its meaning: [s] is [every], a run of white space that is
    not empty, a run of digits that is not empty, a run of white space and
    the unit, in this order, followed by anything. [ds] is group 1. *)
Definition matchesEveryAt (unit s ds : string) : Prop :=
  exists ws ws' rest,
    s = "every" ++ ws ++ ds ++ ws' ++ unit ++ rest /\
    ws <> "" /\ allChars Js.isSpace ws = true /\
    ds <> "" /\ allChars Js.isDigit ds = true /\
    allChars Js.isSpace ws' = true.

(** [s.match (/every\s+(\d+)\s*UNIT/)] by its meaning: the expression
    matches at some position of [s] with group 1 equal to [ds], and at no
    position before that one. *)
Definition matchesEvery (unit s ds : string) : Prop :=
  exists before from,
    s = before ++ from /\ matchesEveryAt unit from ds /\
    forall before' from' ds',
      s = before' ++ from' -> (String.length before' < String.length before)%nat ->
      ~ matchesEveryAt unit from' ds'.

(** The first pattern of the precedence list that [schedule] matches is
    [every N min] or [every N hour] with [N] equal to zero. *)
Definition zeroCount (schedule : string) : bool :=
  let lower := Js.toLowerCase schedule in
  match Js.matchEvery "min" lower with
  | Some ds => Js.parseDigits ds =? 0
  | None =>
      negb (Js.includes "every minute" lower) &&
      match Js.matchEvery "hour" lower with
      | Some ds => Js.parseDigits ds =? 0
      | None => false
      end
  end.

(** [schedule] matches none of the patterns. *)
Definition matchesNoPattern (schedule : string) : bool :=
  let lower := Js.toLowerCase schedule in
  match Js.matchEvery "min" lower, Js.matchEvery "hour" lower with
  | None, None =>
      negb (Js.includes "every minute" lower || Js.includes "every hour" lower
            || Js.includes "every day" lower || Js.includes "daily" lower
            || Js.includes "every week" lower || Js.includes "weekly" lower)
  | _, _ => false
  end.

(** ** Times *)

(** [n] minutes, in milliseconds. *)
Definition minutes (n : Z) : Z := n * 60 * 1000.

(** ** Rows written by the recorder *)

(** The row that [recordPing] inserts. *)
Definition pingRowOf (id : string) (ping : Ping) : PingRow :=
  mkPingRow id (ping_timestamp ping) (ping_status ping) (ping_duration ping)
    (ping_message ping) (ping_ip ping).

(** The monitor row after [UPDATE monitors SET last_ping = ?]. *)
Definition withLastPing (timestamp : string) (row : MonitorRow) : MonitorRow :=
  mkMonitorRow (r_name row) (r_schedule row) (r_interval_minutes row)
    (r_grace_minutes row) (Some timestamp) (r_created_at row)
    (r_paused row) (r_paused_at row) (r_paused_until row) (r_pause_reason row).

(** ** The pause sub-state *)

(** The pause sub-state of a row is coherent: [paused_at] is set exactly
    when [paused] is 1, and [pause_reason] is set only then. *)
Definition pauseCoherent (row : MonitorRow) : Prop :=
  (is_Some (r_paused_at row) <-> r_paused row = 1) /\
  (is_Some (r_pause_reason row) -> r_paused row = 1).

#[global] Instance pauseCoherent_dec row : Decision (pauseCoherent row).
Proof. unfold pauseCoherent. apply _. Defined.

(** Every row of [monitors] is coherent. *)
Definition allCoherent (db : Db) : Prop :=
  map_Forall (fun _ row => pauseCoherent row) (monitors db).

#[global] Instance allCoherent_dec db : Decision (allCoherent db).
Proof. unfold allCoherent. apply _. Defined.

(** ** Invariants of the database *)

(** Every ping belongs to a monitor of the table: the foreign key of
    [pings]. *)
Definition pingsHaveMonitors (db : Db) : Prop :=
  map_Forall (fun _ ping => is_Some (monitors db !! p_monitor_id ping)) (pingRows db).

#[global] Instance pingsHaveMonitors_dec db : Decision (pingsHaveMonitors db).
Proof. unfold pingsHaveMonitors. apply _. Defined.

(** The stored interval of every monitor is the one its schedule parses
    to. *)
Definition intervalsDerived (db : Db) : Prop :=
  map_Forall (fun _ row => r_interval_minutes row = parseScheduleInterval (r_schedule row))
    (monitors db).

#[global] Instance intervalsDerived_dec db : Decision (intervalsDerived db).
Proof. unfold intervalsDerived. apply _. Defined.

(** A row as [createMonitor] and [resumeMonitor] leave it: not paused, no
    pause field set. *)
Definition notPaused (row : MonitorRow) : Prop :=
  r_paused row = 0 /\ r_paused_at row = None /\ r_paused_until row = None /\
  r_pause_reason row = None.

(** ** The accepted schedules *)

(** [Number.MAX_SAFE_INTEGER]: up to it the integers are JavaScript
    numbers, and [parseInt] of a run of digits is the number they write. *)
Definition MAX_SAFE_INTEGER : Z := 9007199254740991.

(** The lower-cased schedules that [schedulePattern] accepts, by their
    form, each with the number of minutes that it stands for: the [N] of
    [every N minutes] is the number its digits write. *)
Inductive acceptedAs : string -> Z -> Prop :=
  | every_N_minutes ws ds ws' unit :
      ws <> "" -> allChars Js.isSpace ws = true ->
      ds <> "" -> allChars Js.isDigit ds = true ->
      allChars Js.isSpace ws' = true ->
      unit ∈ ["min"; "mins"; "minute"; "minutes"] ->
      acceptedAs ("every" ++ ws ++ ds ++ ws' ++ unit) (Js.parseDigits ds)
  | every_N_hours ws ds ws' unit :
      ws <> "" -> allChars Js.isSpace ws = true ->
      ds <> "" -> allChars Js.isDigit ds = true ->
      allChars Js.isSpace ws' = true ->
      unit ∈ ["hour"; "hours"] ->
      acceptedAs ("every" ++ ws ++ ds ++ ws' ++ unit) (Js.parseDigits ds * 60)
  | every_unit unit interval :
      (unit, interval) ∈ [("minute", 1); ("hour", 60); ("day", 1440); ("week", 10080)] ->
      acceptedAs ("every " ++ unit) interval
  | every_unit_apart ws unit :
      ws <> "" -> allChars Js.isSpace ws = true -> ws <> " " ->
      unit ∈ ["minute"; "hour"; "day"; "week"] ->
      acceptedAs ("every" ++ ws ++ unit) 1440
  | daily : acceptedAs "daily" 1440
  | weekly : acceptedAs "weekly" 10080.

(** No character of [s] is [h]. *)
Definition avoids (h : ascii) (s : string) : bool :=
  allChars (fun c => negb (Ascii.eqb h c)) s.

(** ** Runs of requests *)

(** [checkRateLimit] called for the same monitor at each of [times], in
    that order: the results and the map left behind. *)
Fixpoint checkRateLimits (times : list Z) (monitorId : string)
    (rateLimitMap : gmap string RateLimitEntry)
    : list RateLimitResult * gmap string RateLimitEntry :=
  match times with
  | [] => ([], rateLimitMap)
  | now :: times =>
      let '(result, rateLimitMap) := checkRateLimit now monitorId rateLimitMap in
      let '(results, rateLimitMap) := checkRateLimits times monitorId rateLimitMap in
      (result :: results, rateLimitMap)
  end.

(** Every counter is between 1 and the maximum. *)
Definition countsInRange (rateLimitMap : gmap string RateLimitEntry) : Prop :=
  map_Forall (fun _ entry => 1 <= count entry <= MAX_REQUESTS_PER_WINDOW) rateLimitMap.

#[global] Instance countsInRange_dec m : Decision (countsInRange m).
Proof. unfold countsInRange. apply _. Defined.

(** What the handler reads of the [Content-Length] header: there is a
    body when the header is a number above 0. *)
Definition hasBody (request : Request) : bool :=
  Js.truthy (content_length request) &&
  match Js.parseInt (default "" (content_length request)) with
  | Some n => n >? 0
  | None => false
  end.

(** The state in which [POST] records the ping: the one the request
    found, with the rate limiter's count, after the requests served while
    the body was awaited. *)
Definition recordingState (env : Env) (request : Request) (monitorId : string)
    (during : Server -> Server) (server : Server) : Server :=
  let arrived :=
    mkServer (snd (checkRateLimit (limitTime env) monitorId (rateLimitMap server)))
      (database server) in
  if hasBody request then during arrived else arrived.

(** ** The order of the statuses *)

(** How bad a status is: healthy, late, down. A paused monitor is out of
    the order. *)
Definition severity (st : MonitorStatus) : Z :=
  match st with
  | Healthy => 0
  | Late => 1
  | Down => 2
  | Paused => 0
  end.

(** * Example data *)

Definition backupId : string := "5f0c7a52-1d3b-4f7e-9a55-0c2d6e8b9f10".

(** The row of a monitor created on 2024-01-01 and never pinged. *)
Definition backupRow : MonitorRow :=
  mkMonitorRow "Nightly backup" "Every 5 minutes" 5 10 None "2024-01-01T00:00:00.000Z"
    0 None None None.

(** A database with that one monitor and no ping. *)
Definition backupDb : Db := mkDb {[ backupId := backupRow ]} ∅.

(** A monitor pinged on 2024-01-15 at 10:00 UTC, every 5 minutes, grace
    10 minutes. *)
Definition backupMonitor : Monitor :=
  mkMonitor "5f0c7a52-1d3b-4f7e-9a55-0c2d6e8b9f10" "Nightly backup" "Every 5 minutes"
    (Some 5) 10 Down (Some "2024-01-15T10:00:00.000Z") None [] "2024-01-01T00:00:00.000Z"
    false None None None.

(** The same monitor, paused until 2024-01-15 10:00 UTC. *)
Definition pausedMonitor : Monitor :=
  mkMonitor "5f0c7a52-1d3b-4f7e-9a55-0c2d6e8b9f10" "Nightly backup" "Every 5 minutes"
    (Some 5) 10 Down (Some "2024-01-15T10:00:00.000Z") None [] "2024-01-01T00:00:00.000Z"
    true (Some "2024-01-15T09:00:00.000Z") (Some "2024-01-15T10:00:00Z")
    (Some "maintenance").

(** [backupDb] after
    [pauseMonitor (id, 'Scheduled maintenance', '2024-01-15T10:00:00Z')],
    called at 09:00 UTC of that day. *)
Definition pausedDb : Db :=
  snd (pauseMonitor Iso.getTime 1705309200000 "2024-01-15T09:00:00.000Z" backupId
         (Some "Scheduled maintenance") (Some "2024-01-15T10:00:00Z") backupDb).

(** A request that reaches the server on 2024-01-15 at 10:00 UTC and is
    served in two milliseconds. *)
Definition pingEnv : Env :=
  mkEnv 1705312800000 1705312800000 1705312800000 1705312800001 1705312800002
    "0b0e2c1a-79a4-4d7b-8a43-1f6f3a1f0c55" "2024-01-15T10:00:00.002Z".

Definition cronRequest : Request := mkRequest None (Some "203.0.113.7") None NotJson.

(** A server that has counted no request yet. *)
Definition quietServer : Server := mkServer ∅ backupDb.

(** Two pings, of 10:00 and of 09:00 UTC. *)
Definition laterPing : Ping :=
  mkPing "0b0e2c1a-79a4-4d7b-8a43-1f6f3a1f0c55" "2024-01-15T10:00:00.000Z" Success
    None None None.

Definition earlierPing : Ping :=
  mkPing "9c3d1f0e-5b7a-4e21-b0c4-2a8d7e6f5a41" "2024-01-15T09:00:00.000Z" Success
    None None None.

(** A monitor with these two pings, every 5 minutes, grace 10 minutes, as
    the dashboard receives it. *)
Definition gappyMonitor : Monitor :=
  mkMonitor backupId "Nightly backup" "Every 5 minutes" (Some 5) 10 Down
    (Some "2024-01-15T10:00:00.000Z") None [laterPing; earlierPing]
    "2024-01-01T00:00:00.000Z" false None None None.

(** [backupDb] after a first ping, at 10:00 UTC. *)
Definition pingedDb : Db :=
  snd (recordPing "0b0e2c1a-79a4-4d7b-8a43-1f6f3a1f0c55" "2024-01-15T10:00:00.000Z"
         backupId true None None None backupDb).

(** * Properties *)

(** ** The schedule parser *)

Lemma digitValue_nonneg c d : Js.digitValue c = Some d -> 0 <= d.
Proof.
  unfold Js.digitValue. intros H.
  repeat case_match; simplify_eq; repeat (rewrite ?andb_true_iff, ?Z.leb_le in *); lia.
Qed.

Lemma digitsFrom_nonneg radix acc s :
  0 <= radix -> 0 <= acc -> 0 <= fst (Js.digitsFrom radix acc s).
Proof.
  intros Hr. revert acc. induction s as [|c r IH]; intros acc Hacc; simpl; [lia|].
  destruct (Js.digitValue c) as [d|] eqn:Hd; simpl; [|lia].
  apply digitValue_nonneg in Hd.
  destruct (d <? radix); simpl; [|lia]. apply IH. nia.
Qed.

Lemma parseDigits_nonneg ds : 0 <= Js.parseDigits ds.
Proof. apply digitsFrom_nonneg; lia. Qed.

Lemma span_isDigit_all ds :
  Js.isEmpty (snd (Js.span Js.isDigit ds)) = true ->
  forall acc, snd (Js.digitsFrom 10 acc ds) = negb (Js.isEmpty ds).
Proof.
  induction ds as [|c r IH]; simpl; intros H acc; [done|].
  destruct (Js.isDigit c) eqn:Hc; [|done].
  unfold Js.digitValue. unfold Js.isDigit in Hc. rewrite Hc.
  apply andb_true_iff in Hc as [H1 H2].
  apply Z.leb_le in H1, H2.
  destruct (Js.code c - 48 <? 10) eqn:Hlt; [done|].
  apply Z.ltb_ge in Hlt. lia.
Qed.

Lemma digit_cases c :
  Js.isDigit c = true ->
  c ∈ ["0"; "1"; "2"; "3"; "4"; "5"; "6"; "7"; "8"; "9"]%char.
Proof.
  destruct c as [[] [] [] [] [] [] [] []]; vm_compute; intros H; try discriminate H;
    set_solver.
Qed.

Lemma digit_not_space c : Js.isDigit c = true -> Js.isSpace c = false.
Proof. destruct c as [[] [] [] [] [] [] [] []]; vm_compute; congruence. Qed.

(** On a non-empty run of decimal digits [parseInt] is total and agrees
    with [parseDigits]. *)
Lemma parseInt_capture ds :
  Js.isEmpty ds = false ->
  Js.isEmpty (snd (Js.span Js.isDigit ds)) = true ->
  Js.parseInt ds = Some (Js.parseDigits ds).
Proof.
  intros Hne Hall.
  pose proof (span_isDigit_all ds Hall 0) as Hsnd. rewrite Hne in Hsnd. simpl in Hsnd.
  destruct ds as [|c r]; [done|]. simpl in Hall.
  destruct (Js.isDigit c) eqn:Hc; [|done].
  assert (Hr : Js.isEmpty (snd (Js.span Js.isDigit r)) = true).
  { by destruct (Js.span Js.isDigit r). }
  unfold Js.parseDigits.
  destruct (Js.digitsFrom 10 0 (String c r)) as [v b] eqn:Hd. simpl in Hsnd. subst b.
  assert (Hx : forall r', r = String "x" r' \/ r = String "X" r' -> False).
  { intros r' [-> | ->]; simpl in Hr; done. }
  unfold Js.parseInt. simpl Js.span. rewrite (digit_not_space c Hc). simpl snd.
  apply digit_cases in Hc.
  repeat (apply elem_of_cons in Hc as [-> | Hc]); try (by apply elem_of_nil in Hc);
    try (by cbn -[Js.digitsFrom]; rewrite Hd).
  destruct r as [|c2 r2]; [by cbn -[Js.digitsFrom]; rewrite Hd|].
  destruct (decide (c2 = "x"%char)) as [-> | N1]; [by destruct (Hx r2); left|].
  destruct (decide (c2 = "X"%char)) as [-> | N2]; [by destruct (Hx r2); right|].
  cbn -[Js.digitsFrom].
  destruct c2 as [[] [] [] [] [] [] [] []]; try done; by rewrite Hd.
Qed.

Lemma span_fst_all f s : snd (Js.span f (fst (Js.span f s))) = "".
Proof.
  induction s as [|c r IH]; simpl; [done|].
  destruct (f c) eqn:Hf; [|done].
  destruct (Js.span f r) as [a b] eqn:E. simpl in *. rewrite Hf.
  by destruct (Js.span f a).
Qed.

(** The capture of [/every\s+(\d+)\s*UNIT/] is a non-empty run of decimal
    digits, on which [parseInt] is [parseDigits]: [parseScheduleInterval]
    never meets [NaN]. *)
Lemma matchEveryAt_capture unit s ds :
  Js.matchEveryAt unit s = Some ds -> Js.parseInt ds = Some (Js.parseDigits ds).
Proof.
  unfold Js.matchEveryAt. intros H.
  destruct (Js.stripPrefix "every" s) as [r0|]; [|done].
  destruct (Js.span Js.isSpace r0) as [ws r1].
  destruct (Js.isEmpty ws); [done|].
  pose proof (span_fst_all Js.isDigit r1) as Hall.
  destruct (Js.span Js.isDigit r1) as [ds' r2]. simpl in Hall.
  destruct (Js.isEmpty ds') eqn:Hne; [done|].
  destruct (Js.span Js.isSpace r2) as [ws' r3].
  destruct (Js.startsWith unit r3); [|done].
  simplify_eq. apply parseInt_capture; [done|]. by rewrite Hall.
Qed.

Lemma matchEvery_unfold unit s :
  Js.matchEvery unit s =
  match Js.matchEveryAt unit s with
  | Some ds => Some ds
  | None => match s with "" => None | String _ r => Js.matchEvery unit r end
  end.
Proof. by destruct s. Qed.

Lemma matchEvery_capture unit s ds :
  Js.matchEvery unit s = Some ds -> Js.parseInt ds = Some (Js.parseDigits ds).
Proof.
  induction s as [|c r IH]; rewrite matchEvery_unfold;
    destruct (Js.matchEveryAt unit _) eqn:E; intros H; simplify_eq;
    eauto using matchEveryAt_capture.
Qed.

(** *** The matcher against the meaning of the regular expression *)

Lemma append_cons c p r : String c p ++ r = String c (p ++ r).
Proof. reflexivity. Qed.

Lemma stripPrefix_app p r : Js.stripPrefix p (p ++ r) = Some r.
Proof.
  induction p as [|c p IH]; [by destruct r|].
  rewrite append_cons. cbn [Js.stripPrefix]. by rewrite Ascii.eqb_refl.
Qed.

Lemma stripPrefix_Some p s r : Js.stripPrefix p s = Some r -> s = p ++ r.
Proof.
  revert s. induction p as [|c p IH]; intros s; cbn [Js.stripPrefix].
  - destruct s; by intros [= <-].
  - destruct s as [|b s]; [done|].
    destruct (Ascii.eqb c b) eqn:E; [|done].
    apply Ascii.eqb_eq in E as <-. intros H. by rewrite append_cons, (IH _ H).
Qed.

Lemma span_app f a b :
  allChars f a = true -> stopsAt f b = true -> Js.span f (a ++ b) = (a, b).
Proof.
  intros Ha Hb. induction a as [|c a IH].
  - change ("" ++ b) with b. destruct b as [|c b]; [done|]. cbn in *. by destruct (f c).
  - rewrite append_cons. cbn in *.
    apply andb_true_iff in Ha as [Hc Ha]. by rewrite Hc, IH.
Qed.

Lemma span_Some f s a b :
  Js.span f s = (a, b) -> s = a ++ b /\ allChars f a = true /\ stopsAt f b = true.
Proof.
  revert a b. induction s as [|c s IH]; intros a b; cbn.
  - by intros [= <- <-].
  - destruct (f c) eqn:Hc.
    + destruct (Js.span f s) as [a' b']. intros [= <- <-].
      destruct (IH a' b' eq_refl) as (-> & Ha & Hb). rewrite append_cons. cbn.
      by rewrite Hc.
    + intros [= <- <-]. cbn. by rewrite Hc.
Qed.

Lemma isEmpty_false s : Js.isEmpty s = false <-> s <> "".
Proof. by destruct s. Qed.

Lemma digit_stops_space ds r :
  ds <> "" -> allChars Js.isDigit ds = true -> stopsAt Js.isSpace (ds ++ r) = true.
Proof.
  destruct ds as [|c ds]; [done|]. rewrite append_cons. cbn.
  intros _ [Hc _]%andb_true_iff. by rewrite (digit_not_space c Hc).
Qed.

Lemma startsWith_app p r : Js.startsWith p (p ++ r) = true.
Proof. unfold Js.startsWith. by rewrite stripPrefix_app. Qed.

Lemma stopsAt_app f a b :
  stopsAt f a = true -> a <> "" -> stopsAt f (a ++ b) = true.
Proof. by destruct a. Qed.

Lemma stopsAt_run f g a b :
  (forall c, g c = true -> f c = false) ->
  allChars g a = true -> stopsAt f b = true -> stopsAt f (a ++ b) = true.
Proof.
  intros Hfg. destruct a as [|c a]; [done|]. rewrite append_cons. cbn.
  intros [Hc _]%andb_true_iff _. by rewrite (Hfg c Hc).
Qed.

Lemma space_not_digit c : Js.isSpace c = true -> Js.isDigit c = false.
Proof.
  intros H. destruct (Js.isDigit c) eqn:E; [|done].
  apply digit_not_space in E. congruence.
Qed.

(** For a unit that begins with neither a digit nor white space, as [min]
    and [hour] do, the matcher finds a match exactly when the expression
    has one, and the capture is the same: no backtracking is needed. *)
Lemma matchEveryAt_spec (unit s ds : string) :
  unit <> "" -> stopsAt Js.isDigit unit = true -> stopsAt Js.isSpace unit = true ->
  Js.matchEveryAt unit s = Some ds <-> matchesEveryAt unit s ds.
Proof.
  intros Hu Hud Hus. unfold Js.matchEveryAt, matchesEveryAt. split.
  - destruct (Js.stripPrefix "every" s) as [r0|] eqn:E0; [|done].
    apply stripPrefix_Some in E0 as ->.
    destruct (Js.span Js.isSpace r0) as [ws r1] eqn:E1.
    apply span_Some in E1 as (-> & Hws & _).
    destruct (Js.isEmpty ws) eqn:Hne; [done|]. apply isEmpty_false in Hne.
    destruct (Js.span Js.isDigit r1) as [ds' r2] eqn:E2.
    apply span_Some in E2 as (-> & Hds & _).
    destruct (Js.isEmpty ds') eqn:Hne'; [done|]. apply isEmpty_false in Hne'.
    destruct (Js.span Js.isSpace r2) as [ws' r3] eqn:E3.
    apply span_Some in E3 as (-> & Hws' & _).
    unfold Js.startsWith.
    destruct (Js.stripPrefix unit r3) as [rest|] eqn:E4; [|done].
    apply stripPrefix_Some in E4 as ->. intros [= ->].
    by exists ws, ws', rest.
  - intros (ws & ws' & rest & -> & Hne & Hws & Hne' & Hds & Hws').
    rewrite (stripPrefix_app "every").
    rewrite (span_app Js.isSpace ws) by (done || by apply digit_stops_space).
    apply isEmpty_false in Hne. rewrite Hne.
    rewrite (span_app Js.isDigit ds); [|done|].
    2: { apply (stopsAt_run _ Js.isSpace); [apply space_not_digit|done|].
         by apply stopsAt_app. }
    apply isEmpty_false in Hne'. rewrite Hne'.
    rewrite (span_app Js.isSpace ws') by (done || by apply stopsAt_app).
    by rewrite startsWith_app.
Qed.

Lemma matchEvery_spec (unit s ds : string) :
  unit <> "" -> stopsAt Js.isDigit unit = true -> stopsAt Js.isSpace unit = true ->
  Js.matchEvery unit s = Some ds <-> matchesEvery unit s ds.
Proof.
  intros Hu Hud Hus.
  assert (Hat := fun s ds => matchEveryAt_spec unit s ds Hu Hud Hus).
  unfold matchesEvery. split.
  - induction s as [|c r IH]; rewrite matchEvery_unfold.
    + destruct (Js.matchEveryAt unit "") as [ds0|] eqn:E; [|done].
      intros [= ->]. exists "", "". split; [done|]. split; [by apply Hat|].
      intros ? ? ? _ Hlen. cbn in Hlen. lia.
    + destruct (Js.matchEveryAt unit (String c r)) as [ds0|] eqn:E.
      * intros [= ->]. exists "", (String c r). split; [done|]. split; [by apply Hat|].
        intros ? ? ? _ Hlen. cbn in Hlen. lia.
      * intros H. destruct (IH H) as (before & from & -> & Hm & Hleft).
        exists (String c before), from. split; [done|]. split; [done|].
        intros before' from' ds' Hs Hlen Hm'.
        destruct before' as [|c' before'].
        -- change ("" ++ from') with from' in Hs. subst from'.
           apply Hat in Hm'. congruence.
        -- rewrite !append_cons in Hs. injection Hs as -> Hs.
           cbn in Hlen. eapply (Hleft before' from' ds'); [done|lia|done].
  - intros (before & from & -> & Hm & Hleft).
    induction before as [|c before IH].
    + change ("" ++ from) with from. rewrite matchEvery_unfold.
      apply Hat in Hm. by rewrite Hm.
    + rewrite append_cons, matchEvery_unfold.
      destruct (Js.matchEveryAt unit (String c (before ++ from))) as [ds0|] eqn:E.
      * apply Hat in E. exfalso.
        eapply (Hleft "" (String c (before ++ from)) ds0); [done|cbn; lia|done].
      * apply IH. intros before' from' ds' Hs Hlen.
        apply (Hleft (String c before') from' ds'); [by rewrite append_cons, Hs|].
        cbn. lia.
Qed.

(** Rules 1 and 3 of the precedence list, on the meaning of the
    expressions: [every N min...] gives [N], and, when that pattern and
    [every minute] are absent, [every N hour...] gives [N] times 60. *)
Lemma parseScheduleInterval_every_N_minutes (schedule ds : string) :
  matchesEvery "min" (Js.toLowerCase schedule) ds ->
  parseScheduleInterval schedule = Js.parseDigits ds /\
  Js.parseInt ds = Some (Js.parseDigits ds).
Proof.
  intros H. apply (matchEvery_spec "min") in H; [|done..].
  unfold parseScheduleInterval. rewrite H. split; [done|].
  by eapply matchEvery_capture.
Qed.

Lemma parseScheduleInterval_every_N_hours (schedule ds : string) :
  (forall ds', ~ matchesEvery "min" (Js.toLowerCase schedule) ds') ->
  Js.includes "every minute" (Js.toLowerCase schedule) = false ->
  matchesEvery "hour" (Js.toLowerCase schedule) ds ->
  parseScheduleInterval schedule = Js.parseDigits ds * 60.
Proof.
  intros Hmin Hminute H. apply (matchEvery_spec "hour") in H; [|done..].
  unfold parseScheduleInterval.
  destruct (Js.matchEvery "min" _) as [ds'|] eqn:E.
  - apply (matchEvery_spec "min") in E; [|done..]. by destruct (Hmin ds').
  - by rewrite Hminute, H.
Qed.

(** *** The contract *)

(** What the parser ensures: for every input string it returns an integer
    that is not negative (it is a total function: no input raises an
    error); the result is 0 exactly when the first pattern matched is
    [every N min] or [every N hour] with a zero [N], and at least 1
    otherwise; a string that matches no pattern gives 1440. *)
Theorem parseScheduleInterval_nonneg (schedule : string) :
  0 <= parseScheduleInterval schedule /\
  (parseScheduleInterval schedule = 0 <-> zeroCount schedule = true) /\
  (zeroCount schedule = false -> 1 <= parseScheduleInterval schedule) /\
  (matchesNoPattern schedule = true -> parseScheduleInterval schedule = 1440).
Proof.
  assert (Hz : parseScheduleInterval schedule = 0 <-> zeroCount schedule = true).
  { unfold parseScheduleInterval, zeroCount.
    destruct (Js.matchEvery "min" _) as [ds|]; [by rewrite Z.eqb_eq|].
    destruct (Js.includes "every minute" _); simpl; [done|].
    destruct (Js.matchEvery "hour" _) as [ds|].
    - rewrite Z.eqb_eq. lia.
    - repeat case_match; done. }
  assert (Hn : 0 <= parseScheduleInterval schedule).
  { unfold parseScheduleInterval.
    repeat case_match; try lia.
    - apply parseDigits_nonneg.
    - pose proof (parseDigits_nonneg s). lia. }
  split; [done|]. split; [done|]. split.
  - intros Hf. destruct (decide (parseScheduleInterval schedule = 0)) as [E|E].
    + apply Hz in E. congruence.
    + lia.
  - unfold matchesNoPattern, parseScheduleInterval.
    destruct (Js.matchEvery "min" _); [done|].
    destruct (Js.matchEvery "hour" _); [by destruct (Js.includes "every minute" _)|].
    repeat (destruct (Js.includes _ _); simpl; try done).
Qed.

Lemma parseScheduleInterval_nonneg_witness :
  zeroCount "every 5 minutes" = false /\ matchesNoPattern "twice a year" = true /\
  1 <= parseScheduleInterval "every 5 minutes" /\
  parseScheduleInterval "twice a year" = 1440.
Proof.
  split; [reflexivity|]. split; [reflexivity|]. split.
  - apply (parseScheduleInterval_nonneg "every 5 minutes"). reflexivity.
  - apply (parseScheduleInterval_nonneg "twice a year"). reflexivity.
Defined.

(** C8, at an input where the code does not do what the claim says:
    [Every 0 minutes] is a schedule that the parser maps to 0, which is
    not a positive integer. A monitor created with it stores the interval
    0; once its last ping is older than the grace, [buildPingDisplay]
    divides by that interval and its loop has no end. *)
Theorem parseScheduleInterval_zero_interval :
  parseScheduleInterval "Every 0 minutes" = 0 /\
  ~ (forall schedule, 1 <= parseScheduleInterval schedule) /\
  (let db1 := snd (createMonitor backupId "2024-01-01T00:00:00.000Z" "Nightly backup"
                     "Every 0 minutes" None (mkDb ∅ ∅)) in
   let db2 := snd (recordPing "0b0e2c1a-79a4-4d7b-8a43-1f6f3a1f0c55"
                     "2024-01-15T10:00:00.000Z" backupId true None None None db1) in
   exists monitor,
     getMonitor Iso.getTime (1705312800000 + minutes 16) backupId db2 = Some monitor /\
     intervalMinutes monitor = Some 0 /\
     buildPingDisplay Iso.getTime (1705312800000 + minutes 16) monitor = None).
Proof.
  split; [reflexivity|]. split.
  - intros H. specialize (H "Every 0 minutes"). vm_compute in H. by apply H.
  - cbv zeta. eexists. split; [vm_compute; reflexivity|]. split; reflexivity.
Qed.

(** ** The status engine *)

(** Turn the boolean comparisons of the hypotheses into inequalities. *)
Ltac reflect_comparisons :=
  repeat match goal with
         | H : (_ >? _) = true |- _ => apply Z.gtb_lt in H
         | H : (_ >? _) = false |- _ => rewrite Z.gtb_ltb in H; apply Z.ltb_ge in H
         | H : (_ <=? _) = true |- _ => apply Z.leb_le in H
         | H : (_ <=? _) = false |- _ => apply Z.leb_gt in H
         | H : (_ && _) = true |- _ => apply andb_true_iff in H as [? ?]
         end.

Section StatusProperties.

Variable getTime : string -> option Z.

(** The interval in force is the stored one when that is not zero, and
    also when it is the one derived from the schedule, as [createMonitor]
    and [updateMonitor] store it. *)
Lemma monitorInterval_stored (m : Monitor) (i : Z) :
  intervalMinutes m = Some i -> i <> 0 -> monitorInterval m = i.
Proof.
  unfold monitorInterval. intros -> Hi.
  destruct (i =? 0) eqn:E; [apply Z.eqb_eq in E; lia | done].
Qed.

Lemma monitorInterval_derived (m : Monitor) :
  intervalMinutes m = Some (parseScheduleInterval (schedule m)) ->
  monitorInterval m = parseScheduleInterval (schedule m).
Proof. unfold monitorInterval. intros ->. by destruct (_ =? 0). Qed.

(** The three comparisons of [getMonitorStatus], for a monitor that is not
    paused and whose last ping has a valid date. *)
Lemma getMonitorStatus_active (now : Z) (m : Monitor) (s : string) (T : Z) :
  paused m = false -> lastPing m = Some s -> s <> "" -> getTime s = Some T ->
  getMonitorStatus getTime now m =
    let overrun := now - (T + minutes (monitorInterval m)) in
    if overrun >? minutes (graceMinutes m) then Down
    else if overrun >? 0 then Late else Healthy.
Proof.
  intros Hp Hl Hs Ht. unfold getMonitorStatus, minutes.
  rewrite Hp, Hl. simpl. destruct s; [done|]. simpl. by rewrite Ht.
Qed.

(** C1: a monitor that is not paused, with last ping at [T], interval [I]
    minutes and grace [G] minutes (not negative), is healthy for every
    [now] in [[T, T+I]], late for every [now] in [(T+I, T+I+G]] and down
    for every [now > T+I+G]; at exactly [T+I] it is healthy and, the grace
    being positive, at exactly [T+I+G] it is late, and in no case down.
    Times are in milliseconds, [I] is the interval [getMonitorStatus]
    works with. *)
Theorem status_by_interval_and_grace (now : Z) (m : Monitor) (s : string) (T I G : Z) :
  paused m = false ->
  lastPing m = Some s -> s <> "" -> getTime s = Some T ->
  monitorInterval m = I ->
  graceMinutes m = G -> 0 <= G ->
  (T <= now <= T + minutes I -> getMonitorStatus getTime now m = Healthy) /\
  (T + minutes I < now <= T + minutes I + minutes G ->
     getMonitorStatus getTime now m = Late) /\
  (T + minutes I + minutes G < now -> getMonitorStatus getTime now m = Down) /\
  getMonitorStatus getTime (T + minutes I) m = Healthy /\
  getMonitorStatus getTime (T + minutes I + minutes G) m <> Down /\
  (0 < G -> getMonitorStatus getTime (T + minutes I + minutes G) m = Late).
Proof.
  intros Hp Hl Hs Ht HI HG Hpos.
  assert (Hst := fun now => getMonitorStatus_active now m s T Hp Hl Hs Ht).
  rewrite HI, HG in Hst. unfold minutes in *.
  repeat split; intros; rewrite Hst; cbv zeta;
    repeat (case_match; try done); reflect_comparisons; lia.
Qed.

(** C2: a paused monitor reports [paused] whatever its other fields and
    the time are, also when [pausedUntil] is set and lies in the past. *)
Theorem paused_reports_paused (now : Z) (m : Monitor) :
  paused m = true -> getMonitorStatus getTime now m = Paused.
Proof.
  intros Hp. unfold getMonitorStatus. rewrite Hp.
  by repeat case_match.
Qed.

End StatusProperties.

Lemma status_by_interval_and_grace_witness :
  getMonitorStatus Iso.getTime 1705312800000 backupMonitor = Healthy /\
  getMonitorStatus Iso.getTime 1705313100000 backupMonitor = Healthy /\
  getMonitorStatus Iso.getTime 1705313100001 backupMonitor = Late /\
  getMonitorStatus Iso.getTime 1705313700000 backupMonitor = Late /\
  getMonitorStatus Iso.getTime 1705313700001 backupMonitor = Down.
Proof.
  pose proof (fun now =>
    status_by_interval_and_grace Iso.getTime now backupMonitor
      "2024-01-15T10:00:00.000Z" 1705312800000 5 10
      eq_refl eq_refl ltac:(discriminate) eq_refl eq_refl eq_refl ltac:(lia)) as H.
  split; [|split; [|split; [|split]]].
  - destruct (H 1705312800000) as (Hh & _). apply Hh. unfold minutes. lia.
  - destruct (H 1705313100000) as (_ & _ & _ & Hb & _). exact Hb.
  - destruct (H 1705313100001) as (_ & Hl & _). apply Hl. unfold minutes. lia.
  - destruct (H 1705313700000) as (_ & _ & _ & _ & _ & Hb). apply Hb. lia.
  - destruct (H 1705313700001) as (_ & _ & Hd & _). apply Hd. unfold minutes. lia.
Defined.

Lemma paused_reports_paused_witness :
  Iso.getTime "2024-01-15T10:00:00Z" = Some 1705312800000 /\
  getMonitorStatus Iso.getTime 1705399200000 pausedMonitor = Paused.
Proof.
  split; [reflexivity|].
  apply (paused_reports_paused Iso.getTime 1705399200000 pausedMonitor). reflexivity.
Defined.

(** ** The ping recorder *)

Lemma transaction_atomic (body : Db -> option Db) (db : Db) :
  (body db = None /\ transaction body db = (Thrown, db)) \/
  (exists db', body db = Some db' /\ transaction body db = (Returned tt, db')).
Proof. unfold transaction. destruct (body db); eauto. Qed.

Section RecorderProperties.

Variable getTime : string -> option Z.

Lemma getMonitor_lastPing (now : Z) (id : string) (db : Db) (row : MonitorRow) :
  monitors db !! id = Some row ->
  lastPing <$> getMonitor getTime now id db = Some (r_last_ping row).
Proof. intros H. unfold getMonitor, Stmt.getMonitor. by rewrite H. Qed.

Lemma recordPing_commit (newId timestamp id : string) (success : bool)
    (duration : option Z) (message ip : option string) (db : Db) (row : MonitorRow) :
  monitors db !! id = Some row ->
  pingRows db !! newId = None ->
  recordPing newId timestamp id success duration message ip db
  = (Returned (Some (mkPing newId timestamp (if success then Success else Failure)
                       duration message ip)),
     mkDb (<[id := withLastPing timestamp row]> (monitors db))
          (<[newId := mkPingRow id timestamp (if success then Success else Failure)
                        duration message ip]> (pingRows db))).
Proof.
  intros Hrow Hfresh.
  unfold recordPing, Stmt.getMonitor, transaction, Stmt.insertPing. rewrite Hrow.
  cbn. rewrite Hfresh, Hrow. cbn. unfold Stmt.updateMonitorLastPing. cbn.
  do 2 f_equal.
  apply map_eq. intros k. rewrite lookup_alter, lookup_insert.
  case_decide; [subst k; by rewrite Hrow | done].
Qed.

Lemma recordPing_rollback (newId timestamp id : string) (success : bool)
    (duration : option Z) (message ip : option string) (db : Db) (row : MonitorRow) :
  monitors db !! id = Some row ->
  pingRows db !! newId <> None ->
  recordPing newId timestamp id success duration message ip db = (Thrown, db).
Proof.
  intros Hrow Htaken.
  unfold recordPing, Stmt.getMonitor, transaction, Stmt.insertPing. rewrite Hrow.
  cbn. by destruct (pingRows db !! newId).
Qed.

(** C3: for an existing monitor [id], [recordPing] makes a ping that
    carries the identifier just generated and the timestamp just read from
    the server's clock. When that identifier is fresh the call returns the
    ping, the ping's row is in the table, the monitor's [lastPing] is the
    ping's timestamp and nothing else has changed; the insert and the
    update are the body of one transaction, so when the identifier is
    taken the call throws and the database is the one before: no state
    has one write without the other. *)
Theorem recordPing_known (newId timestamp id : string) (success : bool)
    (duration : option Z) (message ip : option string) (db : Db) (row : MonitorRow) :
  monitors db !! id = Some row ->
  let ping :=
    mkPing newId timestamp (if success then Success else Failure) duration message ip in
  let committed :=
    mkDb (<[id := withLastPing timestamp row]> (monitors db))
         (<[newId := pingRowOf id ping]> (pingRows db)) in
  (pingRows db !! newId = None ->
     recordPing newId timestamp id success duration message ip db
       = (Returned (Some ping), committed) /\
     forall now, lastPing <$> getMonitor getTime now id committed
       = Some (Some (ping_timestamp ping))) /\
  (pingRows db !! newId <> None ->
     recordPing newId timestamp id success duration message ip db = (Thrown, db)).
Proof.
  intros Hrow ping committed. split.
  - intros Hfresh. split.
    + by apply recordPing_commit.
    + intros now.
      rewrite (getMonitor_lastPing now id committed (withLastPing timestamp row));
        [done|].
      unfold committed. cbn. by rewrite lookup_insert_eq.
  - intros Htaken. by eapply recordPing_rollback.
Qed.

(** C5: for an [id] that names no monitor, [recordPing] returns [null]
    (it does not throw) and the database is the one before: no ping row,
    no change of any [lastPing]. *)
Theorem recordPing_unknown (newId timestamp id : string) (success : bool)
    (duration : option Z) (message ip : option string) (db : Db) :
  monitors db !! id = None ->
  recordPing newId timestamp id success duration message ip db = (Returned None, db).
Proof. intros H. unfold recordPing, Stmt.getMonitor. by rewrite H. Qed.

End RecorderProperties.

Lemma recordPing_known_witness :
  recordPing "0b0e2c1a-79a4-4d7b-8a43-1f6f3a1f0c55" "2024-01-15T10:00:00.000Z"
    backupId true None None None backupDb
  = (Returned (Some (mkPing "0b0e2c1a-79a4-4d7b-8a43-1f6f3a1f0c55"
                       "2024-01-15T10:00:00.000Z" Success None None None)),
     mkDb (<[backupId := withLastPing "2024-01-15T10:00:00.000Z" backupRow]>
             (monitors backupDb))
          (<["0b0e2c1a-79a4-4d7b-8a43-1f6f3a1f0c55" :=
               mkPingRow backupId "2024-01-15T10:00:00.000Z" Success None None None]>
             (pingRows backupDb))).
Proof.
  apply (recordPing_known Iso.getTime "0b0e2c1a-79a4-4d7b-8a43-1f6f3a1f0c55"
           "2024-01-15T10:00:00.000Z" backupId true None None None backupDb backupRow).
  - reflexivity.
  - reflexivity.
Defined.

Lemma recordPing_unknown_witness :
  recordPing "0b0e2c1a-79a4-4d7b-8a43-1f6f3a1f0c55" "2024-01-15T10:00:00.000Z"
    "00000000-0000-4000-8000-000000000000" true None None None backupDb
  = (Returned None, backupDb).
Proof.
  apply (recordPing_unknown "0b0e2c1a-79a4-4d7b-8a43-1f6f3a1f0c55"
           "2024-01-15T10:00:00.000Z" "00000000-0000-4000-8000-000000000000").
  reflexivity.
Defined.

(** ** The pause controller *)

Lemma resumedRow_coherent row : pauseCoherent (Stmt.resumedRow row).
Proof.
  split; cbn; [split|]; intros H; try done; by destruct H.
Qed.

Lemma withLastPing_coherent timestamp row :
  pauseCoherent row -> pauseCoherent (withLastPing timestamp row).
Proof. done. Qed.

Lemma alter_coherent (f : MonitorRow -> MonitorRow) id db pingRows' :
  (forall row, pauseCoherent row -> pauseCoherent (f row)) ->
  allCoherent db -> allCoherent (mkDb (alter f id (monitors db)) pingRows').
Proof.
  intros Hf Hdb k row. cbn. rewrite lookup_alter. case_decide; [subst k|by apply Hdb].
  destruct (monitors db !! id) as [row0|] eqn:E; [|done].
  cbn. intros [= <-]. eauto.
Qed.

Lemma resumeMonitor_stmt_coherent id db :
  allCoherent db -> allCoherent (Stmt.resumeMonitor id db).
Proof. apply alter_coherent. intros. apply resumedRow_coherent. Qed.

Lemma pauseMonitor_stmt_coherent id pausedAt pausedUntil pauseReason db :
  allCoherent db -> allCoherent (Stmt.pauseMonitor id pausedAt pausedUntil pauseReason db).
Proof. apply alter_coherent. intros row _. by split; cbn. Qed.

(** *** The sweep *)

Lemma sweep_fold (ids : list string) (acc : list string) (db : Db) :
  fold_left (fun '(resumed, db) id => ((resumed ++ [id])%list, Stmt.resumeMonitor id db))
    ids (acc, db)
  = ((acc ++ ids)%list, fold_left (fun db id => Stmt.resumeMonitor id db) ids db).
Proof.
  revert acc db. induction ids as [|i ids IH]; intros acc db; cbn.
  - by rewrite app_nil_r.
  - rewrite IH. by rewrite <- app_assoc.
Qed.

Lemma resume_all_lookup (ids : list string) (db : Db) (k : string) :
  monitors (fold_left (fun db id => Stmt.resumeMonitor id db) ids db) !! k
  = if decide (k ∈ ids) then Stmt.resumedRow <$> monitors db !! k
    else monitors db !! k.
Proof.
  revert db. induction ids as [|i ids IH]; intros db; cbn; [done|].
  rewrite IH. cbn. rewrite lookup_alter.
  destruct (decide (i = k)) as [->|Hne].
  - rewrite (decide_True (P := k ∈ k :: ids)) by (apply elem_of_cons; by left).
    case_decide; [|done]. by destruct (monitors db !! k).
  - destruct (decide (k ∈ ids)) as [Hin|Hin].
    + rewrite (decide_True (P := k ∈ i :: ids)) by (apply elem_of_cons; by right). done.
    + rewrite (decide_False (P := k ∈ i :: ids)); [done|].
      intros [?|?]%elem_of_cons; congruence.
Qed.

Lemma resume_all_pings (ids : list string) (db : Db) :
  pingRows (fold_left (fun db id => Stmt.resumeMonitor id db) ids db) = pingRows db.
Proof. revert db. induction ids as [|i ids IH]; intros db; cbn; [done|]. by rewrite IH. Qed.

Lemma elem_of_toResume (now : string) (db : Db) (k : string) :
  k ∈ Stmt.getPausedMonitorsToResume now db <->
  exists row, monitors db !! k = Some row /\ Stmt.dueToResume now row = true.
Proof.
  unfold Stmt.getPausedMonitorsToResume. rewrite list_elem_of_fmap. split.
  - intros [[k' row] [-> Hin]]. apply list_elem_of_In, filter_In in Hin as [Hin Hdue].
    apply list_elem_of_In, elem_of_map_to_list in Hin. eauto.
  - intros (row & Hrow & Hdue). exists (k, row). split; [done|].
    apply list_elem_of_In, filter_In. split; [|done].
    by apply list_elem_of_In, elem_of_map_to_list.
Qed.

(** What the sweep does, in the order SQLite gives to text: it returns
    the ids of the rows with [paused = 1] and a [paused_until] that is not
    null and not after [now] as a string of bytes, each once; it resumes
    those rows and leaves every other row, and the pings, as they were. *)
Lemma checkAndResumeMonitors_text_order (now : string) (db : Db) :
  let '(resumed, db') := checkAndResumeMonitors now db in
  NoDup resumed /\
  (forall k, k ∈ resumed <->
     exists row u, monitors db !! k = Some row /\ r_paused row = 1 /\
       r_paused_until row = Some u /\ String.leb u now = true) /\
  (forall k, monitors db' !! k =
     if decide (k ∈ resumed) then Stmt.resumedRow <$> monitors db !! k
     else monitors db !! k) /\
  pingRows db' = pingRows db.
Proof.
  unfold checkAndResumeMonitors. rewrite sweep_fold. cbn [app].
  split; [|split; [|split]].
  - unfold Stmt.getPausedMonitorsToResume.
    apply (NoDup_fmap_fst _ ).
    + intros k r1 r2 H1 H2.
      apply list_elem_of_In, filter_In in H1 as [H1 _], H2 as [H2 _].
      apply list_elem_of_In, elem_of_map_to_list in H1, H2. congruence.
    + apply NoDup_ListNoDup, List.NoDup_filter, NoDup_ListNoDup, NoDup_map_to_list.
  - intros k. rewrite elem_of_toResume. unfold Stmt.dueToResume. split.
    + intros (row & Hrow & Hdue). apply andb_true_iff in Hdue as [Hp Hu].
      destruct (r_paused_until row) as [u|] eqn:E; [|done].
      exists row, u. by rewrite Z.eqb_eq in Hp.
    + intros (row & u & Hrow & Hp & Hu & Hle). exists row. split; [done|].
      rewrite Hu, Hle, Hp. done.
  - intros k. apply resume_all_lookup.
  - apply resume_all_pings.
Qed.

(** A pause without [pausedUntil] is never ended by a sweep. *)
Lemma sweep_keeps_indefinite_pause (now : string) (db : Db) (k : string) (row : MonitorRow) :
  monitors db !! k = Some row -> r_paused_until row = None ->
  ~ (k ∈ fst (checkAndResumeMonitors now db)) /\
  monitors (snd (checkAndResumeMonitors now db)) !! k = Some row.
Proof.
  intros Hrow Hnone.
  pose proof (checkAndResumeMonitors_text_order now db) as H.
  destruct (checkAndResumeMonitors now db) as [resumed db'].
  destruct H as (_ & Hin & Hlook & _). cbn.
  assert (Hk : k ∉ resumed).
  { rewrite Hin. intros (row' & u & Hrow' & _ & Hu & _). congruence. }
  split; [done|]. rewrite Hlook. by rewrite decide_False.
Qed.

(** The order of two texts with a common beginning is the order of what
    follows it; so a time written to the second, [...ssZ], sorts after
    every time of that same second written with a fraction, [...ss.fffZ]:
    the letter Z is above the full stop. *)
Lemma compare_common_prefix (p a b : string) :
  String.compare (p ++ a) (p ++ b) = String.compare a b.
Proof.
  induction p as [|c p IH]; [done|].
  change (String c p ++ a) with (String c (p ++ a)).
  change (String c p ++ b) with (String c (p ++ b)).
  cbn [String.compare].
  assert (Ascii.compare c c = Eq) as ->; [|exact IH].
  pose proof (Ascii.compare_antisym c c) as H. by destruct (Ascii.compare c c).
Qed.

Lemma whole_second_sorts_after_fraction (p f : string) :
  String.leb (p ++ "Z") (p ++ "." ++ f) = false.
Proof. unfold String.leb. by rewrite compare_common_prefix. Qed.

(** A pause whose [pausedUntil] is written to the second is ended by no
    sweep that runs within that second. *)
Lemma sweep_skips_whole_second (p f : string) (db : Db) (k : string) (row : MonitorRow) :
  monitors db !! k = Some row -> r_paused_until row = Some (p ++ "Z") ->
  ~ (k ∈ fst (checkAndResumeMonitors (p ++ "." ++ f) db)).
Proof.
  intros Hrow Hu.
  pose proof (checkAndResumeMonitors_text_order (p ++ "." ++ f) db) as H.
  destruct (checkAndResumeMonitors (p ++ "." ++ f) db) as [resumed db'].
  destruct H as (_ & Hin & _). cbn. rewrite Hin.
  intros (row' & u & Hrow' & _ & Hu' & Hle).
  assert (u = p ++ "Z") as -> by congruence.
  by rewrite whole_second_sorts_after_fraction in Hle.
Qed.

Lemma checkAndResumeMonitors_coherent now db :
  allCoherent db -> allCoherent (snd (checkAndResumeMonitors now db)).
Proof.
  unfold checkAndResumeMonitors. rewrite sweep_fold. cbn.
  generalize (Stmt.getPausedMonitorsToResume now db). intros ids. revert db.
  induction ids as [|i ids IH]; intros db Hdb; cbn; [done|].
  by apply IH, resumeMonitor_stmt_coherent.
Qed.

(** *** The other writers *)

Section Coherence.

Variable getTime : string -> option Z.

Lemma createMonitor_coherent newId createdAt name schedule graceMinutes db :
  allCoherent db ->
  allCoherent (snd (createMonitor newId createdAt name schedule graceMinutes db)).
Proof.
  intros Hdb. unfold createMonitor, Stmt.insertMonitor.
  destruct (monitors db !! newId) eqn:E; [done|]. cbn.
  intros k row. cbn. rewrite lookup_insert. case_decide; [|by apply Hdb].
  intros [= <-]. split; cbn; [split|]; intros Hs; try done; by destruct Hs.
Qed.

Lemma recordPing_coherent newId timestamp id success duration message ip db :
  allCoherent db ->
  allCoherent (snd (recordPing newId timestamp id success duration message ip db)).
Proof.
  intros Hdb. unfold recordPing, Stmt.getMonitor.
  destruct (monitors db !! id) as [row|] eqn:E; [|done].
  unfold transaction, Stmt.insertPing. cbn. rewrite E.
  destruct (pingRows db !! newId); cbn; [done|].
  by apply alter_coherent.
Qed.

Lemma pauseMonitor_coherent now pausedAt id reason until db :
  allCoherent db ->
  allCoherent (snd (pauseMonitor getTime now pausedAt id reason until db)).
Proof.
  intros Hdb. unfold pauseMonitor. destruct (getMonitor _ _ _ _); [|done].
  by apply pauseMonitor_stmt_coherent.
Qed.

Lemma resumeMonitor_coherent now id db :
  allCoherent db -> allCoherent (snd (resumeMonitor getTime now id db)).
Proof.
  intros Hdb. unfold resumeMonitor. destruct (getMonitor _ _ _ _); [|done].
  by apply resumeMonitor_stmt_coherent.
Qed.

(** An update that carries none of [paused], [pausedAt], [pauseReason]:
    all that the [PATCH] route's schema lets through. *)
Lemma updateMonitor_coherent now id updates db :
  u_paused updates = None -> u_pausedAt updates = None ->
  u_pauseReason updates = None ->
  allCoherent db -> allCoherent (snd (updateMonitor getTime now id updates db)).
Proof.
  intros Hp Ha Hr Hdb. unfold updateMonitor, getMonitor at 1, Stmt.getMonitor.
  destruct (monitors db !! id) as [row0|] eqn:E; [|done].
  cbn. rewrite Hp, Ha, Hr. cbn. unfold Stmt.updateMonitor.
  intros k row. cbn. rewrite lookup_alter. case_decide; [subst k|by apply Hdb].
  rewrite E. cbn. intros [= <-]. cbn.
  destruct (Hdb id row0 E) as [H1 H2].
  destruct (r_paused row0 =? 1) eqn:Eq.
  - apply Z.eqb_eq in Eq. split; [split|]; intros; [done|by apply H1|done].
  - apply Z.eqb_neq in Eq. split; [split|]; intros Hs; try done.
    + by apply H1 in Hs.
    + by apply H2 in Hs.
Qed.

End Coherence.

(** *** The sweep and the update on concrete databases *)

Lemma backupDb_coherent : allCoherent backupDb.
Proof.
  intros k row. unfold backupDb. cbn [monitors].
  intros [_ <-]%lookup_singleton_Some.
  split; cbn; [split|]; intros Hs; try done; by destruct Hs.
Qed.

(** C4, at an input where the code does not do what the claim says. The
    monitor of [pausedDb] is paused until 10:00:00 UTC. A sweep that runs
    half a second later compares ['2024-01-15T10:00:00Z'] with
    ['2024-01-15T10:00:00.500Z'] as text: at index 19 the letter Z is
    above the full stop, so the pause counts as not yet over and nothing
    is resumed, although the instant of [pausedUntil] is before that of
    [now], the very test [getMonitorStatus] makes. A sweep in the next
    second resumes the monitor. *)
Theorem sweep_misses_elapsed_pause :
  monitors pausedDb !! backupId
    = Some (mkMonitorRow "Nightly backup" "Every 5 minutes" 5 10 None
              "2024-01-01T00:00:00.000Z" 1 (Some "2024-01-15T09:00:00.000Z")
              (Some "2024-01-15T10:00:00Z") (Some "Scheduled maintenance")) /\
  Iso.getTime "2024-01-15T10:00:00Z" = Some 1705312800000 /\
  Iso.getTime "2024-01-15T10:00:00.500Z" = Some 1705312800500 /\
  checkAndResumeMonitors "2024-01-15T10:00:00.500Z" pausedDb = ([], pausedDb) /\
  checkAndResumeMonitors "2024-01-15T10:00:01.000Z" pausedDb = ([backupId], backupDb).
Proof. repeat split; vm_compute; reflexivity. Qed.

(** C6, as the spec states it, fails on [updateMonitor] taken by itself:
    [updateMonitor (id, { paused: true })] on a monitor that is not
    paused leaves [paused = 1] with no [paused_at], and
    [updateMonitor (id, { paused: false })] on a paused monitor leaves
    [paused = 0] with [paused_at] and [pause_reason] still set, since
    [updates.pausedAt ?? existing.pausedAt] can not write a null. *)
Lemma updateMonitor_breaks_coherence :
  allCoherent backupDb /\ allCoherent pausedDb /\
  ~ allCoherent (snd (updateMonitor Iso.getTime 1705312800000 backupId
                        (mkUpdates None None None None (Some true) None None None)
                        backupDb)) /\
  ~ allCoherent (snd (updateMonitor Iso.getTime 1705312800000 backupId
                        (mkUpdates None None None None (Some false) None None None)
                        pausedDb)) /\
  ~ (forall now id updates db,
       allCoherent db -> allCoherent (snd (updateMonitor Iso.getTime now id updates db))).
Proof.
  assert (H1 : ~ allCoherent (snd (updateMonitor Iso.getTime 1705312800000 backupId
                        (mkUpdates None None None None (Some true) None None None)
                        backupDb))).
  { apply (bool_decide_eq_false_1 _). vm_compute. reflexivity. }
  split; [apply backupDb_coherent|].
  split; [apply pauseMonitor_coherent, backupDb_coherent|].
  split; [exact H1|]. split.
  - apply (bool_decide_eq_false_1 _). vm_compute. reflexivity.
  - intros H. apply H1, H, backupDb_coherent.
Qed.

(** C6, amended: from a database whose rows are coherent ([paused_at] set
    exactly when [paused] is 1, [pause_reason] set only then,
    [paused_until] free), every writer leads to one whose rows are:
    create, pause, resume, the sweep, record ping, and update when the
    updates carry none of [paused], [pausedAt], [pauseReason], which is
    so for all that the [PATCH] route passes on. The empty database is
    coherent. *)
Theorem writers_keep_pause_coherence (getTime : string -> option Z) (db : Db) :
  allCoherent db ->
  (forall newId createdAt name schedule graceMinutes,
     allCoherent (snd (createMonitor newId createdAt name schedule graceMinutes db))) /\
  (forall now id updates,
     u_paused updates = None -> u_pausedAt updates = None ->
     u_pauseReason updates = None ->
     allCoherent (snd (updateMonitor getTime now id updates db))) /\
  (forall now id validated,
     allCoherent (snd (updateMonitor getTime now id (patchUpdates validated) db))) /\
  (forall now pausedAt id reason until,
     allCoherent (snd (pauseMonitor getTime now pausedAt id reason until db))) /\
  (forall now id, allCoherent (snd (resumeMonitor getTime now id db))) /\
  (forall now, allCoherent (snd (checkAndResumeMonitors now db))) /\
  (forall newId timestamp id success duration message ip,
     allCoherent (snd (recordPing newId timestamp id success duration message ip db))) /\
  allCoherent (mkDb ∅ ∅).
Proof.
  intros Hdb.
  split; [intros; by apply createMonitor_coherent|].
  split; [intros; by apply updateMonitor_coherent|].
  split; [intros; by apply updateMonitor_coherent|].
  split; [intros; by apply pauseMonitor_coherent|].
  split; [intros; by apply resumeMonitor_coherent|].
  split; [intros; by apply checkAndResumeMonitors_coherent|].
  split; [intros; by apply recordPing_coherent|].
  apply map_Forall_empty.
Qed.

(** On the database with the paused monitor: a sweep after the pause is
    over, a ping, and an update of the schedule through the [PATCH]
    route. *)
Lemma writers_keep_pause_coherence_witness :
  allCoherent pausedDb /\
  allCoherent (snd (checkAndResumeMonitors "2024-01-15T10:00:01.000Z" pausedDb)) /\
  allCoherent (snd (recordPing "0b0e2c1a-79a4-4d7b-8a43-1f6f3a1f0c55"
                      "2024-01-15T10:00:00.000Z" backupId true None None None pausedDb)) /\
  allCoherent (snd (updateMonitor Iso.getTime 1705312800000 backupId
                      (patchUpdates (mkUpdateInput None (Some "Every hour") None))
                      pausedDb)).
Proof.
  assert (Hpaused : allCoherent pausedDb).
  { apply (bool_decide_unpack _). vm_compute. exact I. }
  destruct (writers_keep_pause_coherence Iso.getTime pausedDb Hpaused)
    as (_ & _ & Hpatch & _ & _ & Hsweep & Hping & _).
  split; [exact Hpaused|]. split; [apply Hsweep|]. split; [apply Hping|apply Hpatch].
Defined.

(** ** The ping route *)

Section RouteProperties.

Variable getTime : string -> option Z.

Lemma getMonitor_Some (now : Z) (id : string) (db : Db) (row : MonitorRow) :
  monitors db !! id = Some row ->
  getMonitor getTime now id db
  = Some (rowToMonitor getTime now id row (rowToPing <$> Stmt.getPingsForMonitor id db)).
Proof. intros H. unfold getMonitor, Stmt.getMonitor. by rewrite H. Qed.

(** The status a monitor is read with is the status engine's verdict on
    the row that was read, at the time of the reading. *)
Lemma getMonitor_status (now : Z) (id : string) (db : Db) (monitor : Monitor) :
  getMonitor getTime now id db = Some monitor ->
  status monitor = getMonitorStatus getTime now monitor.
Proof.
  unfold getMonitor. destruct (Stmt.getMonitor id db) as [row|]; [|done].
  by intros [= <-].
Qed.

(** C9, amended: a [GET] on [/api/ping/{id}] for a known monitor that is
    not rate limited answers 200 with the plain text [OK] and records a
    success ping with no message; the ping's duration is the time the
    handler took, in milliseconds, and its ip is the client address of the
    [x-forwarded-for] or [x-real-ip] header when one is given. (The ping's
    identifier is taken to be fresh.) *)
Theorem GET_known_monitor (env : Env) (request : Request) (id : string)
    (server : Server) (row : MonitorRow) :
  allowed (fst (checkRateLimit (limitTime env) id (rateLimitMap server))) = true ->
  monitors (database server) !! id = Some row ->
  pingRows (database server) !! newId env = None ->
  exists response server',
    GET getTime env request id server = (Returned response, server') /\
    res_status response = 200 /\
    res_body response = TextBody "OK" /\
    ("Content-Type", "text/plain") ∈ res_headers response /\
    pingRows (database server')
      = <[newId env := mkPingRow id (timestamp env) Success
                         (Some (endTime env - startTime env)) None
                         (getClientIp request)]> (pingRows (database server)) /\
    monitors (database server')
      = <[id := withLastPing (timestamp env) row]> (monitors (database server)).
Proof.
  intros Hallowed Hrow Hfresh. unfold GET.
  destruct (checkRateLimit _ _ _) as [rateLimit rateLimitMap'] eqn:E.
  cbn in Hallowed. rewrite Hallowed. cbn [negb].
  rewrite (getMonitor_Some _ _ _ row Hrow).
  rewrite (recordPing_commit _ _ _ _ _ _ _ _ row Hrow Hfresh).
  eexists _, _. split; [reflexivity|]. cbn.
  repeat split. apply elem_of_cons. by left.
Qed.

(** C10: in the answer of an accepted [POST] on [/api/ping/{id}] the field
    [monitor.status] is the status of the monitor as read before the ping
    was recorded: the status engine's verdict, at the time of that
    reading, on the state the request found. A monitor that was down is
    reported as down by the request that pings it. *)
Theorem POST_reports_status_before_ping (env : Env) (request : Request)
    (monitorId : string) (server server' : Server) (response : Response) :
  POST getTime env request monitorId server = (Returned response, server') ->
  res_status response = 200 ->
  exists monitor ping_id,
    getMonitor getTime (statusTime env) monitorId (database server) = Some monitor /\
    res_body response
      = PingBody ping_id (id monitor) (name monitor)
          (getMonitorStatus getTime (statusTime env) monitor) /\
    (getMonitorStatus getTime (statusTime env) monitor = Down ->
     res_body response = PingBody ping_id (id monitor) (name monitor) Down).
Proof.
  unfold POST. intros Hpost Hok.
  destruct (checkRateLimit _ _ _) as [rateLimit rateLimitMap'].
  destruct (allowed rateLimit); cbn [negb] in Hpost;
    [|injection Hpost as <- _; done].
  destruct (getMonitor getTime (statusTime env) monitorId (database server))
    as [monitor|] eqn:Hget; [|injection Hpost as <- _; done].
  pose proof (getMonitor_status _ _ _ _ Hget) as Hstatus.
  assert (Hrecord : forall input,
    match recordPing (newId env) (timestamp env) monitorId (v_success input)
            (v_duration input) (v_message input) (getClientIp request)
            (database server) with
    | (Thrown, db') => (Thrown, mkServer rateLimitMap' db')
    | (Returned ping, db') =>
        (Returned (pingRecorded ping monitor rateLimit), mkServer rateLimitMap' db')
    end = (Returned response, server') ->
    exists ping_id,
      res_body response
        = PingBody ping_id (id monitor) (name monitor)
            (getMonitorStatus getTime (statusTime env) monitor)).
  { intros input.
    destruct (recordPing (newId env) (timestamp env) monitorId (v_success input)
                (v_duration input) (v_message input) (getClientIp request)
                (database server)) as [[ping|] db']; intros H; [|discriminate H].
    injection H as <- _. exists (ping_id <$> ping). cbn. by rewrite Hstatus. }
  assert (exists ping_id,
    res_body response
      = PingBody ping_id (id monitor) (name monitor)
          (getMonitorStatus getTime (statusTime env) monitor)) as [pid Hbody].
  { destruct (_ && _) in Hpost; [|by eapply Hrecord].
    destruct (body request) as [| |fields].
    - injection Hpost as <- _; done.
    - unfold pingSchema_parse in Hpost. injection Hpost as <- _; done.
    - destruct (pingSchema_parse (JsonObject fields)); [by eapply Hrecord|].
      injection Hpost as <- _; done. }
  exists monitor, pid. split; [done|]. split; [done|].
  intros Hdown. by rewrite Hbody, Hdown.
Qed.

End RouteProperties.

(** C9, as the spec states it, fails: the ping that a [GET] records is
    not without metadata. For a request that carries [x-real-ip] and a
    handler that took two milliseconds, the row holds the duration 2 and
    the client's address. *)
Lemma GET_stores_duration_and_ip :
  exists response server',
    GET Iso.getTime pingEnv cronRequest backupId quietServer
      = (Returned response, server') /\
    res_status response = 200 /\
    pingRows (database server') !! newId pingEnv
      = Some (mkPingRow backupId "2024-01-15T10:00:00.002Z" Success (Some 2) None
                (Some "203.0.113.7")) /\
    ~ (exists row, pingRows (database server') !! newId pingEnv = Some row /\
         p_duration row = None /\ p_message row = None /\ p_ip row = None).
Proof.
  eexists _, _. split; [vm_compute; reflexivity|].
  split; [reflexivity|]. split; [vm_compute; reflexivity|].
  intros (row & Hrow & Hd & _). vm_compute in Hrow. by simplify_eq.
Qed.

Lemma GET_known_monitor_witness :
  exists response server',
    GET Iso.getTime pingEnv cronRequest backupId quietServer
      = (Returned response, server') /\
    res_status response = 200 /\
    res_body response = TextBody "OK" /\
    ("Content-Type", "text/plain") ∈ res_headers response /\
    pingRows (database server')
      = <[newId pingEnv := mkPingRow backupId (timestamp pingEnv) Success
                             (Some (endTime pingEnv - startTime pingEnv)) None
                             (getClientIp cronRequest)]> (pingRows (database quietServer)) /\
    monitors (database server')
      = <[backupId := withLastPing (timestamp pingEnv) backupRow]>
          (monitors (database quietServer)).
Proof.
  apply (GET_known_monitor Iso.getTime pingEnv cronRequest backupId quietServer backupRow).
  - reflexivity.
  - reflexivity.
  - reflexivity.
Defined.

(** A monitor that was never pinged is down; the [POST] that brings its
    first ping answers with [down], while the database it leaves makes the
    monitor healthy at that same time. *)
Lemma POST_reports_status_before_ping_witness :
  exists response server',
    POST Iso.getTime pingEnv cronRequest backupId quietServer
      = (Returned response, server') /\
    res_body response
      = PingBody (Some (newId pingEnv)) backupId "Nightly backup" Down /\
    status <$> getMonitor Iso.getTime (statusTime pingEnv) backupId (database server')
      = Some Healthy.
Proof.
  eexists _, _. split; [vm_compute; reflexivity|].
  split; [|vm_compute; reflexivity].
  match goal with
  | |- res_body ?r = _ =>
      destruct (POST_reports_status_before_ping Iso.getTime pingEnv cronRequest
                  backupId quietServer _ r ltac:(vm_compute; reflexivity) eq_refl)
        as (monitor & pid & Hget & Hbody & Hdown)
  end.
  vm_compute in Hget. injection Hget as <-.
  rewrite Hdown by reflexivity.
  vm_compute in Hbody. injection Hbody as <-. reflexivity.
Defined.

(** ** The timeline reconstructor *)

(** [ceilDiv] is the ceiling of the quotient, as [/] is its floor. *)
Lemma ceilDiv_ceiling (a b : Z) :
  0 < b -> (ceilDiv a b - 1) * b < a <= ceilDiv a b * b.
Proof.
  intros Hb. unfold ceilDiv.
  pose proof (Z.mul_div_le (- a) b Hb).
  pose proof (Z.mul_succ_div_gt (- a) b Hb). lia.
Qed.

Lemma div_floor (a b : Z) : 0 < b -> (a / b) * b <= a < (a / b + 1) * b.
Proof.
  intros Hb.
  pose proof (Z.mul_div_le a b Hb).
  pose proof (Z.mul_succ_div_gt a b Hb). lia.
Qed.

Lemma length_missedRun (missedCount : Z) (stamp : Z -> Z) :
  length (missedRun missedCount stamp) = Z.to_nat missedCount.
Proof. unfold missedRun. by rewrite length_fmap, length_seq. Qed.

Lemma missedRun_no_ping (missedCount : Z) (stamp : Z -> Z) :
  omap item_ping (missedRun missedCount stamp) = [].
Proof.
  unfold missedRun. generalize (seq 0 (Z.to_nat missedCount)).
  intros l. by induction l.
Qed.

Lemma missedRun_missed (missedCount : Z) (stamp : Z -> Z) :
  Forall (fun item => item_type item = ItemMissed) (missedRun missedCount stamp).
Proof. unfold missedRun. apply Forall_fmap, Forall_true. done. Qed.

(** The pings that [getMonitor] attaches to a monitor, as the dashboard
    receives them: at most 75, newest first in the order of the stored
    text. *)
Lemma Sorted_take {A} (R : relation A) (n : nat) (l : list A) :
  Sorted R l -> Sorted R (take n l).
Proof.
  intros H. revert n. induction H as [|x l Hl IH Hx]; intros [|n]; cbn; try constructor.
  - apply IH.
  - destruct Hx; destruct n; cbn; by constructor.
Qed.

Lemma getPingsForMonitor_newest_first (id : string) (db : Db) :
  Sorted Stmt.newerFirst (Stmt.getPingsForMonitor id db) /\
  (length (Stmt.getPingsForMonitor id db) <= 75)%nat.
Proof.
  unfold Stmt.getPingsForMonitor. split.
  - apply Sorted_take, Sorted_merge_sort.
    intros a b. unfold Stmt.newerFirst.
    destruct (String.leb_total (p_timestamp b.2) (p_timestamp a.2)); auto.
  - apply firstn_le_length.
Qed.

Section DashboardProperties.

Variable getTime : string -> option Z.

Lemma gapMarkers_Some (intervalMs graceMs : Z) (ping next : Ping) :
  intervalMs <> 0 ->
  exists markers,
    gapMarkers getTime intervalMs graceMs ping next = Some markers /\
    omap item_ping markers = [].
Proof.
  intros Hi. unfold gapMarkers.
  destruct (getTime (ping_timestamp ping)) as [a|]; [|by eexists].
  destruct (getTime (ping_timestamp next)) as [b|]; [|by eexists].
  destruct (_ >? _); [|by eexists].
  apply Z.eqb_neq in Hi. rewrite Hi.
  eexists. split; [done|]. apply missedRun_no_ping.
Qed.

Lemma gapMarkers_missed (intervalMs graceMs : Z) (ping next : Ping) (a b : Z) :
  intervalMs <> 0 ->
  getTime (ping_timestamp ping) = Some a ->
  getTime (ping_timestamp next) = Some b ->
  intervalMs + graceMs < a - b ->
  gapMarkers getTime intervalMs graceMs ping next
  = Some (missedRun (ceilDiv (a - b) intervalMs - 1)
            (fun j => a - (j + 1) * intervalMs)).
Proof.
  intros Hi Ha Hb Hgap. unfold gapMarkers. rewrite Ha, Hb.
  apply Z.eqb_neq in Hi. rewrite Hi.
  destruct (_ >? _) eqn:E; [done|].
  rewrite Z.gtb_ltb in E. apply Z.ltb_ge in E. lia.
Qed.

Lemma historyMarkers_Some (intervalMs graceMs : Z) (pings : list Ping) :
  intervalMs <> 0 ->
  exists history,
    historyMarkers getTime intervalMs graceMs pings = Some history /\
    omap item_ping history = pings.
Proof.
  intros Hi. induction pings as [|ping rest (items & IH & Hitems)]; [by eexists|].
  cbn [historyMarkers]. rewrite IH.
  destruct rest as [|next rest'].
  - cbn. eexists. split; [done|]. cbn. by rewrite Hitems.
  - destruct (gapMarkers_Some intervalMs graceMs ping next Hi) as (markers & -> & Hm).
    cbn. eexists. split; [done|]. cbn. by rewrite omap_app, Hm, Hitems.
Qed.

Lemma historyMarkers_cons (intervalMs graceMs : Z) (ping next : Ping) (rest : list Ping) :
  historyMarkers getTime intervalMs graceMs (ping :: next :: rest)
  = markers ← gapMarkers getTime intervalMs graceMs ping next;
    items ← historyMarkers getTime intervalMs graceMs (next :: rest);
    Some (pingItem ping :: markers ++ items)%list.
Proof. reflexivity. Qed.

(** The history of a list of pings, split at one of its pings. *)
Lemma historyMarkers_split (intervalMs graceMs : Z) (before : list Ping) (ping : Ping)
    (rest : list Ping) (history : list DisplayItem) :
  intervalMs <> 0 ->
  historyMarkers getTime intervalMs graceMs (before ++ ping :: rest)%list = Some history ->
  exists items tail,
    history = (items ++ tail)%list /\
    omap item_ping items = before /\
    historyMarkers getTime intervalMs graceMs (ping :: rest) = Some tail.
Proof.
  intros Hi. revert history. induction before as [|x before IH]; intros history H.
  - exists [], history. done.
  - cbn [app historyMarkers] in H.
    assert (exists next l, (before ++ ping :: rest)%list = next :: l) as (next & l & E).
    { destruct before; cbn; eauto. }
    rewrite E in H. rewrite <- E in H.
    destruct (gapMarkers_Some intervalMs graceMs x next Hi) as (markers & Hg & Hm).
    rewrite Hg in H.
    destruct (historyMarkers getTime intervalMs graceMs (before ++ ping :: rest)%list)
      as [h|] eqn:Eh; [|discriminate H].
    cbn in H. injection H as <-.
    destruct (IH h eq_refl) as (items & tail & -> & Hitems & Htail).
    exists (pingItem x :: markers ++ items)%list, tail.
    split; [cbn; f_equal; apply app_assoc|]. split; [|done].
    cbn. by rewrite omap_app, Hm, Hitems.
Qed.

(** For a monitor with a positive interval the timeline is defined
    and is the first 75 entries of the leading markers followed by the
    history, which holds the pings in the order given (newest first) with
    the gap markers between them. The leading markers hold no ping. When
    the time since the last ping exceeds interval + grace, they are
    floor((gap - grace) / interval) missed markers; when the time between
    two consecutive pings exceeds interval + grace, ceil(gap / interval)
    - 1 missed markers stand between the two. Gaps, interval and grace
    are in milliseconds. *)
Theorem buildPingDisplay_timeline (now : Z) (monitor : Monitor) :
  0 < monitorInterval monitor ->
  let intervalMs := minutes (monitorInterval monitor) in
  let graceMs := minutes (graceMinutes monitor) in
  exists leading history,
    leadingMarkers getTime now monitor = Some leading /\
    historyMarkers getTime intervalMs graceMs (pings monitor) = Some history /\
    buildPingDisplay getTime now monitor = Some (take 75 (leading ++ history)%list) /\
    (length (take 75 (leading ++ history)%list) <= 75)%nat /\
    omap item_ping leading = [] /\
    omap item_ping history = pings monitor /\
    (forall s T,
       lastPing monitor = Some s -> s <> "" -> getTime s = Some T ->
       intervalMs + graceMs < now - T ->
       leading = missedRun ((now - T - graceMs) / intervalMs)
                   (fun i => now - i * intervalMs) /\
       length leading = Z.to_nat ((now - T - graceMs) / intervalMs)) /\
    (forall before ping next after a b,
       pings monitor = (before ++ ping :: next :: after)%list ->
       getTime (ping_timestamp ping) = Some a ->
       getTime (ping_timestamp next) = Some b ->
       intervalMs + graceMs < a - b ->
       exists items items',
         history = (items ++ pingItem ping ::
                      missedRun (ceilDiv (a - b) intervalMs - 1)
                        (fun j => a - (j + 1) * intervalMs)
                      ++ pingItem next :: items')%list /\
         omap item_ping items = before /\
         length (missedRun (ceilDiv (a - b) intervalMs - 1)
                   (fun j => a - (j + 1) * intervalMs))
           = Z.to_nat (ceilDiv (a - b) intervalMs - 1)).
Proof.
  intros Hpos intervalMs graceMs.
  assert (Hi : intervalMs <> 0) by (unfold intervalMs, minutes; lia).
  assert (Hlead : exists leading,
    leadingMarkers getTime now monitor = Some leading /\
    omap item_ping leading = [] /\
    forall s T,
       lastPing monitor = Some s -> s <> "" -> getTime s = Some T ->
       intervalMs + graceMs < now - T ->
       leading = missedRun ((now - T - graceMs) / intervalMs)
                   (fun i => now - i * intervalMs)).
  { unfold leadingMarkers. fold (minutes (monitorInterval monitor)).
    fold (minutes (graceMinutes monitor)). fold intervalMs graceMs.
    destruct (lastPing monitor) as [s|]; cbn [Js.truthy Js.isEmpty negb default from_option Datatypes.id];
      [|eexists; split; [reflexivity|]; split; [reflexivity|]; intros; discriminate].
    destruct s as [|c s]; cbn [Js.truthy Js.isEmpty negb default from_option Datatypes.id].
    { eexists. split; [reflexivity|]. split; [reflexivity|].
      intros s T [= <-] Hne. by destruct Hne. }
    destruct (getTime (String c s)) as [T|] eqn:ET.
    2: { eexists. split; [reflexivity|]. split; [reflexivity|].
         intros s' T' [= <-] _ HT'. congruence. }
    destruct ((now - T >? intervalMs) && (now - T <=? intervalMs + graceMs)) eqn:E1.
    { eexists. split; [reflexivity|]. split; [reflexivity|].
      intros s' T' [= <-] _ HT' Hgap. assert (T' = T) as -> by congruence.
      apply andb_true_iff in E1 as [_ E1]. apply Z.leb_le in E1. lia. }
    destruct (now - T >? intervalMs + graceMs) eqn:E2.
    - apply Z.eqb_neq in Hi. rewrite Hi. eexists. split; [reflexivity|].
      split; [apply missedRun_no_ping|].
      intros s' T' [= <-] _ HT' _. assert (T' = T) as -> by congruence. done.
    - eexists. split; [reflexivity|]. split; [reflexivity|].
      intros s' T' [= <-] _ HT' Hgap. assert (T' = T) as -> by congruence.
      rewrite Z.gtb_ltb in E2. apply Z.ltb_ge in E2. lia. }
  destruct Hlead as (leading & Hleading & Hnoping & Hcount).
  destruct (historyMarkers_Some intervalMs graceMs (pings monitor) Hi)
    as (history & Hhistory & Hpings).
  exists leading, history.
  split; [done|]. split; [done|]. split.
  { unfold buildPingDisplay. fold (minutes (monitorInterval monitor)).
    fold (minutes (graceMinutes monitor)). fold intervalMs graceMs.
    by rewrite Hleading, Hhistory. }
  split; [apply firstn_le_length|]. split; [done|]. split; [done|]. split.
  - intros s T Hs Hne HT Hgap. split; [by eapply Hcount|].
    rewrite (Hcount s T Hs Hne HT Hgap). apply length_missedRun.
  - intros before ping next after a b Hsplit Ha Hb Hgap.
    rewrite Hsplit in Hhistory.
    destruct (historyMarkers_split _ _ _ _ _ _ Hi Hhistory)
      as (items & tail & -> & Hitems & Htail).
    rewrite historyMarkers_cons, (gapMarkers_missed _ _ _ _ a b Hi Ha Hb Hgap) in Htail.
    destruct (historyMarkers_Some intervalMs graceMs (next :: after) Hi)
      as (h & Hh & _).
    rewrite Hh in Htail. cbn in Htail. injection Htail as <-.
    assert (exists items', h = pingItem next :: items') as [items' ->].
    { cbn [historyMarkers] in Hh.
      destruct (match after with
                | [] => Some []
                | next0 :: _ => gapMarkers getTime intervalMs graceMs next next0
                end) as [m|]; [|done].
      destruct (historyMarkers getTime intervalMs graceMs after) as [t|]; [|done].
      cbn in Hh. injection Hh as <-. by eexists. }
    exists items, items'. split; [done|]. split; [done|].
    apply length_missedRun.
Qed.

End DashboardProperties.

(** At 10:32 the last ping is 32 minutes old: floor((32 - 10) / 5) = 4
    leading markers; the two pings are 60 minutes apart: ceil(60 / 5) - 1
    = 11 markers between them. *)
Lemma buildPingDisplay_timeline_witness :
  0 < monitorInterval gappyMonitor /\
  exists leading gap,
    buildPingDisplay Iso.getTime 1705314720000 gappyMonitor
      = Some (take 75 (leading ++ pingItem laterPing :: gap ++ [pingItem earlierPing])%list) /\
    length leading = 4%nat /\ length gap = 11%nat.
Proof.
  split; [reflexivity|].
  destruct (buildPingDisplay_timeline Iso.getTime 1705314720000 gappyMonitor eq_refl)
    as (leading & history & _ & Hhistory & Hbuild & _ & _ & _ & Hlead & Hgap).
  destruct (Hlead "2024-01-15T10:00:00.000Z" 1705312800000 eq_refl
              ltac:(discriminate) eq_refl eq_refl) as [_ Hlen].
  destruct (Hgap [] laterPing earlierPing [] 1705312800000 1705309200000
              eq_refl eq_refl eq_refl eq_refl) as (items & items' & E & Hitems & Hlen').
  exists leading, (missedRun (ceilDiv (1705312800000 - 1705309200000)
                               (minutes (monitorInterval gappyMonitor)) - 1)
                     (fun j => 1705312800000 - (j + 1) * minutes (monitorInterval gappyMonitor))).
  split; [|split; [exact Hlen | exact Hlen']].
  rewrite Hbuild. do 3 f_equal.
  vm_compute in Hhistory. injection Hhistory as <-. reflexivity.
Defined.

Section ZeroInterval.

Variable getTime : string -> option Z.

(** With the interval 0 the count of the leading missed markers is a
    division by zero: once the last ping is older than the grace, the loop
    that pushes them has no end and no timeline is returned. *)
Lemma buildPingDisplay_zero_interval (now : Z) (monitor : Monitor) (s : string) (T : Z) :
  lastPing monitor = Some s -> s <> "" -> getTime s = Some T ->
  monitorInterval monitor = 0 ->
  minutes (graceMinutes monitor) < now - T ->
  buildPingDisplay getTime now monitor = None.
Proof.
  intros Hl Hs HT Hi Hg. unfold buildPingDisplay, leadingMarkers, minutes in *.
  rewrite Hl, Hi. cbn [Js.truthy]. destruct s as [|c s]; [done|].
  cbn [Js.isEmpty negb default from_option Datatypes.id]. rewrite HT. cbv zeta.
  replace ((now - T >? 0 * 60 * 1000)
           && (now - T <=? 0 * 60 * 1000 + graceMinutes monitor * 60 * 1000))
    with false by (symmetry; apply andb_false_iff; right; apply Z.leb_gt; lia).
  replace (now - T >? 0 * 60 * 1000 + graceMinutes monitor * 60 * 1000) with true
    by (symmetry; apply Z.gtb_lt; lia).
  done.
Qed.

End ZeroInterval.

(** C7, at an input where the code does not do what the claim says: a
    monitor created with the schedule [Every 0 minutes], which validation
    accepts, stores the interval 0. Sixteen minutes after its ping the
    time since the last ping exceeds interval + grace, the count of the
    leading missed markers is a division by zero and the loop that pushes
    them has no end: [buildPingDisplay] returns no sequence, so nothing of
    at most 75 entries. Hence it is not so that every monitor gets a
    timeline of at most 75 entries. *)
Theorem buildPingDisplay_never_ends :
  schedulePattern "Every 0 minutes" = true /\
  (let now := 1705312800000 + minutes 16 in
   let db1 := snd (createMonitor backupId "2024-01-01T00:00:00.000Z" "Nightly backup"
                     "Every 0 minutes" None (mkDb ∅ ∅)) in
   let db2 := snd (recordPing "0b0e2c1a-79a4-4d7b-8a43-1f6f3a1f0c55"
                     "2024-01-15T10:00:00.000Z" backupId true None None None db1) in
   exists monitor,
     getMonitor Iso.getTime now backupId db2 = Some monitor /\
     monitorInterval monitor = 0 /\
     minutes (monitorInterval monitor) + minutes (graceMinutes monitor)
     < now - 1705312800000 /\
     buildPingDisplay Iso.getTime now monitor = None) /\
  ~ (forall now monitor,
       exists items,
         buildPingDisplay Iso.getTime now monitor = Some items /\
         (length items <= 75)%nat).
Proof.
  split; [reflexivity|]. split.
  - cbv zeta. eexists. split; [vm_compute; reflexivity|].
    split; [reflexivity|]. split; [reflexivity|].
    apply (buildPingDisplay_zero_interval Iso.getTime _ _ "2024-01-15T10:00:00.000Z"
             1705312800000); [reflexivity|discriminate|reflexivity|reflexivity|reflexivity].
  - intros H.
    destruct (H (1705312800000 + minutes 16)
                (mkMonitor backupId "Nightly backup" "Every 0 minutes" (Some 0) 15 Down
                   (Some "2024-01-15T10:00:00.000Z") None [] "2024-01-01T00:00:00.000Z"
                   false None None None)) as (items & Hitems & _).
    vm_compute in Hitems. discriminate Hitems.
Qed.

(** The end-to-end scenario of the design document: a monitor created
    with the schedule [Every 5 minutes] and grace 10 has interval 5 and is
    down; a ping makes it healthy; 6 minutes after the ping it is late, 16
    minutes after the ping it is down. *)
Example end_to_end :
  let '(_, db1) :=
    createMonitor backupId "2024-01-01T00:00:00.000Z" "Nightly backup"
      "Every 5 minutes" (Some 10) (mkDb ∅ ∅) in
  let '(_, db2) :=
    recordPing "0b0e2c1a-79a4-4d7b-8a43-1f6f3a1f0c55" "2024-01-15T10:00:00.000Z"
      backupId true None None None db1 in
  let T := 1705312800000 in
  r_interval_minutes <$> monitors db1 !! backupId = Some 5 /\
  status <$> getMonitor Iso.getTime T backupId db1 = Some Down /\
  status <$> getMonitor Iso.getTime T backupId db2 = Some Healthy /\
  status <$> getMonitor Iso.getTime (T + minutes 6) backupId db2 = Some Late /\
  status <$> getMonitor Iso.getTime (T + minutes 16) backupId db2 = Some Down.
Proof. vm_compute. repeat split; reflexivity. Qed.

(** The rate limiter of the design document: five requests of one window
    are let through, the sixth is not, and a request after the window is
    let through again. *)
Example sixth_ping_is_rejected :
  let step now '(results, m) :=
    let '(r, m') := checkRateLimit now backupId m in ((results ++ [allowed r])%list, m') in
  fst (foldr step ([], ∅)
         [1705312861001; 1705312805000; 1705312804000; 1705312803000;
          1705312802000; 1705312801000; 1705312800000])
  = [true; true; true; true; true; false; true].
Proof. vm_compute. reflexivity. Qed.

(** * Further properties of the code *)

Ltac reflect_orders :=
  repeat match goal with
         | H : (_ >? _) = true |- _ => apply Z.gtb_lt in H
         | H : (_ >? _) = false |- _ => rewrite Z.gtb_ltb in H; apply Z.ltb_ge in H
         | H : (_ <? _) = true |- _ => apply Z.ltb_lt in H
         | H : (_ <? _) = false |- _ => apply Z.ltb_ge in H
         | H : (_ >=? _) = true |- _ => rewrite Z.geb_leb in H; apply Z.leb_le in H
         | H : (_ >=? _) = false |- _ => rewrite Z.geb_leb in H; apply Z.leb_gt in H
         | H : (_ <=? _) = true |- _ => apply Z.leb_le in H
         | H : (_ <=? _) = false |- _ => apply Z.leb_gt in H
         | H : (_ =? _) = true |- _ => apply Z.eqb_eq in H
         | H : (_ =? _) = false |- _ => apply Z.eqb_neq in H
         | H : (_ && _) = true |- _ => apply andb_true_iff in H as [? ?]
         | H : (_ && _) = false |- _ => apply andb_false_iff in H
         end.

(** ** The rate limiter *)

Lemma checkRateLimits_in_window (times : list Z) (monitorId : string)
    (m : gmap string RateLimitEntry) (c R : Z) :
  m !! monitorId = Some (mkEntry c R) ->
  Forall (fun t => t <= R) times ->
  let results := fst (checkRateLimits times monitorId m) in
  length results = length times /\
  forall (i : nat) r, results !! i = Some r ->
    r = if c + Z.of_nat i <? 5
        then mkRateLimitResult true (4 - c - Z.of_nat i) R
        else mkRateLimitResult false 0 R.
Proof.
  cbv zeta. revert m c. induction times as [|t times IH]; intros m c Hm Ht.
  - cbn. split; [done|]. intros i r. by rewrite lookup_nil.
  - apply Forall_cons in Ht as [Ht Hts]. cbn [checkRateLimits].
    unfold checkRateLimit. rewrite Hm. cbn [resetAt count].
    replace (R <? t) with false by (symmetry; apply Z.ltb_ge; lia).
    unfold MAX_REQUESTS_PER_WINDOW.
    destruct (c >=? 5) eqn:Ec.
    + specialize (IH m c Hm Hts) as [Hlen Hres].
      destruct (checkRateLimits times monitorId m) as [results m'].
      cbn [fst] in *. split; [cbn; lia|].
      intros [|i] r; cbn [lookup list_lookup].
      * intros [= <-]. destruct (_ <? 5) eqn:E; [|done]. reflect_orders. lia.
      * intros Hr. rewrite (Hres i r Hr).
        destruct (c + Z.of_nat i <? 5) eqn:E1; reflect_orders; [lia|].
        destruct (_ <? 5) eqn:E2; [|done]. reflect_orders. lia.
    + specialize (IH (<[monitorId := mkEntry (c + 1) R]> m) (c + 1)
                    (lookup_insert_eq _ _ _) Hts) as [Hlen Hres].
      destruct (checkRateLimits times monitorId _) as [results m'].
      cbn [fst] in *. split; [cbn; lia|].
      intros [|i] r; cbn [lookup list_lookup].
      * intros [= <-]. destruct (_ <? 5) eqn:E; reflect_orders; [|lia].
        cbn. f_equal. lia.
      * intros Hr. rewrite (Hres i r Hr).
        replace (c + Z.of_nat (S i)) with (c + 1 + Z.of_nat i) by lia.
        destruct (_ <? 5); [f_equal; lia|done].
Qed.

(** X1: a request for a monitor that has no window open, or whose window
    is over, opens a window of one minute. Of the requests for that
    monitor up to the end of the window the first five, the opening one
    included, are allowed, with 4, 3, 2, 1 and 0 remaining, and every
    later one is rejected with 0 remaining; all report the same reset
    time, one minute after the opening request. *)
Theorem checkRateLimit_five_per_window (t0 : Z) (times : list Z) (monitorId : string)
    (rateLimitMap : gmap string RateLimitEntry) :
  match rateLimitMap !! monitorId with
  | None => True
  | Some entry => resetAt entry < t0
  end ->
  Forall (fun t => t <= t0 + 60000) times ->
  let results := fst (checkRateLimits (t0 :: times) monitorId rateLimitMap) in
  length results = S (length times) /\
  forall (i : nat) r, results !! i = Some r ->
    allowed r = (Z.of_nat i <? 5) /\
    remaining r = Z.max 0 (4 - Z.of_nat i) /\
    result_resetAt r = t0 + 60000.
Proof.
  intros Hopen Htimes. cbv zeta. cbn [checkRateLimits].
  assert (Hfirst : checkRateLimit t0 monitorId rateLimitMap
                   = (mkRateLimitResult true 4 (t0 + 60000),
                      <[monitorId := mkEntry 1 (t0 + 60000)]> rateLimitMap)).
  { unfold checkRateLimit. destruct (rateLimitMap !! monitorId) as [entry|]; [|done].
    by replace (resetAt entry <? t0) with true by (symmetry; apply Z.ltb_lt; lia). }
  rewrite Hfirst.
  pose proof (checkRateLimits_in_window times monitorId
                (<[monitorId := mkEntry 1 (t0 + 60000)]> rateLimitMap) 1 (t0 + 60000)
                (lookup_insert_eq _ _ _) Htimes) as [Hlen Hres].
  destruct (checkRateLimits times monitorId _) as [results m']. cbn [fst] in *.
  split; [cbn; lia|].
  intros [|i] r; cbn [lookup list_lookup].
  - by intros [= <-].
  - intros Hr. rewrite (Hres i r Hr).
    replace (Z.of_nat (S i)) with (1 + Z.of_nat i) by lia.
    destruct (1 + Z.of_nat i <? 5) eqn:E; cbn; reflect_orders;
      (split; [done|]); (split; [lia|done]).
Qed.

Lemma checkRateLimit_five_per_window_witness :
  let results :=
    fst (checkRateLimits [1000; 1010; 1020; 1030; 1040; 1050; 61000] backupId ∅) in
  length results = 7%nat /\
  forall (i : nat) r, results !! i = Some r ->
    allowed r = (Z.of_nat i <? 5) /\
    remaining r = Z.max 0 (4 - Z.of_nat i) /\
    result_resetAt r = 1000 + 60000.
Proof.
  apply (checkRateLimit_five_per_window 1000 [1010; 1020; 1030; 1040; 1050; 61000]
           backupId ∅).
  - vm_compute. exact I.
  - repeat constructor; vm_compute; discriminate.
Defined.

(** X2: what one call of [checkRateLimit] does to the map. The entries of
    the other monitors are untouched; the monitor called for has an entry
    afterwards, whose reset time is the one reported and is not before the
    time of the call. An allowed call reports the maximum less the stored
    count as remaining; a rejected call reports 0 and writes nothing.
    Counters between 1 and the maximum stay there, and the remaining is
    between 0 and 4. *)
Theorem checkRateLimit_step (now : Z) (monitorId : string)
    (rateLimitMap : gmap string RateLimitEntry) :
  countsInRange rateLimitMap ->
  let '(result, rateLimitMap') := checkRateLimit now monitorId rateLimitMap in
  countsInRange rateLimitMap' /\
  (forall k, k <> monitorId -> rateLimitMap' !! k = rateLimitMap !! k) /\
  (exists entry,
     rateLimitMap' !! monitorId = Some entry /\
     result_resetAt result = resetAt entry /\ now <= resetAt entry /\
     (allowed result = true -> remaining result = MAX_REQUESTS_PER_WINDOW - count entry) /\
     (allowed result = false ->
        remaining result = 0 /\ rateLimitMap' = rateLimitMap /\
        count entry = MAX_REQUESTS_PER_WINDOW)) /\
  0 <= remaining result <= MAX_REQUESTS_PER_WINDOW - 1.
Proof.
  intros Hok. unfold checkRateLimit, MAX_REQUESTS_PER_WINDOW, WINDOW_MS in *.
  assert (Hfresh :
    countsInRange (<[monitorId := mkEntry 1 (now + 60 * 1000)]> rateLimitMap) /\
    (forall k, k <> monitorId ->
       <[monitorId := mkEntry 1 (now + 60 * 1000)]> rateLimitMap !! k = rateLimitMap !! k) /\
    (exists entry,
       <[monitorId := mkEntry 1 (now + 60 * 1000)]> rateLimitMap !! monitorId = Some entry /\
       now + 60 * 1000 = resetAt entry /\ now <= resetAt entry /\
       (true = true -> 5 - 1 = 5 - count entry) /\
       (true = false ->
          5 - 1 = 0 /\ <[monitorId := mkEntry 1 (now + 60 * 1000)]> rateLimitMap = rateLimitMap /\
          count entry = 5)) /\
    0 <= 5 - 1 <= 5 - 1).
  { split; [|split; [|split]].
    - apply map_Forall_insert_2; [|done]. cbn. unfold MAX_REQUESTS_PER_WINDOW. lia.
    - intros k Hk. by rewrite lookup_insert_ne.
    - eexists. rewrite lookup_insert_eq. split; [done|]. cbn. repeat split; try done; lia.
    - lia. }
  destruct (rateLimitMap !! monitorId) as [entry|] eqn:E; [|exact Hfresh].
  destruct (resetAt entry <? now) eqn:Et; [exact Hfresh|]. apply Z.ltb_ge in Et.
  pose proof (Hok monitorId entry E) as Hc. cbn in Hc. unfold MAX_REQUESTS_PER_WINDOW in Hc.
  destruct (count entry >=? 5) eqn:Ec; cbn [allowed remaining result_resetAt count resetAt].
  - split; [done|]. split; [done|]. split; [|lia].
    exists entry. repeat split; try done; lia.
  - split; [|split; [|split]].
    + apply map_Forall_insert_2; [|done]. cbn. unfold MAX_REQUESTS_PER_WINDOW. lia.
    + intros k Hk. by rewrite lookup_insert_ne.
    + eexists. rewrite lookup_insert_eq. split; [done|]. cbn. repeat split; try done; lia.
    + lia.
Qed.

Lemma checkRateLimit_step_witness :
  let '(result, rateLimitMap') := checkRateLimit 1000 backupId ∅ in
  countsInRange rateLimitMap' /\
  (forall k, k <> backupId -> rateLimitMap' !! k = (∅ : gmap string RateLimitEntry) !! k) /\
  (exists entry,
     rateLimitMap' !! backupId = Some entry /\
     result_resetAt result = resetAt entry /\ 1000 <= resetAt entry /\
     (allowed result = true -> remaining result = MAX_REQUESTS_PER_WINDOW - count entry) /\
     (allowed result = false ->
        remaining result = 0 /\ rateLimitMap' = ∅ /\
        count entry = MAX_REQUESTS_PER_WINDOW)) /\
  0 <= remaining result <= MAX_REQUESTS_PER_WINDOW - 1.
Proof.
  apply (checkRateLimit_step 1000 backupId ∅). apply map_Forall_empty.
Defined.

(** X3: the periodic cleanup is not observable. A call of [checkRateLimit]
    at or after the time of a cleanup gives the same result with and
    without the cleanup, and leaves the map that a cleanup of the other
    map would leave. *)
Theorem cleanup_unobservable (now now' : Z) (monitorId : string)
    (rateLimitMap : gmap string RateLimitEntry) :
  now <= now' ->
  checkRateLimit now' monitorId (cleanup now rateLimitMap)
  = (fst (checkRateLimit now' monitorId rateLimitMap),
     cleanup now (snd (checkRateLimit now' monitorId rateLimitMap))).
Proof.
  intros Hnow. unfold checkRateLimit, cleanup, WINDOW_MS.
  rewrite map_lookup_filter.
  destruct (rateLimitMap !! monitorId) as [entry|] eqn:E; cbn.
  - destruct (decide (resetAt entry < now)) as [Hold|Hkeep].
    + rewrite option_guard_False by (cbn; lia). cbn.
      replace (resetAt entry <? now') with true by (symmetry; apply Z.ltb_lt; lia).
      cbn. f_equal. by rewrite map_filter_insert_True by (cbn; lia).
    + rewrite option_guard_True by (cbn; lia). cbn.
      destruct (resetAt entry <? now') eqn:Et; cbn.
      * f_equal. by rewrite map_filter_insert_True by (cbn; lia).
      * destruct (count entry >=? MAX_REQUESTS_PER_WINDOW); cbn; [done|].
        f_equal. by rewrite map_filter_insert_True by (cbn; lia).
  - f_equal. by rewrite map_filter_insert_True by (cbn; lia).
Qed.

Lemma cleanup_unobservable_witness :
  checkRateLimit 70000 backupId
    (cleanup 65000 (snd (checkRateLimit 1000 backupId ∅)))
  = (fst (checkRateLimit 70000 backupId (snd (checkRateLimit 1000 backupId ∅))),
     cleanup 65000
       (snd (checkRateLimit 70000 backupId (snd (checkRateLimit 1000 backupId ∅))))).
Proof.
  apply (cleanup_unobservable 65000 70000 backupId). lia.
Defined.

(** ** The ping route: what is written, and when *)

Lemma recordPing_writes (newId timestamp monitorId : string) (success : bool)
    (duration : option Z) (message ip : option string) (db db' : Db) (ping : option Ping) :
  is_Some (monitors db !! monitorId) ->
  recordPing newId timestamp monitorId success duration message ip db = (Returned ping, db') ->
  ping = Some (mkPing newId timestamp (if success then Success else Failure)
                 duration message ip) /\
  pingRows db !! newId = None /\
  pingRows db' !! newId
  = Some (mkPingRow monitorId timestamp (if success then Success else Failure)
            duration message ip) /\
  (forall k, k <> newId -> pingRows db' !! k = pingRows db !! k).
Proof.
  intros [row Hrow]. unfold recordPing, Stmt.getMonitor. rewrite Hrow.
  unfold transaction, Stmt.insertPing. cbn [ping_id p_monitor_id]. rewrite Hrow.
  destruct (pingRows db !! newId) eqn:En; cbn; [done|].
  intros [= <- <-]. cbn. split; [done|]. split; [done|].
  split; [by rewrite lookup_insert_eq|]. intros k Hk. by rewrite lookup_insert_ne.
Qed.

Lemma recordPing_Thrown (newId timestamp monitorId : string) (success : bool)
    (duration : option Z) (message ip : option string) (db db' : Db) :
  recordPing newId timestamp monitorId success duration message ip db = (Thrown, db') ->
  db' = db.
Proof.
  unfold recordPing. destruct (Stmt.getMonitor monitorId db); [|done].
  unfold transaction. destruct (_ ≫= _); cbn; [done|]. by intros [= <-].
Qed.

Lemma getMonitor_is_Some (getTime : string -> option Z) (now : Z) (k : string) (db : Db)
    (monitor : Monitor) :
  getMonitor getTime now k db = Some monitor -> is_Some (monitors db !! k).
Proof.
  unfold getMonitor, Stmt.getMonitor. destruct (monitors db !! k); [by eexists|done].
Qed.

Section PingRouteProperties.

Variable getTime : string -> option Z.

(** X4: the ping route writes to the database only when it answers 200.
    [GET] answers 200, 404 or 429 and [POST] 200, 400, 404 or 429; with
    every other answer than 200, and when the handler throws, the database
    is left as it was. A 429 leaves the rate limiter's map as it was too,
    while a 404 for an unknown monitor has used one of the five requests
    of its window. *)
Theorem ping_route_writes_only_on_200 (env : Env) (request : Request) (monitorId : string)
    (server : Server) (handler : Env -> Request -> string -> Server -> outcome Response * Server) :
  handler = GET getTime \/ handler = POST getTime ->
  let '(out, server') := handler env request monitorId server in
  rateLimitMap server'
  = snd (checkRateLimit (limitTime env) monitorId (rateLimitMap server)) /\
  match out with
  | Thrown => database server' = database server
  | Returned response =>
      (res_status response = 200 \/ res_status response = 404 \/
       res_status response = 429 \/
       (res_status response = 400 /\ handler = POST getTime)) /\
      (res_status response <> 200 -> database server' = database server) /\
      (res_status response = 429 -> server' = server) /\
      (res_status response = 404 ->
       monitors (database server) !! monitorId = None /\
       is_Some (rateLimitMap server' !! monitorId))
  end.
Proof.
  intros Hhandler.
  assert (Hlimit :
    let '(rateLimit, m') := checkRateLimit (limitTime env) monitorId (rateLimitMap server) in
    (allowed rateLimit = false -> m' = rateLimitMap server) /\
    (allowed rateLimit = true -> is_Some (m' !! monitorId))).
  { unfold checkRateLimit.
    destruct (rateLimitMap server !! monitorId) as [entry|] eqn:E.
    - destruct (_ <? _).
      + split; [done|]. intros _. by rewrite lookup_insert_eq.
      + destruct (_ >=? _) eqn:Ec; [done|]. split; [done|]. intros _.
        by rewrite lookup_insert_eq.
    - split; [done|]. intros _. by rewrite lookup_insert_eq. }
  assert (Hunknown : forall now, getMonitor getTime now monitorId (database server) = None ->
            monitors (database server) !! monitorId = None).
  { intros now. unfold getMonitor, Stmt.getMonitor.
    by destruct (monitors (database server) !! monitorId). }
  destruct Hhandler as [-> | ->]; [unfold GET|unfold POST];
    destruct (checkRateLimit (limitTime env) monitorId (rateLimitMap server))
      as [rateLimit m'] eqn:El; cbn [snd]; destruct Hlimit as [Hno Hyes];
    (destruct (allowed rateLimit) eqn:Ea; cbn [negb];
     [|rewrite (Hno eq_refl); destruct server; cbn; repeat split; auto; try done; try lia]).
  - destruct (getMonitor getTime (statusTime env) monitorId (database server)) eqn:Em.
    + destruct (recordPing _ _ _ _ _ _ _ _) as [[ping|] db'] eqn:Er; cbn.
      * split; [done|]. repeat split; auto; try done; lia.
      * split; [done|]. by eapply recordPing_Thrown.
    + cbn. split; [done|]. repeat split; auto; try done; try lia.
      by eapply Hunknown.
  - destruct (getMonitor getTime (statusTime env) monitorId (database server)) eqn:Em.
    + assert (Hrecord : forall input,
        let '(out, server') :=
          match recordPing (newId env) (timestamp env) monitorId (v_success input)
                  (v_duration input) (v_message input) (getClientIp request)
                  (database server) with
          | (Thrown, db') => (Thrown, mkServer m' db')
          | (Returned ping, db') =>
              (Returned (pingRecorded ping m rateLimit), mkServer m' db')
          end in
        rateLimitMap server' = m' /\
        match out with
        | Thrown => database server' = database server
        | Returned response =>
            (res_status response = 200 \/ res_status response = 404 \/
             res_status response = 429 \/
             (res_status response = 400 /\ POST getTime = POST getTime)) /\
            (res_status response <> 200 -> database server' = database server) /\
            (res_status response = 429 -> server' = server) /\
            (res_status response = 404 ->
             monitors (database server) !! monitorId = None /\
             is_Some (rateLimitMap server' !! monitorId))
        end).
      { intros input.
        destruct (recordPing _ _ _ _ _ _ _ _) as [[ping|] db'] eqn:Er; cbn.
        - split; [done|]. repeat split; auto; try done; lia.
        - split; [done|]. by eapply recordPing_Thrown. }
      cbv zeta. destruct (_ && _).
      * destruct (body request) as [| |fields] eqn:Eb.
        -- cbn. split; [done|]. repeat split; auto; try done; lia.
        -- cbn. split; [done|]. repeat split; auto; try done; lia.
        -- destruct (pingSchema_parse (JsonObject fields)) as [validated|].
           ++ apply Hrecord.
           ++ cbn. split; [done|]. repeat split; auto; try done; lia.
      * apply (Hrecord (mkPingInput true None None)).
    + cbn. split; [done|]. repeat split; auto; try done; try lia.
      by eapply Hunknown.
Qed.

Lemma pingSchema_parse_bounds (body : Body) (input : PingInput) :
  pingSchema_parse body = Some input ->
  (forall d, v_duration input = Some d -> 0 <= d <= 86400000) /\
  (forall s, v_message input = Some s -> (String.length s <= 500)%nat).
Proof.
  unfold pingSchema_parse. destruct body as [| |fields]; [done|done|].
  intros H. apply bind_Some in H as (success & _ & H).
  apply bind_Some in H as (duration & Hd & H).
  apply bind_Some in H as (message & Hm & H). injection H as <-. cbn. split.
  - intros d ->. destruct (field "duration" fields) as [[]|]; try done.
    destruct (_ && _) eqn:E; [|done]. injection Hd as ->.
    apply andb_true_iff in E as [?%Z.leb_le ?%Z.leb_le]. lia.
  - intros s ->. destruct (field "message" fields) as [[]|]; try done.
    destruct (_ <=? _)%nat eqn:E; [|done]. injection Hm as ->.
    by apply Nat.leb_le in E.
Qed.

Lemma POSTawait_alone (env : Env) (request : Request) (monitorId : string)
    (server : Server) :
  POSTawait getTime env request monitorId (fun server => server) server
  = POST getTime env request monitorId server.
Proof.
  unfold POSTawait, POST.
  destruct (checkRateLimit _ _ _) as [rateLimit m'].
  destruct (negb _); [done|]. destruct (getMonitor _ _ _ _); [|done].
  cbv zeta. cbn [database rateLimitMap].
  destruct (_ && _); [|done].
  destruct (body request); try done.
Qed.

Lemma recordPing_gone (fresh stamp monitorId : string) (success : bool)
    (duration : option Z) (message ip : option string) (db : Db) :
  monitors db !! monitorId = None ->
  recordPing fresh stamp monitorId success duration message ip db = (Returned None, db).
Proof. intros H. unfold recordPing, Stmt.getMonitor. by rewrite H. Qed.

(** X5: what a [POST] that is answered 200 has stored. The monitor was
    there when the request arrived. When it is still there after the body
    was awaited, exactly one new ping is stored, under an id that was
    free and that the answer carries: it belongs to the monitor, has the
    timestamp of the call and the client address, a duration, if any,
    between 0 and 86400000 ms and a message, if any, of at most 500
    characters; every other ping is as it was and the monitor's
    [last_ping] is the timestamp of the new ping. When the monitor was
    deleted while the body was awaited, the answer is 200 all the same,
    with no ping id, and nothing is stored. *)
Theorem POST_200_and_the_ping (env : Env) (request : Request) (monitorId : string)
    (during : Server -> Server) (server server' : Server) (response : Response) :
  POSTawait getTime env request monitorId during server = (Returned response, server') ->
  res_status response = 200 ->
  let found := database (recordingState env request monitorId during server) in
  is_Some (monitors (database server) !! monitorId) /\
  (monitors found !! monitorId = None ->
   (exists monitor_name monitor_status,
      res_body response = PingBody None monitorId monitor_name monitor_status) /\
   database server' = found) /\
  (is_Some (monitors found !! monitorId) ->
   (exists monitor_name monitor_status,
      res_body response
      = PingBody (Some (newId env)) monitorId monitor_name monitor_status) /\
   pingRows found !! newId env = None /\
   (exists row,
      pingRows (database server') !! newId env = Some row /\
      p_monitor_id row = monitorId /\
      p_timestamp row = timestamp env /\
      p_ip row = getClientIp request /\
      (forall d, p_duration row = Some d -> 0 <= d <= 86400000) /\
      (forall s, p_message row = Some s -> (String.length s <= 500)%nat)) /\
   (forall k, k <> newId env ->
      pingRows (database server') !! k = pingRows found !! k) /\
   r_last_ping <$> monitors (database server') !! monitorId
   = Some (Some (timestamp env))).
Proof.
  unfold POSTawait, recordingState, hasBody.
  destruct (checkRateLimit (limitTime env) monitorId (rateLimitMap server))
    as [rateLimit m']. cbn [snd].
  destruct (allowed rateLimit); cbn [negb]; [|by intros [= <- <-]].
  destruct (getMonitor getTime (statusTime env) monitorId (database server))
    as [monitor|] eqn:Em; [|by intros [= <- <-]].
  assert (Hid : id monitor = monitorId).
  { unfold getMonitor in Em. destruct (Stmt.getMonitor _ _); [|done]. by injection Em as <-. }
  apply getMonitor_is_Some in Em.
  assert (Hrecord : forall input current,
    (forall d, v_duration input = Some d -> 0 <= d <= 86400000) ->
    (forall s, v_message input = Some s -> (String.length s <= 500)%nat) ->
    match recordPing (newId env) (timestamp env) monitorId (v_success input)
            (v_duration input) (v_message input) (getClientIp request)
            (database current) with
    | (Thrown, db') => (Thrown, mkServer (rateLimitMap current) db')
    | (Returned ping, db') =>
        (Returned (pingRecorded ping monitor rateLimit),
         mkServer (rateLimitMap current) db')
    end = (Returned response, server') ->
    (monitors (database current) !! monitorId = None ->
     (exists monitor_name monitor_status,
        res_body response = PingBody None monitorId monitor_name monitor_status) /\
     database server' = database current) /\
    (is_Some (monitors (database current) !! monitorId) ->
     (exists monitor_name monitor_status,
        res_body response
        = PingBody (Some (newId env)) monitorId monitor_name monitor_status) /\
     pingRows (database current) !! newId env = None /\
     (exists row,
        pingRows (database server') !! newId env = Some row /\
        p_monitor_id row = monitorId /\
        p_timestamp row = timestamp env /\
        p_ip row = getClientIp request /\
        (forall d, p_duration row = Some d -> 0 <= d <= 86400000) /\
        (forall s, p_message row = Some s -> (String.length s <= 500)%nat)) /\
     (forall k, k <> newId env ->
        pingRows (database server') !! k = pingRows (database current) !! k) /\
     r_last_ping <$> monitors (database server') !! monitorId
     = Some (Some (timestamp env)))).
  { intros input current Hd Hm Hout. split.
    - intros Hgone. rewrite recordPing_gone in Hout by done. injection Hout as <- <-.
      cbn. rewrite Hid. split; [by eexists _, _|done].
    - intros Hthere.
      destruct (recordPing (newId env) (timestamp env) monitorId (v_success input)
                  (v_duration input) (v_message input) (getClientIp request)
                  (database current)) as [[ping|] db'] eqn:Er; [|done].
      injection Hout as <- <-. cbn [database].
      pose proof (recordPing_writes _ _ _ _ _ _ _ _ _ _ Hthere Er)
        as (-> & Hfree & Hrow & Hrest).
      split; [cbn; rewrite Hid; by eexists _, _|].
      split; [done|]. split; [eexists; split; [exact Hrow|by cbn]|]. split; [done|].
      destruct Hthere as [row0 Hrow0].
      pose proof (recordPing_commit (newId env) (timestamp env) monitorId (v_success input)
                    (v_duration input) (v_message input) (getClientIp request)
                    (database current) row0 Hrow0 Hfree) as Hc.
      rewrite Er in Hc. injection Hc as ->. cbn. by rewrite lookup_insert_eq. }
  cbv zeta. destruct (_ && _).
  - destruct (body request) as [| |fields] eqn:Eb.
    + intros [= <- <-]. done.
    + cbn. intros [= <- <-]. done.
    + destruct (pingSchema_parse (JsonObject fields)) as [validated|] eqn:Ev.
      * intros H _. split; [done|]. apply pingSchema_parse_bounds in Ev as [Hd Hm].
        by eapply Hrecord.
      * intros [= <- <-]. done.
  - intros H _. split; [done|].
    by apply (Hrecord (mkPingInput true None None) (mkServer m' (database server))).
Qed.

(** X6: a [POST] whose [Content-Length] header is absent, empty, not a
    number or not above 0 never reads its body: whatever the body is, the
    request is handled as one with no body and, when accepted, records a
    success ping with no duration and no message. *)
Theorem POST_without_length_ignores_body (env : Env) (request : Request)
    (monitorId : string) (server : Server) :
  hasBody request = false ->
  (forall body',
     POST getTime env
       (mkRequest (x_forwarded_for request) (x_real_ip request) (content_length request)
          body')
       monitorId server
     = POST getTime env request monitorId server) /\
  (forall response server',
     POST getTime env request monitorId server = (Returned response, server') ->
     (res_status response = 200 \/ res_status response = 404 \/
      res_status response = 429) /\
     (res_status response = 200 ->
      pingRows (database server') !! newId env
      = Some (mkPingRow monitorId (timestamp env) Success None None
                (getClientIp request)))).
Proof.
  unfold hasBody. intros Hb. split.
  - intros body'. unfold POST, getClientIp. cbn [content_length x_forwarded_for x_real_ip].
    destruct (checkRateLimit _ _ _) as [rateLimit m'].
    destruct (negb _); [done|]. destruct (getMonitor _ _ _ _); [|done].
    cbv zeta. by rewrite Hb.
  - intros response server'. unfold POST.
    destruct (checkRateLimit _ _ _) as [rateLimit m'].
    destruct (negb _); [intros [= <- <-]; cbn; split; [auto|done]|].
    destruct (getMonitor getTime (statusTime env) monitorId (database server))
      as [monitor|] eqn:Em; [|intros [= <- <-]; cbn; split; [auto|done]].
    apply getMonitor_is_Some in Em.
    cbv zeta. rewrite Hb.
    destruct (recordPing _ _ _ _ _ _ _ _) as [[ping|] db'] eqn:Er; [|done].
    intros [= <- <-]. cbn. split; [auto|]. intros _.
    by pose proof (recordPing_writes _ _ _ _ _ _ _ _ _ _ Em Er) as (_ & _ & Hrow & _).
Qed.

End PingRouteProperties.

Lemma ping_route_writes_only_on_200_witness :
  let '(out, server') :=
    POST Iso.getTime pingEnv (mkRequest None None (Some "2") NotJson) backupId quietServer in
  rateLimitMap server'
  = snd (checkRateLimit (limitTime pingEnv) backupId (rateLimitMap quietServer)) /\
  match out with
  | Thrown => database server' = database quietServer
  | Returned response =>
      (res_status response = 200 \/ res_status response = 404 \/
       res_status response = 429 \/
       (res_status response = 400 /\ POST Iso.getTime = POST Iso.getTime)) /\
      (res_status response <> 200 -> database server' = database quietServer) /\
      (res_status response = 429 -> server' = quietServer) /\
      (res_status response = 404 ->
       monitors (database quietServer) !! backupId = None /\
       is_Some (rateLimitMap server' !! backupId))
  end.
Proof.
  apply (ping_route_writes_only_on_200 Iso.getTime pingEnv
           (mkRequest None None (Some "2") NotJson) backupId quietServer
           (POST Iso.getTime)).
  right. reflexivity.
Defined.

(** A monitor is deleted while the body of a [POST] for it is awaited:
    the answer is 200 with no ping id, and the database left behind is
    empty. *)
Lemma POST_200_and_the_ping_witness :
  let request :=
    mkRequest None None (Some "17")
      (JsonObject [("duration", JNum 1500); ("message", JStr "done")]) in
  let during server :=
    mkServer (rateLimitMap server) (snd (deleteMonitor backupId (database server))) in
  exists response server',
    POSTawait Iso.getTime pingEnv request backupId during quietServer
    = (Returned response, server') /\
    res_status response = 200 /\
    monitors (database (recordingState pingEnv request backupId during quietServer))
      !! backupId = None /\
    (exists monitor_name monitor_status,
       res_body response = PingBody None backupId monitor_name monitor_status) /\
    database server' = mkDb ∅ ∅.
Proof.
  cbv zeta. eexists _, _. split; [vm_compute; reflexivity|]. split; [reflexivity|].
  split; [vm_compute; reflexivity|].
  destruct (POST_200_and_the_ping Iso.getTime pingEnv
              (mkRequest None None (Some "17")
                 (JsonObject [("duration", JNum 1500); ("message", JStr "done")]))
              backupId
              (fun server =>
                 mkServer (rateLimitMap server)
                   (snd (deleteMonitor backupId (database server))))
              quietServer _ _ eq_refl eq_refl) as (_ & Hgone & _).
  destruct Hgone as [Hbody Hdb]; [vm_compute; reflexivity|].
  split; [exact Hbody|]. refine (eq_trans Hdb _). vm_compute. reflexivity.
Defined.

Lemma POST_without_length_ignores_body_witness :
  POST Iso.getTime pingEnv (mkRequest None None (Some "0") JsonNotObject) backupId quietServer
  = POST Iso.getTime pingEnv (mkRequest None None (Some "0") NotJson) backupId quietServer.
Proof.
  destruct (POST_without_length_ignores_body Iso.getTime pingEnv
              (mkRequest None None (Some "0") NotJson) backupId quietServer eq_refl)
    as [Hsame _].
  exact (Hsame JsonNotObject).
Defined.

(** ** The client address *)

Lemma trimEnd_idempotent (s : string) : Js.trimEnd (Js.trimEnd s) = Js.trimEnd s.
Proof.
  induction s as [|c r IH]; [done|]. cbn.
  destruct (Js.isSpace c && Js.isEmpty (Js.trimEnd r)) eqn:E; [done|].
  cbn. by rewrite IH, E.
Qed.

Lemma span_isSpace_stops (s : string) :
  stopsAt Js.isSpace (snd (Js.span Js.isSpace s)) = true.
Proof.
  induction s as [|c r IH]; [done|]. cbn.
  destruct (Js.isSpace c) eqn:E; [|by cbn; rewrite E].
  by destruct (Js.span Js.isSpace r).
Qed.

Lemma trim_idempotent (s : string) : Js.trim (Js.trim s) = Js.trim s.
Proof.
  unfold Js.trim. pose proof (span_isSpace_stops s) as H.
  destruct (snd (Js.span Js.isSpace s)) as [|c r]; [reflexivity|].
  cbn in H. apply negb_true_iff in H.
  assert (Hhead : Js.trimEnd (String c r) = String c (Js.trimEnd r))
    by (cbn; by rewrite H).
  rewrite Hhead. cbn [Js.span]. rewrite H. cbn [snd]. rewrite <- Hhead.
  apply trimEnd_idempotent.
Qed.

Lemma beforeComma_idempotent (s : string) :
  Js.beforeComma (Js.beforeComma s) = Js.beforeComma s.
Proof.
  induction s as [|c r IH]; [done|]. cbn.
  destruct (Ascii.eqb c ",") eqn:E; [done|]. cbn. by rewrite E, IH.
Qed.

Lemma beforeComma_span (f : ascii -> bool) (s : string) :
  Js.beforeComma s = s -> Js.beforeComma (snd (Js.span f s)) = snd (Js.span f s).
Proof.
  induction s as [|c r IH]; [done|]. cbn.
  destruct (Ascii.eqb c ",") eqn:E; [done|]. intros [= H].
  destruct (f c); [|by cbn; rewrite E, H].
  specialize (IH H). by destruct (Js.span f r).
Qed.

Lemma beforeComma_trimEnd (s : string) :
  Js.beforeComma s = s -> Js.beforeComma (Js.trimEnd s) = Js.trimEnd s.
Proof.
  induction s as [|c r IH]; [done|]. cbn.
  destruct (Ascii.eqb c ",") eqn:E; [done|]. intros [= H].
  destruct (_ && _); [done|]. cbn. by rewrite E, IH.
Qed.

(** X7: the client address that the ping route stores is never the empty
    string. When the first entry of [x-forwarded-for] is not blank the
    address is that entry, without surrounding white space and without a
    comma; otherwise it is the [x-real-ip] header when that is not empty,
    and there is none when both are absent or empty. *)
Theorem getClientIp_first_address (request : Request) :
  getClientIp request <> Some "" /\
  (forall forwarded,
     x_forwarded_for request = Some forwarded ->
     Js.trim (Js.beforeComma forwarded) <> "" ->
     exists ip, getClientIp request = Some ip /\
       ip = Js.trim (Js.beforeComma forwarded) /\
       Js.trim ip = ip /\ Js.beforeComma ip = ip) /\
  ((forall forwarded, x_forwarded_for request = Some forwarded ->
      Js.trim (Js.beforeComma forwarded) = "") ->
   getClientIp request
   = if Js.truthy (x_real_ip request) then x_real_ip request else None).
Proof.
  unfold getClientIp. split; [|split].
  - destruct (x_forwarded_for request) as [forwarded|]; cbn.
    + destruct (Js.trim (Js.beforeComma forwarded)) as [|c r] eqn:E; cbn; [|done].
      by destruct (x_real_ip request) as [[|]|].
    + by destruct (x_real_ip request) as [[|]|].
  - intros forwarded -> Hne. cbn.
    destruct (Js.trim (Js.beforeComma forwarded)) as [|c r] eqn:E; [done|]. cbn.
    eexists. split; [done|]. split; [done|]. rewrite <- E. split.
    + apply trim_idempotent.
    + unfold Js.trim. apply beforeComma_trimEnd, beforeComma_span, beforeComma_idempotent.
  - intros H. destruct (x_forwarded_for request) as [forwarded|]; cbn; [|done].
    by rewrite (H forwarded eq_refl).
Qed.

(** ** Deleting a monitor *)

Lemma deleteMonitor_absent (id : string) (db : Db) :
  monitors db !! id = None -> deleteMonitor id db = (false, db).
Proof. intros H. unfold deleteMonitor, Stmt.deleteMonitor. by rewrite H. Qed.

Lemma deleteMonitor_present (id : string) (db : Db) (row : MonitorRow) :
  monitors db !! id = Some row ->
  deleteMonitor id db
  = (true, mkDb (delete id (monitors db))
                (filter (fun kr => p_monitor_id kr.2 <> id) (pingRows db))).
Proof. intros H. unfold deleteMonitor, Stmt.deleteMonitor. by rewrite H. Qed.

(** X8: [deleteMonitor] on an id with no monitor answers [false] and
    changes nothing. On a monitor it answers [true]; afterwards the
    monitor is gone ([getMonitor] gives [null]), every other monitor row is
    as before, and the pings left are exactly the pings of the other
    monitors: the monitor's own pings are deleted with it. *)
Theorem deleteMonitor_cascades (getTime : string -> option Z) (id : string) (db : Db) :
  (monitors db !! id = None -> deleteMonitor id db = (false, db)) /\
  (is_Some (monitors db !! id) ->
   exists db',
     deleteMonitor id db = (true, db') /\
     (forall now, getMonitor getTime now id db' = None) /\
     (forall k, k <> id -> monitors db' !! k = monitors db !! k) /\
     (forall pid ping,
        pingRows db' !! pid = Some ping <->
        pingRows db !! pid = Some ping /\ p_monitor_id ping <> id) /\
     fst (deleteMonitor id db') = false).
Proof.
  split; [apply deleteMonitor_absent|].
  intros [row Hrow]. eexists. split; [by eapply deleteMonitor_present|].
  cbn. split; [|split; [|split]].
  - intros now. unfold getMonitor, Stmt.getMonitor. cbn. by rewrite lookup_delete_eq.
  - intros k Hk. by rewrite lookup_delete_ne.
  - intros pid ping. by rewrite map_lookup_filter_Some.
  - rewrite deleteMonitor_absent; [done|]. cbn. apply lookup_delete_eq.
Qed.

Lemma deleteMonitor_cascades_witness :
  exists db',
    deleteMonitor backupId pingedDb = (true, db') /\
    (forall now, getMonitor Iso.getTime now backupId db' = None) /\
    (forall k, k <> backupId -> monitors db' !! k = monitors pingedDb !! k) /\
    (forall pid ping,
       pingRows db' !! pid = Some ping <->
       pingRows pingedDb !! pid = Some ping /\ p_monitor_id ping <> backupId) /\
    fst (deleteMonitor backupId db') = false.
Proof.
  apply (deleteMonitor_cascades Iso.getTime backupId pingedDb).
  eexists. vm_compute. reflexivity.
Defined.

(** ** The foreign key of the pings *)

Lemma alter_keeps_pings_attached (f : MonitorRow -> MonitorRow) (id : string) (db : Db) :
  pingsHaveMonitors db -> pingsHaveMonitors (mkDb (alter f id (monitors db)) (pingRows db)).
Proof.
  intros H pid ping Hping. cbn in *. specialize (H pid ping Hping). cbn in H.
  rewrite lookup_alter. case_decide; [subst|done].
  destruct H as [row ->]. by eexists.
Qed.

Section Integrity.

Variable getTime : string -> option Z.

Lemma createMonitor_keeps_pings_attached newId createdAt name schedule graceMinutes db :
  pingsHaveMonitors db ->
  pingsHaveMonitors (snd (createMonitor newId createdAt name schedule graceMinutes db)).
Proof.
  intros H. unfold createMonitor, Stmt.insertMonitor.
  destruct (monitors db !! newId) eqn:E; [done|]. cbn.
  intros pid ping Hping. cbn in *. specialize (H pid ping Hping). cbn in H.
  rewrite lookup_insert. case_decide; [by eexists|done].
Qed.

Lemma updateMonitor_keeps_pings_attached now id updates db :
  pingsHaveMonitors db ->
  pingsHaveMonitors (snd (updateMonitor getTime now id updates db)).
Proof.
  intros H. unfold updateMonitor. destruct (getMonitor _ _ _ _); [|done].
  by apply alter_keeps_pings_attached.
Qed.

Lemma pauseMonitor_keeps_pings_attached now pausedAt id reason until db :
  pingsHaveMonitors db ->
  pingsHaveMonitors (snd (pauseMonitor getTime now pausedAt id reason until db)).
Proof.
  intros H. unfold pauseMonitor. destruct (getMonitor _ _ _ _); [|done].
  by apply alter_keeps_pings_attached.
Qed.

Lemma resumeMonitor_keeps_pings_attached now id db :
  pingsHaveMonitors db ->
  pingsHaveMonitors (snd (resumeMonitor getTime now id db)).
Proof.
  intros H. unfold resumeMonitor. destruct (getMonitor _ _ _ _); [|done].
  by apply alter_keeps_pings_attached.
Qed.

Lemma recordPing_keeps_pings_attached newId timestamp id success duration message ip db :
  pingsHaveMonitors db ->
  pingsHaveMonitors (snd (recordPing newId timestamp id success duration message ip db)).
Proof.
  intros H. unfold recordPing, Stmt.getMonitor.
  destruct (monitors db !! id) as [row|] eqn:E; [|done].
  unfold transaction, Stmt.insertPing. cbn [ping_id p_monitor_id].
  rewrite E.
  destruct (pingRows db !! newId) eqn:En; cbn; [done|].
  intros pid ping. cbn. rewrite lookup_insert, lookup_alter.
  destruct (decide (newId = pid)) as [_|_].
  - intros [= <-]. cbn. rewrite decide_True by done. rewrite E. by eexists.
  - intros Hping. specialize (H pid ping Hping). cbn in H.
    case_decide; [|done]. rewrite E. by eexists.
Qed.

Lemma sweep_keeps_pings_attached now db :
  pingsHaveMonitors db -> pingsHaveMonitors (snd (checkAndResumeMonitors now db)).
Proof.
  unfold checkAndResumeMonitors. rewrite sweep_fold. cbn.
  generalize (Stmt.getPausedMonitorsToResume now db). intros ids. revert db.
  induction ids as [|i ids IH]; intros db Hdb; cbn; [done|].
  by apply IH, alter_keeps_pings_attached.
Qed.

Lemma deleteMonitor_keeps_pings_attached id db :
  pingsHaveMonitors db -> pingsHaveMonitors (snd (deleteMonitor id db)).
Proof.
  intros H. unfold deleteMonitor, Stmt.deleteMonitor.
  destruct (monitors db !! id) eqn:E; [|done]. cbn.
  intros pid ping [Hping Hne]%map_lookup_filter_Some. cbn in *.
  specialize (H pid ping Hping). cbn in H. by rewrite lookup_delete_ne.
Qed.

(** X9: the foreign key of the pings is an invariant of the storage
    layer: from a database in which every ping belongs to a monitor, each
    of its writers (create, update, delete, record ping, pause, resume,
    sweep) leads to one in which every ping does, also when the call
    fails; the empty database is such a database. *)
Theorem writers_keep_pings_attached (db : Db) :
  pingsHaveMonitors db ->
  (forall newId createdAt name schedule graceMinutes,
     pingsHaveMonitors (snd (createMonitor newId createdAt name schedule graceMinutes db))) /\
  (forall now id updates,
     pingsHaveMonitors (snd (updateMonitor getTime now id updates db))) /\
  (forall id, pingsHaveMonitors (snd (deleteMonitor id db))) /\
  (forall newId timestamp id success duration message ip,
     pingsHaveMonitors (snd (recordPing newId timestamp id success duration message ip db))) /\
  (forall now pausedAt id reason until,
     pingsHaveMonitors (snd (pauseMonitor getTime now pausedAt id reason until db))) /\
  (forall now id, pingsHaveMonitors (snd (resumeMonitor getTime now id db))) /\
  (forall now, pingsHaveMonitors (snd (checkAndResumeMonitors now db))) /\
  pingsHaveMonitors (mkDb ∅ ∅).
Proof.
  intros H.
  split; [intros; by apply createMonitor_keeps_pings_attached|].
  split; [intros; by apply updateMonitor_keeps_pings_attached|].
  split; [intros; by apply deleteMonitor_keeps_pings_attached|].
  split; [intros; by apply recordPing_keeps_pings_attached|].
  split; [intros; by apply pauseMonitor_keeps_pings_attached|].
  split; [intros; by apply resumeMonitor_keeps_pings_attached|].
  split; [intros; by apply sweep_keeps_pings_attached|].
  apply map_Forall_empty.
Qed.

End Integrity.

Lemma writers_keep_pings_attached_witness :
  pingsHaveMonitors pingedDb /\
  pingsHaveMonitors (snd (deleteMonitor backupId pingedDb)) /\
  pingsHaveMonitors (snd (recordPing "9c3d1f0e-5b7a-4e21-b0c4-2a8d7e6f5a41"
                            "2024-01-15T10:05:00.000Z" backupId true None None None
                            pingedDb)).
Proof.
  assert (Hfk : pingsHaveMonitors pingedDb).
  { apply (bool_decide_unpack _). vm_compute. exact I. }
  destruct (writers_keep_pings_attached Iso.getTime pingedDb Hfk)
    as (_ & _ & Hdelete & Hping & _).
  split; [exact Hfk|]. split; [apply Hdelete|apply Hping].
Defined.

(** ** Reading back what was written *)

Lemma filter_nil_Forall {A} (f : A -> bool) (l : list A) :
  (forall x, x ∈ l -> f x = false) -> List.filter f l = [].
Proof.
  induction l as [|x l IH]; intros H; cbn; [done|].
  rewrite (H x) by (apply elem_of_cons; by left).
  apply IH. intros y Hy. apply H, elem_of_cons. by right.
Qed.

Lemma getPingsForMonitor_no_pings (id : string) (db : Db) :
  (forall pid ping, pingRows db !! pid = Some ping -> p_monitor_id ping <> id) ->
  Stmt.getPingsForMonitor id db = [].
Proof.
  intros H. unfold Stmt.getPingsForMonitor.
  rewrite filter_nil_Forall; [done|].
  intros [pid ping] Hin%elem_of_map_to_list. cbn.
  apply String.eqb_neq. by eapply H.
Qed.

Lemma getPingsForMonitor_same_pings (id : string) (db db' : Db) :
  pingRows db' = pingRows db ->
  Stmt.getPingsForMonitor id db' = Stmt.getPingsForMonitor id db.
Proof. intros H. unfold Stmt.getPingsForMonitor. by rewrite H. Qed.

Section RoundTrips.

Variable getTime : string -> option Z.

(** X10: [createMonitor] with an id that is taken throws and leaves the
    database as it was. With a fresh id, in a database whose pings all
    belong to monitors, it returns a monitor that is down, has no ping and
    has the grace given (15 when none is); [getMonitor] on the new id then
    returns that same object at any time, and returns for every other id
    what it returned before. *)
Theorem createMonitor_then_getMonitor (newId createdAt name schedule : string)
    (grace : option Z) (db : Db) :
  pingsHaveMonitors db ->
  (is_Some (monitors db !! newId) ->
   createMonitor newId createdAt name schedule grace db = (Thrown, db)) /\
  (monitors db !! newId = None ->
   exists m db',
     createMonitor newId createdAt name schedule grace db = (Returned m, db') /\
     status m = Down /\ pings m = [] /\ lastPing m = None /\ paused m = false /\
     graceMinutes m = default 15 grace /\
     intervalMinutes m = Some (parseScheduleInterval schedule) /\
     (forall now, getMonitor getTime now newId db' = Some m) /\
     (forall now k, k <> newId ->
        getMonitor getTime now k db' = getMonitor getTime now k db)).
Proof.
  intros Hfk. unfold createMonitor, Stmt.insertMonitor. split.
  - intros [row ->]. done.
  - intros Hnew. rewrite Hnew. eexists _, _. split; [done|]. cbn.
    repeat (split; [done|]). split.
    + intros now. unfold getMonitor, Stmt.getMonitor. cbn. rewrite lookup_insert_eq.
      rewrite getPingsForMonitor_no_pings; [done|].
      cbn. intros pid ping Hping Heq. specialize (Hfk pid ping Hping). cbn in Hfk.
      rewrite Heq, Hnew in Hfk. by destruct Hfk.
    + intros now k Hk. unfold getMonitor, Stmt.getMonitor. cbn.
      rewrite lookup_insert_ne by done.
      done.
Qed.


Lemma getMonitorStatus_of_paused (now : Z) (m : Monitor) :
  paused m = true -> getMonitorStatus getTime now m = Paused.
Proof.
  intros H. unfold getMonitorStatus. rewrite H.
  destruct (Js.truthy _); [|done]. destruct (getTime _); [|done]. by destruct (_ >=? _).
Qed.

Lemma getMonitor_None (now : Z) (k : string) (db : Db) :
  monitors db !! k = None -> getMonitor getTime now k db = None.
Proof. intros H. unfold getMonitor, Stmt.getMonitor. by rewrite H. Qed.

Lemma resumedRow_of_paused (row : MonitorRow) (stamp : string) (until reason : option string) :
  notPaused row ->
  Stmt.resumedRow
    (mkMonitorRow (r_name row) (r_schedule row) (r_interval_minutes row)
       (r_grace_minutes row) (r_last_ping row) (r_created_at row)
       1 (Some stamp) until reason) = row.
Proof.
  intros (H1 & H2 & H3 & H4). destruct row. cbn in *. unfold Stmt.resumedRow. cbn.
  by subst.
Qed.

(** X11: pausing a monitor that is not paused and then resuming it
    restores the database exactly. In between, [getMonitor] reports the
    monitor as paused at every time, with the pause's time, end and reason
    as given; the resume returns the monitor as it reads in the restored
    database. On an id with no monitor both calls return [null] and write
    nothing. *)
Theorem pauseMonitor_then_resumeMonitor (now now' : Z) (stamp monitorId : string)
    (reason until : option string) (db : Db) (row : MonitorRow) :
  monitors db !! monitorId = Some row ->
  notPaused row ->
  exists m db1,
    pauseMonitor getTime now stamp monitorId reason until db = (Some m, db1) /\
    paused m = true /\ pausedAt m = Some stamp /\ pausedUntil m = until /\
    pauseReason m = reason /\
    (forall t, status <$> getMonitor getTime t monitorId db1 = Some Paused) /\
    resumeMonitor getTime now' monitorId db1
    = (getMonitor getTime now' monitorId db, db).
Proof.
  intros Hrow Hnp. unfold pauseMonitor.
  rewrite (getMonitor_Some getTime now monitorId db row Hrow).
  set (db1 := Stmt.pauseMonitor monitorId stamp until reason db).
  assert (Hrow1 : monitors db1 !! monitorId =
            Some (mkMonitorRow (r_name row) (r_schedule row) (r_interval_minutes row)
                    (r_grace_minutes row) (r_last_ping row) (r_created_at row)
                    1 (Some stamp) until reason)).
  { unfold db1, Stmt.pauseMonitor. cbn. rewrite lookup_alter_eq. by rewrite Hrow. }
  assert (Hback : Stmt.resumeMonitor monitorId db1 = db).
  { unfold Stmt.resumeMonitor, db1, Stmt.pauseMonitor. cbn [monitors pingRows].
    destruct db as [ms ps]. cbn [monitors pingRows] in *.
    f_equal. apply map_eq. intros k. rewrite !lookup_alter.
    case_decide; [subst k|done]. rewrite Hrow. cbn [fmap option_fmap option_map].
    rewrite decide_True by done. cbn [fmap option_fmap option_map]. f_equal. by apply resumedRow_of_paused. }
  cbv zeta. fold db1.
  rewrite (getMonitor_Some getTime now monitorId db1 _ Hrow1).
  eexists _, db1. split; [reflexivity|]. cbn.
  repeat (split; [done|]). split.
  - intros t. rewrite (getMonitor_Some getTime t monitorId db1 _ Hrow1).
    unfold rowToMonitor. cbn [status set_status fmap option_fmap option_map].
    by rewrite getMonitorStatus_of_paused.
  - unfold resumeMonitor.
    rewrite (getMonitor_Some getTime now' monitorId db1 _ Hrow1).
    by rewrite Hback.
Qed.

End RoundTrips.

Lemma createMonitor_then_getMonitor_witness :
  exists m db',
    createMonitor "9c3d1f0e-5b7a-4e21-b0c4-2a8d7e6f5a41" "2024-01-02T00:00:00.000Z"
      "Hourly report" "Every hour" None pingedDb = (Returned m, db') /\
    graceMinutes m = 15 /\
    (forall now,
       getMonitor Iso.getTime now "9c3d1f0e-5b7a-4e21-b0c4-2a8d7e6f5a41" db' = Some m).
Proof.
  assert (Hfk : pingsHaveMonitors pingedDb).
  { apply (bool_decide_unpack _). vm_compute. exact I. }
  destruct (createMonitor_then_getMonitor Iso.getTime
              "9c3d1f0e-5b7a-4e21-b0c4-2a8d7e6f5a41" "2024-01-02T00:00:00.000Z"
              "Hourly report" "Every hour" None pingedDb Hfk) as [_ Hfresh].
  destruct Hfresh as (m & db' & Hcreate & _ & _ & _ & _ & Hgrace & _ & Hget & _).
  - vm_compute. reflexivity.
  - exists m, db'. split; [exact Hcreate|]. split; [exact Hgrace|exact Hget].
Defined.

Lemma pauseMonitor_then_resumeMonitor_witness :
  resumeMonitor Iso.getTime 1705312800000 backupId pausedDb
  = (getMonitor Iso.getTime 1705312800000 backupId backupDb, backupDb).
Proof.
  destruct (pauseMonitor_then_resumeMonitor Iso.getTime 1705309200000 1705312800000
              "2024-01-15T09:00:00.000Z" backupId (Some "Scheduled maintenance")
              (Some "2024-01-15T10:00:00Z") backupDb backupRow)
    as (m & db1 & Hpause & _ & _ & _ & _ & _ & Hresume).
  - vm_compute. reflexivity.
  - repeat split.
  - unfold pausedDb. rewrite Hpause. exact Hresume.
Defined.

(** ** The stored interval *)

Lemma alter_keeps_rows (P : MonitorRow -> Prop) (f : MonitorRow -> MonitorRow)
    (id : string) (db : Db) :
  (forall row, monitors db !! id = Some row -> P row -> P (f row)) ->
  map_Forall (fun _ row => P row) (monitors db) ->
  map_Forall (fun _ row => P row) (alter f id (monitors db)).
Proof.
  intros Hf Hdb k row. rewrite lookup_alter. case_decide; [subst k|by apply Hdb].
  destruct (monitors db !! id) as [row0|] eqn:E; [|done].
  cbn. intros [= <-]. apply Hf; [done|]. by eapply Hdb.
Qed.

Lemma resume_all_keeps_rows (P : MonitorRow -> Prop) (ids : list string) (db : Db) :
  (forall row, P row -> P (Stmt.resumedRow row)) ->
  map_Forall (fun _ row => P row) (monitors db) ->
  map_Forall (fun _ row => P row)
    (monitors (fold_left (fun db id => Stmt.resumeMonitor id db) ids db)).
Proof.
  intros Hf. revert db. induction ids as [|i ids IH]; intros db Hdb; cbn; [done|].
  apply IH. cbn [Stmt.resumeMonitor monitors]. apply alter_keeps_rows; [|done]. intros; by apply Hf.
Qed.

Section Interval.

Variable getTime : string -> option Z.

(** X12: the stored interval of a monitor is always the one its stored
    schedule parses to. From a database where this holds, create, delete,
    record ping, pause, resume and the sweep lead to one where it holds,
    and so does an update whose schedule is absent or not empty (an update
    to the empty schedule keeps the old interval). Every monitor read from
    such a database has the interval of its schedule, also when the stored
    interval is 0. *)
Theorem writers_keep_interval_derived (db : Db) :
  intervalsDerived db ->
  (forall newId createdAt name schedule grace,
     intervalsDerived (snd (createMonitor newId createdAt name schedule grace db))) /\
  (forall now monitorId updates,
     u_schedule updates <> Some "" ->
     intervalsDerived (snd (updateMonitor getTime now monitorId updates db))) /\
  (forall monitorId, intervalsDerived (snd (deleteMonitor monitorId db))) /\
  (forall newId timestamp monitorId success duration message ip,
     intervalsDerived
       (snd (recordPing newId timestamp monitorId success duration message ip db))) /\
  (forall now stamp monitorId reason until,
     intervalsDerived (snd (pauseMonitor getTime now stamp monitorId reason until db))) /\
  (forall now monitorId, intervalsDerived (snd (resumeMonitor getTime now monitorId db))) /\
  (forall now, intervalsDerived (snd (checkAndResumeMonitors now db))) /\
  (forall now monitorId monitor,
     getMonitor getTime now monitorId db = Some monitor ->
     intervalMinutes monitor = Some (parseScheduleInterval (schedule monitor)) /\
     monitorInterval monitor = parseScheduleInterval (schedule monitor)).
Proof.
  intros H. unfold intervalsDerived in *.
  split; [|split; [|split; [|split; [|split; [|split; [|split]]]]]].
  - intros fresh created name' schedule' grace. unfold createMonitor, Stmt.insertMonitor.
    destruct (monitors db !! fresh) eqn:E; [done|]. cbn.
    by apply map_Forall_insert_2.
  - intros now monitorId updates Hs. unfold updateMonitor, getMonitor, Stmt.getMonitor.
    destruct (monitors db !! monitorId) as [row|] eqn:E; [|done].
    cbn [snd]. unfold Stmt.updateMonitor. cbn [monitors].
    apply (alter_keeps_rows
             (fun row => r_interval_minutes row = parseScheduleInterval (r_schedule row)));
      [|done].
    intros row' Hrow' _. cbn.
    destruct (u_schedule updates) as [[|c s]|]; cbn; [done|done|].
    by eapply H.
  - intros monitorId. unfold deleteMonitor, Stmt.deleteMonitor.
    destruct (monitors db !! monitorId) eqn:E; [|done]. cbn.
    by apply map_Forall_delete.
  - intros fresh stamp monitorId success duration message ip.
    unfold recordPing, Stmt.getMonitor.
    destruct (monitors db !! monitorId) as [row|] eqn:E; [|done].
    unfold transaction, Stmt.insertPing. cbn [ping_id p_monitor_id]. rewrite E.
    destruct (pingRows db !! fresh); cbn; [done|].
    apply (alter_keeps_rows
             (fun row => r_interval_minutes row = parseScheduleInterval (r_schedule row))
             _ monitorId db); [|done].
    by intros row' _ Hrow'.
  - intros now stamp monitorId reason until. unfold pauseMonitor.
    destruct (getMonitor _ _ _ _); [|done].
    cbn [snd]. unfold Stmt.pauseMonitor. cbn [monitors].
    apply (alter_keeps_rows
             (fun row => r_interval_minutes row = parseScheduleInterval (r_schedule row)));
      [|done].
    by intros row' _ Hrow'.
  - intros now monitorId. unfold resumeMonitor. destruct (getMonitor _ _ _ _); [|done].
    cbn [snd]. unfold Stmt.resumeMonitor. cbn [monitors].
    apply (alter_keeps_rows
             (fun row => r_interval_minutes row = parseScheduleInterval (r_schedule row)));
      [|done].
    by intros row' _ Hrow'.
  - intros now. unfold checkAndResumeMonitors. rewrite sweep_fold. cbn [snd].
    by apply (resume_all_keeps_rows
             (fun row => r_interval_minutes row = parseScheduleInterval (r_schedule row))).
  - intros now monitorId monitor. unfold getMonitor, Stmt.getMonitor.
    destruct (monitors db !! monitorId) as [row|] eqn:E; [|done].
    intros [= <-]. cbn.
    assert (Hi : r_interval_minutes row = parseScheduleInterval (r_schedule row))
      by (by eapply H).
    split; [by rewrite Hi|].
    unfold monitorInterval. cbn. rewrite Hi. by destruct (_ =? 0).
Qed.

End Interval.

Lemma writers_keep_interval_derived_witness :
  intervalsDerived pausedDb /\
  intervalsDerived (snd (updateMonitor Iso.getTime 1705312800000 backupId
                           (patchUpdates (mkUpdateInput None (Some "Every hour") None))
                           pausedDb)) /\
  intervalsDerived (snd (checkAndResumeMonitors "2024-01-15T10:00:01.000Z" pausedDb)).
Proof.
  assert (Hd : intervalsDerived pausedDb).
  { apply (bool_decide_unpack _). vm_compute. exact I. }
  destruct (writers_keep_interval_derived Iso.getTime pausedDb Hd)
    as (_ & Hupdate & _ & _ & _ & _ & Hsweep & _).
  split; [exact Hd|]. split; [|apply Hsweep].
  apply Hupdate. vm_compute. discriminate.
Defined.

(** ** The sweep *)

Lemma resumedRow_not_due (now : string) (row : MonitorRow) :
  Stmt.dueToResume now (Stmt.resumedRow row) = false.
Proof. done. Qed.

(** X13: a second sweep at the same time finds nothing to resume: it
    returns the empty list and leaves the database as the first sweep left
    it. After a sweep no monitor it returned is paused. *)
Theorem checkAndResumeMonitors_idempotent (now : string) (db : Db) :
  checkAndResumeMonitors now (snd (checkAndResumeMonitors now db))
  = ([], snd (checkAndResumeMonitors now db)) /\
  (forall k row,
     k ∈ fst (checkAndResumeMonitors now db) ->
     monitors (snd (checkAndResumeMonitors now db)) !! k = Some row ->
     r_paused row = 0 /\ r_paused_until row = None).
Proof.
  pose proof (checkAndResumeMonitors_text_order now db) as H.
  destruct (checkAndResumeMonitors now db) as [resumed db'] eqn:E.
  destruct H as (_ & Hin & Hrows & _). cbn [fst snd]. split.
  - assert (Hnone : Stmt.getPausedMonitorsToResume now db' = []).
    { apply elem_of_nil_inv. intros k (row & Hrow & Hdue)%elem_of_toResume.
      rewrite Hrows in Hrow. destruct (decide (k ∈ resumed)) as [Hk|Hk].
      - destruct (monitors db !! k) as [row0|]; [|done]. cbn in Hrow.
        injection Hrow as <-. by rewrite resumedRow_not_due in Hdue.
      - apply Hk, Hin. unfold Stmt.dueToResume in Hdue.
        apply andb_true_iff in Hdue as [Hp Hu]. apply Z.eqb_eq in Hp.
        destruct (r_paused_until row) as [u|] eqn:Eu; [|done].
        by exists row, u. }
    unfold checkAndResumeMonitors. by rewrite Hnone.
  - intros k row Hk Hrow. rewrite Hrows, decide_True in Hrow by done.
    destruct (monitors db !! k); [|done]. by injection Hrow as <-.
Qed.

(** ** Updates through the [PATCH] route *)

Section Updates.

Variable getTime : string -> option Z.

(** X14: what an update that the [PATCH] route lets through does. On an
    id with no monitor it returns [null] and writes nothing. On a monitor
    it returns the monitor as [getMonitor] then reads it: the name, the
    schedule and the grace are the given ones, or the old ones where none
    is given; with a schedule that is not empty the interval is the one it
    parses to, and else the old one; the last ping, the creation time, the
    pause and the pings are as before, and so are all other monitors. *)
Theorem updateMonitor_then_getMonitor (now : Z) (monitorId : string)
    (validated : UpdateMonitorInput) (db : Db) :
  (monitors db !! monitorId = None ->
   updateMonitor getTime now monitorId (patchUpdates validated) db = (None, db)) /\
  (forall row,
     monitors db !! monitorId = Some row ->
     exists m db',
       updateMonitor getTime now monitorId (patchUpdates validated) db = (Some m, db') /\
       getMonitor getTime now monitorId db' = Some m /\
       name m = default (r_name row) (in_name validated) /\
       schedule m = default (r_schedule row) (in_schedule validated) /\
       graceMinutes m = default (r_grace_minutes row) (in_graceMinutes validated) /\
       intervalMinutes m
       = Some (if Js.truthy (in_schedule validated)
               then parseScheduleInterval (default "" (in_schedule validated))
               else r_interval_minutes row) /\
       lastPing m = r_last_ping row /\ createdAt m = r_created_at row /\
       paused m = (r_paused row =? 1) /\ pausedAt m = r_paused_at row /\
       pausedUntil m = r_paused_until row /\ pauseReason m = r_pause_reason row /\
       pings m = rowToPing <$> Stmt.getPingsForMonitor monitorId db /\
       pingRows db' = pingRows db /\
       (forall k, k <> monitorId -> monitors db' !! k = monitors db !! k)).
Proof.
  split.
  - intros H. unfold updateMonitor. by rewrite (getMonitor_None getTime now monitorId db H).
  - intros row Hrow. unfold updateMonitor.
    rewrite (getMonitor_Some getTime now monitorId db row Hrow). cbv zeta.
    set (db' := Stmt.updateMonitor _ _ _ _ _ _ _ _ _ _ _).
    assert (Hrow' : exists row', monitors db' !! monitorId = Some row' /\
              r_name row' = default (r_name row) (in_name validated) /\
              r_schedule row' = default (r_schedule row) (in_schedule validated) /\
              r_grace_minutes row'
              = default (r_grace_minutes row) (in_graceMinutes validated) /\
              r_interval_minutes row'
              = (if Js.truthy (in_schedule validated)
                 then parseScheduleInterval (default "" (in_schedule validated))
                 else r_interval_minutes row) /\
              r_last_ping row' = r_last_ping row /\ r_created_at row' = r_created_at row /\
              (r_paused row' =? 1) = (r_paused row =? 1) /\
              r_paused_at row' = r_paused_at row /\
              r_paused_until row' = r_paused_until row /\
              r_pause_reason row' = r_pause_reason row).
    { eexists. split.
      - unfold db', Stmt.updateMonitor. cbn [monitors]. rewrite lookup_alter_eq, Hrow. done.
      - cbn. repeat split; try done.
        + by destruct (Js.truthy (in_schedule validated)).
        + by destruct (r_paused row =? 1). }
    destruct Hrow' as (row' & Hrow' & Hn & Hs & Hg & Hi & Hl & Hc & Hp & Hpa & Hpu & Hpr).
    rewrite (getMonitor_Some getTime now monitorId db' row' Hrow').
    eexists _, db'. split; [reflexivity|].
    split; [exact (getMonitor_Some getTime now monitorId db' row' Hrow')|]. cbn.
    rewrite Hn, Hs, Hg, Hi, Hl, Hc, Hp, Hpa, Hpu, Hpr.
    repeat (split; [done|]).
    intros k Hk. unfold db', Stmt.updateMonitor. cbn. by rewrite lookup_alter_ne.
Qed.

End Updates.

Lemma updateMonitor_then_getMonitor_witness :
  exists m db',
    updateMonitor Iso.getTime 1705312800000 backupId
      (patchUpdates (mkUpdateInput None (Some "Every hour") None)) pausedDb
    = (Some m, db') /\
    schedule m = "Every hour" /\ intervalMinutes m = Some 60 /\
    name m = "Nightly backup" /\ paused m = true.
Proof.
  destruct (updateMonitor_then_getMonitor Iso.getTime 1705312800000 backupId
              (mkUpdateInput None (Some "Every hour") None) pausedDb)
    as [_ H].
  destruct (H (mkMonitorRow "Nightly backup" "Every 5 minutes" 5 10 None
                 "2024-01-01T00:00:00.000Z" 1 (Some "2024-01-15T09:00:00.000Z")
                 (Some "2024-01-15T10:00:00Z") (Some "Scheduled maintenance")))
    as (m & db' & Hu & _ & Hn & Hs & _ & Hi & _ & _ & Hp & _).
  - vm_compute. reflexivity.
  - exists m, db'. split; [exact Hu|]. split; [exact Hs|]. split; [exact Hi|].
    split; [exact Hn|exact Hp].
Defined.

(** ** The sweep, in the order of the stored text *)

(** X15: what the sweep does. It returns, each once, the ids of the rows
    with [paused = 1] whose [paused_until] is set and, compared as text
    byte by byte, is not after the time of the sweep; it resumes exactly
    those rows, clearing the four pause columns and no other, and leaves
    every other monitor and all pings as they were. A pause with no end is
    never ended by a sweep. *)
Theorem checkAndResumeMonitors_resumes_due (now : string) (db : Db) :
  let '(resumed, db') := checkAndResumeMonitors now db in
  NoDup resumed /\
  (forall k, k ∈ resumed <->
     exists row u, monitors db !! k = Some row /\ r_paused row = 1 /\
       r_paused_until row = Some u /\ String.leb u now = true) /\
  (forall k, monitors db' !! k =
     if decide (k ∈ resumed) then Stmt.resumedRow <$> monitors db !! k
     else monitors db !! k) /\
  pingRows db' = pingRows db /\
  (forall k row, monitors db !! k = Some row -> r_paused_until row = None ->
     monitors db' !! k = Some row).
Proof.
  pose proof (checkAndResumeMonitors_text_order now db) as H.
  destruct (checkAndResumeMonitors now db) as [resumed db'].
  destruct H as (Hnodup & Hin & Hrows & Hpings).
  repeat (split; [done|]).
  intros k row Hrow Hnone. rewrite Hrows, decide_False; [done|].
  intros (row' & u & Hrow' & _ & Hu & _)%Hin. congruence.
Qed.

(** ** The order of the lists *)

Lemma string_leb_trans (a b c : string) :
  String.leb a b = true -> String.leb b c = true -> String.leb a c = true.
Proof.
  unfold String.leb. revert b c.
  induction a as [|x a IH]; intros [|y b] [|z c]; cbn; try done.
  unfold Ascii.compare.
  destruct (N.compare_spec (N_of_ascii x) (N_of_ascii y)) as [Hxy|Hxy|Hxy];
    destruct (N.compare_spec (N_of_ascii y) (N_of_ascii z)) as [Hyz|Hyz|Hyz];
    destruct (N.compare_spec (N_of_ascii x) (N_of_ascii z)) as [Hxz|Hxz|Hxz];
    try done; try lia.
  apply IH.
Qed.

Lemma newerFirst_trans : Transitive Stmt.newerFirst.
Proof. intros a b c Hab Hbc. unfold Stmt.newerFirst in *. by eapply string_leb_trans. Qed.

Lemma newerFirst_total : Total Stmt.newerFirst.
Proof.
  intros a b. unfold Stmt.newerFirst.
  destruct (String.leb_total (p_timestamp b.2) (p_timestamp a.2)); auto.
Qed.

Lemma createdLaterFirst_trans : Transitive Stmt.createdLaterFirst.
Proof.
  intros a b c Hab Hbc. unfold Stmt.createdLaterFirst in *. by eapply string_leb_trans.
Qed.

Lemma createdLaterFirst_total : Total Stmt.createdLaterFirst.
Proof.
  intros a b. unfold Stmt.createdLaterFirst.
  destruct (String.leb_total (r_created_at b.2) (r_created_at a.2)); auto.
Qed.

Lemma StronglySorted_take {A} (R : relation A) (n : nat) (l : list A) :
  StronglySorted R l -> StronglySorted R (take n l).
Proof.
  intros H. rewrite <- (take_drop n l) in H. by apply StronglySorted_app_1_l in H.
Qed.

Lemma elem_of_stored_pings (id : string) (db : Db) (kr : string * PingRow) :
  kr ∈ List.filter (fun kr => String.eqb (p_monitor_id kr.2) id) (map_to_list (pingRows db))
  <-> pingRows db !! kr.1 = Some kr.2 /\ p_monitor_id kr.2 = id.
Proof.
  rewrite list_elem_of_In, filter_In, <- list_elem_of_In, String.eqb_eq.
  destruct kr as [k r]. by rewrite elem_of_map_to_list.
Qed.

(** X16: the pings [getPingsForMonitor] selects for a monitor are at most
    75 stored pings of that monitor, each once, ordered from the newest
    timestamp to the oldest (in the order of the stored text). A stored
    ping of the monitor is left out only when 75 are listed, and then it
    is not newer than any of the listed ones. *)
Theorem getPingsForMonitor_newest_75 (monitorId : string) (db : Db) :
  let listed := Stmt.getPingsForMonitor monitorId db in
  (length listed <= 75)%nat /\
  NoDup listed.*1 /\
  StronglySorted Stmt.newerFirst listed /\
  (forall kr, kr ∈ listed ->
     pingRows db !! kr.1 = Some kr.2 /\ p_monitor_id kr.2 = monitorId) /\
  (forall pid ping,
     pingRows db !! pid = Some ping -> p_monitor_id ping = monitorId ->
     ~ (pid, ping) ∈ listed ->
     length listed = 75%nat /\
     forall kr, kr ∈ listed -> String.leb (p_timestamp ping) (p_timestamp kr.2) = true).
Proof.
  cbv zeta. unfold Stmt.getPingsForMonitor.
  set (stored := List.filter _ (map_to_list (pingRows db))).
  set (sorted := merge_sort Stmt.newerFirst stored).
  assert (Hperm : sorted ≡ₚ stored) by apply merge_sort_Permutation.
  assert (Hsorted : StronglySorted Stmt.newerFirst sorted)
    by (apply StronglySorted_merge_sort; [apply newerFirst_trans|apply newerFirst_total]).
  assert (Hnodup : NoDup sorted.*1).
  { rewrite Hperm. unfold stored.
    assert (H : forall l : list (string * PingRow),
              NoDup l.*1 ->
              NoDup (List.filter (fun kr => String.eqb (p_monitor_id kr.2) monitorId) l).*1).
    { induction l as [|x l IH]; cbn; [done|]. intros [Hx Hl]%NoDup_cons.
      destruct (String.eqb _ _); cbn; [|by apply IH].
      apply NoDup_cons. split; [|by apply IH].
      intros (y & Hy1 & Hy2)%list_elem_of_fmap. apply Hx, list_elem_of_fmap.
      exists y. split; [done|]. apply list_elem_of_In, filter_In in Hy2 as [Hy2 _].
      by apply list_elem_of_In. }
    apply H, NoDup_fst_map_to_list. }
  split; [apply firstn_le_length|].
  split.
  { rewrite <- (take_drop 75 sorted), fmap_app in Hnodup. by apply NoDup_app in Hnodup as [? _]. }
  split; [by apply StronglySorted_take|].
  split.
  - intros kr Hkr. apply elem_of_stored_pings. fold stored. rewrite <- Hperm.
    rewrite <- (take_drop 75 sorted). apply elem_of_app. by left.
  - intros pid ping Hping Hid Hout.
    assert (Hin : (pid, ping) ∈ drop 75 sorted).
    { assert (H : (pid, ping) ∈ sorted).
      { rewrite Hperm. by apply elem_of_stored_pings. }
      rewrite <- (take_drop 75 sorted) in H. apply elem_of_app in H as [H|H]; [done|done]. }
    split.
    + rewrite length_take. apply Nat.min_l.
      destruct (decide (75 <= length sorted)%nat) as [|Hlt]; [done|].
      rewrite drop_ge in Hin by lia. by apply elem_of_nil in Hin.
    + intros kr Hkr. rewrite <- (take_drop 75 sorted) in Hsorted.
      apply (StronglySorted_app_1_elem_of _ _ _ kr (pid, ping)) in Hsorted; done.
Qed.

(** ** Listing and counting the monitors *)

Section Listing.

Variable getTime : string -> option Z.

Lemma rowToMonitor_status_Paused (now : Z) (k : string) (row : MonitorRow) (ps : list Ping) :
  MonitorStatus_eqb (status (rowToMonitor getTime now k row ps)) Paused
  = (r_paused row =? 1).
Proof.
  unfold rowToMonitor. cbn [status set_status]. unfold getMonitorStatus.
  cbn [paused pausedUntil lastPing]. destruct (r_paused row =? 1).
  - destruct (Js.truthy _); [|done]. destruct (getTime _); [|done]. by destruct (_ >=? _).
  - destruct (negb _); [done|]. destruct (getTime _); [|done]. cbn zeta.
    destruct (_ >? _); [done|]. by destruct (_ >? _).
Qed.

Lemma count_statuses (l : list Monitor) :
  let count st := length (List.filter (fun m => MonitorStatus_eqb (status m) st) l) in
  (count Healthy + count Late + count Down + count Paused)%nat = length l.
Proof.
  cbv zeta. induction l as [|m l IH]; cbn; [done|].
  destruct (status m); cbn; lia.
Qed.

Lemma count_imap {A B} (f : nat -> A -> B) (p : B -> bool) (q : A -> bool) (l : list A) :
  (forall i x, p (f i x) = q x) ->
  length (List.filter p (imap f l)) = length (List.filter q l).
Proof.
  revert f. induction l as [|x l IH]; intros f H; cbn; [done|].
  rewrite H. destruct (q x); cbn; rewrite (IH (f ∘ S)); try done; intros; apply H.
Qed.

Lemma count_Permutation {A} (q : A -> bool) (l l' : list A) :
  l ≡ₚ l' -> length (List.filter q l) = length (List.filter q l').
Proof.
  induction 1 as [|x l l' _ IH|x y l|l l' l'' _ IH1 _ IH2]; cbn; [done| | |congruence].
  - destruct (q x); cbn; by rewrite IH.
  - by destruct (q x), (q y).
Qed.

(** X17: [getAllMonitors] lists every stored monitor exactly once, each
    as [getMonitor] returns it at the time its status is computed, ordered
    from the latest creation time to the earliest (in the order of the
    stored text). *)
Theorem getAllMonitors_lists_each_once (clock : nat -> Z) (db : Db) :
  let all := getAllMonitors getTime clock db in
  length all = size (monitors db) /\
  NoDup (id <$> all) /\
  (forall k, k ∈ (id <$> all) <-> is_Some (monitors db !! k)) /\
  (forall i m, all !! i = Some m -> getMonitor getTime (clock i) (id m) db = Some m) /\
  StronglySorted (fun a b => String.leb (createdAt b) (createdAt a) = true) all.
Proof.
  cbv zeta. unfold getAllMonitors, Stmt.getAllMonitors.
  set (rows := merge_sort Stmt.createdLaterFirst (map_to_list (monitors db))).
  assert (Hperm : rows ≡ₚ map_to_list (monitors db)) by apply merge_sort_Permutation.
  assert (Hsorted : StronglySorted Stmt.createdLaterFirst rows)
    by (apply StronglySorted_merge_sort;
        [apply createdLaterFirst_trans|apply createdLaterFirst_total]).
  assert (Hids : id <$> imap (fun i kr =>
              rowToMonitor getTime (clock i) kr.1 kr.2
                (rowToPing <$> Stmt.getPingsForMonitor kr.1 db)) rows = rows.*1).
  { rewrite fmap_imap. generalize clock. clear. induction rows as [|kr rows IH]; intros clock; [done|].
    cbn [imap fmap list_fmap]. f_equal. apply (IH (clock ∘ S)). }
  split; [|split; [|split; [|split]]].
  - rewrite length_imap, Hperm. apply length_map_to_list.
  - rewrite Hids, Hperm. apply NoDup_fst_map_to_list.
  - intros k. rewrite Hids, Hperm, list_elem_of_fmap. split.
    + intros ([k' row] & -> & Hin%elem_of_map_to_list). by eexists.
    + intros [row Hrow]. exists (k, row). split; [done|]. by apply elem_of_map_to_list.
  - intros i m. rewrite list_lookup_imap.
    destruct (rows !! i) as [[k row]|] eqn:Ei; [|done]. cbn. intros [= <-]. cbn.
    assert (Hrow : monitors db !! k = Some row).
    { apply elem_of_map_to_list. rewrite <- Hperm. by eapply list_elem_of_lookup_2. }
    unfold getMonitor, Stmt.getMonitor. by rewrite Hrow.
  - generalize clock. clear Hperm Hids. induction Hsorted as [|kr rows Hs IH Hall]; intros clock';
      cbn [imap]; constructor.
    + apply (IH (clock' ∘ S)).
    + apply Forall_forall. intros m (i & Hm)%list_elem_of_lookup_1.
      rewrite list_lookup_imap in Hm.
      destruct (rows !! i) as [kr'|] eqn:Ei; [|done]. cbn in Hm. injection Hm as <-.
      cbn. rewrite Forall_forall in Hall. apply (Hall kr').
      by eapply list_elem_of_lookup_2.
Qed.

(** X18: the counts of [getStats] add up: [total] is the number of stored
    monitors and the sum of the healthy, late, down and paused counts, and
    [totalPings] is the number of stored pings. The paused count is the
    number of rows with [paused = 1], at whatever times the statuses are
    computed. *)
Theorem getStats_counts_add_up (clock : nat -> Z) (db : Db) :
  let stats := getStats getTime clock db in
  stats_total stats = Z.of_nat (size (monitors db)) /\
  stats_total stats
  = stats_healthy stats + stats_late stats + stats_down stats + stats_paused stats /\
  stats_paused stats
  = Z.of_nat (length (List.filter (fun kr : string * MonitorRow => r_paused kr.2 =? 1)
                        (map_to_list (monitors db)))) /\
  totalPings stats = Z.of_nat (size (pingRows db)) /\
  0 <= stats_healthy stats /\ 0 <= stats_late stats /\ 0 <= stats_down stats.
Proof.
  cbv zeta. unfold getStats. cbn [stats_total stats_healthy stats_late stats_down
    stats_paused totalPings].
  split; [|split; [|split; [|split]]].
  - unfold getAllMonitors, Stmt.getAllMonitors.
    rewrite length_imap, merge_sort_Permutation. by rewrite length_map_to_list.
  - pose proof (count_statuses (getAllMonitors getTime clock db)) as H. cbv zeta in H. lia.
  - f_equal. unfold getAllMonitors, Stmt.getAllMonitors.
    rewrite (count_imap _ _ (fun kr : string * MonitorRow => r_paused kr.2 =? 1)).
    + apply count_Permutation, merge_sort_Permutation.
    + intros i kr. apply rowToMonitor_status_Paused.
  - done.
  - lia.
Qed.

End Listing.

(** ** The status over time *)

Section StatusOverTime.

Variable getTime : string -> option Z.

(** X19: the status of a monitor never gets better by time alone. As
    the clock advances a monitor goes from healthy to late to down, never
    back, and a paused monitor stays paused; whether the status is
    [paused] does not depend on the clock at all. *)
Theorem getMonitorStatus_never_improves (t t' : Z) (m : Monitor) :
  t <= t' ->
  severity (getMonitorStatus getTime t m) <= severity (getMonitorStatus getTime t' m) /\
  (getMonitorStatus getTime t m = Paused <-> paused m = true) /\
  (getMonitorStatus getTime t m = Paused <-> getMonitorStatus getTime t' m = Paused).
Proof.
  intros Ht.
  assert (Hp : forall now, getMonitorStatus getTime now m = Paused <-> paused m = true).
  { intros now. unfold getMonitorStatus. destruct (paused m).
    - destruct (Js.truthy _); [|done]. destruct (getTime _); [|done]. by destruct (_ >=? _).
    - destruct (negb _); [done|]. destruct (getTime _); [|done]. cbv zeta.
      destruct (_ >? _); [done|]. by destruct (_ >? _). }
  split; [|split; [apply Hp|by rewrite !Hp]].
  unfold getMonitorStatus. destruct (paused m).
  - destruct (Js.truthy _); [|done]. destruct (getTime _); [|done].
    by destruct (_ >=? _), (_ >=? _).
  - destruct (negb _); [done|]. destruct (getTime _) as [T|]; [|done]. cbv zeta.
    repeat match goal with
           | |- context [?a >? ?b] => destruct (a >? b) eqn:?
           end; reflect_orders; cbn; lia.
Qed.

End StatusOverTime.

Lemma getMonitorStatus_never_improves_witness :
  severity (getMonitorStatus Iso.getTime 1705312800000 backupMonitor)
  <= severity (getMonitorStatus Iso.getTime 1705313400000 backupMonitor) /\
  (getMonitorStatus Iso.getTime 1705312800000 backupMonitor = Paused
   <-> paused backupMonitor = true) /\
  (getMonitorStatus Iso.getTime 1705312800000 backupMonitor = Paused
   <-> getMonitorStatus Iso.getTime 1705313400000 backupMonitor = Paused).
Proof.
  apply (getMonitorStatus_never_improves Iso.getTime 1705312800000 1705313400000 backupMonitor). lia.
Defined.


Section StatusAndWrites.

Variable getTime : string -> option Z.

Lemma rowToMonitor_status (now : Z) (k : string) (row : MonitorRow) (ps : list Ping) :
  status (rowToMonitor getTime now k row ps)
  = getMonitorStatus getTime now
      (mkMonitor k (r_name row) (r_schedule row) (Some (r_interval_minutes row))
         (r_grace_minutes row) Down (r_last_ping row) None [] (r_created_at row)
         (r_paused row =? 1) (r_paused_at row) (r_paused_until row) (r_pause_reason row)).
Proof. done. Qed.

(** X20: how a ping changes the status. A monitor that is not paused and
    was never pinged is down at every time. Once a ping is recorded for
    it, be it a success or a failure, it is healthy (its grace not being
    negative) from the time of the ping to one interval later, the interval being the stored one or,
    when that is 0, the one of the schedule. A paused monitor stays paused
    however often it is pinged. *)
Theorem recordPing_then_status (newId timestamp monitorId : string) (success : bool)
    (duration : option Z) (message ip : option string) (db : Db) (row : MonitorRow) (T : Z) :
  monitors db !! monitorId = Some row ->
  pingRows db !! newId = None ->
  timestamp <> "" -> getTime timestamp = Some T ->
  let db' := snd (recordPing newId timestamp monitorId success duration message ip db) in
  let interval :=
    if r_interval_minutes row =? 0 then parseScheduleInterval (r_schedule row)
    else r_interval_minutes row in
  (r_paused row <> 1 -> r_last_ping row = None ->
   forall t, status <$> getMonitor getTime t monitorId db = Some Down) /\
  (r_paused row <> 1 -> 0 <= r_grace_minutes row ->
   forall t, T <= t <= T + minutes interval ->
     status <$> getMonitor getTime t monitorId db' = Some Healthy) /\
  (r_paused row = 1 ->
   forall t, status <$> getMonitor getTime t monitorId db' = Some Paused).
Proof.
  intros Hrow Hfresh Hts HT. cbv zeta.
  rewrite (recordPing_commit _ _ _ _ _ _ _ _ _ Hrow Hfresh). cbn [snd].
  split; [|split].
  - intros Hp Hl t. rewrite (getMonitor_Some getTime t monitorId db row Hrow).
    cbn [fmap option_fmap option_map]. rewrite rowToMonitor_status.
    unfold getMonitorStatus. cbn. rewrite Hl.
    by replace (r_paused row =? 1) with false by (symmetry; by apply Z.eqb_neq).
  - intros Hp Hg t Ht.
    erewrite getMonitor_Some by (cbn; apply lookup_insert_eq).
    cbn [fmap option_fmap option_map]. rewrite rowToMonitor_status.
    erewrite getMonitorStatus_active; cbn; try done.
    + unfold monitorInterval. cbn [intervalMinutes schedule]. unfold minutes in *.
      repeat match goal with
             | |- context [?a >? ?b] => destruct (a >? b) eqn:?
             end; reflect_orders; try done; lia.
    + by apply Z.eqb_neq.
  - intros Hp t.
    erewrite getMonitor_Some by (cbn; apply lookup_insert_eq).
    cbn [fmap option_fmap option_map]. rewrite rowToMonitor_status.
    rewrite getMonitorStatus_of_paused; [done|]. cbn. by rewrite Hp.
Qed.

End StatusAndWrites.

Lemma recordPing_then_status_witness :
  (forall t, status <$> getMonitor Iso.getTime t backupId backupDb = Some Down) /\
  (forall t, 1705312800000 <= t <= 1705312800000 + minutes 5 ->
     status <$> getMonitor Iso.getTime t backupId
                  (snd (recordPing "0b0e2c1a-79a4-4d7b-8a43-1f6f3a1f0c55"
                          "2024-01-15T10:00:00.000Z" backupId false None None None
                          backupDb))
     = Some Healthy).
Proof.
  destruct (recordPing_then_status Iso.getTime "0b0e2c1a-79a4-4d7b-8a43-1f6f3a1f0c55"
              "2024-01-15T10:00:00.000Z" backupId false None None None backupDb
              backupRow 1705312800000)
    as (Hdown & Hhealthy & _).
  - vm_compute. reflexivity.
  - vm_compute. reflexivity.
  - discriminate.
  - vm_compute. reflexivity.
  - split.
    + apply Hdown; [discriminate|reflexivity].
    + apply Hhealthy; [discriminate|vm_compute; discriminate].
Defined.

(** ** The timeline and the status *)

Section TimelineAndStatus.

Variable getTime : string -> option Z.




End TimelineAndStatus.


(** ** Relative times *)

Section RelativeProperties.

Variable getTime : string -> option Z.

(** X22: the relative time of the dashboard shows the largest unit that
    has passed: whole days from one day on, else whole hours (1 to 23),
    else whole minutes (1 to 59), else [Just now], which also is the label
    of a date that lies ahead; no date gives [Never]. *)
Theorem formatRelativeTime_largest_unit (now : Z) (dateStr : string) (time : Z) :
  dateStr <> "" -> getTime dateStr = Some time ->
  let diff := now - time in
  let label := formatRelativeTime getTime now (Some dateStr) in
  (diff < 60000 -> label = "Just now") /\
  (60000 <= diff < 3600000 ->
   label = pretty (diff / 60000) ++ "m ago" /\ 1 <= diff / 60000 <= 59) /\
  (3600000 <= diff < 86400000 ->
   label = pretty (diff / 3600000) ++ "h ago" /\ 1 <= diff / 3600000 <= 23) /\
  (86400000 <= diff ->
   label = pretty (diff / 86400000) ++ "d ago" /\ 1 <= diff / 86400000) /\
  formatRelativeTime getTime now None = "Never" /\
  formatRelativeTime getTime now (Some "") = "Never".
Proof.
  intros Hs Ht. cbv zeta. unfold formatRelativeTime. cbn [Js.truthy].
  destruct dateStr as [|c r]; [done|]. cbn [Js.isEmpty negb default from_option Datatypes.id].
  rewrite Ht. cbv zeta.
  set (diff := now - time).
  assert (Hh : diff / 60000 / 60 = diff / 3600000)
    by (rewrite Z.div_div by lia; done).
  assert (Hd : diff / 60000 / 60 / 24 = diff / 86400000)
    by (rewrite !Z.div_div by lia; done).
  rewrite Hd, Hh.
  pose proof (Z.div_mod diff 60000 ltac:(lia)) as E1.
  pose proof (Z.mod_pos_bound diff 60000 ltac:(lia)) as B1.
  pose proof (Z.div_mod diff 3600000 ltac:(lia)) as E2.
  pose proof (Z.mod_pos_bound diff 3600000 ltac:(lia)) as B2.
  pose proof (Z.div_mod diff 86400000 ltac:(lia)) as E3.
  pose proof (Z.mod_pos_bound diff 86400000 ltac:(lia)) as B3.
  repeat split; try done; intros;
    repeat match goal with
           | |- context [?a >? ?b] => destruct (a >? b) eqn:?
           end;
    repeat match goal with
           | H : (_ >? _) = true |- _ => apply Z.gtb_lt in H
           | H : (_ >? _) = false |- _ => rewrite Z.gtb_ltb in H; apply Z.ltb_ge in H
           end; try done; lia.
Qed.

End RelativeProperties.

Lemma formatRelativeTime_largest_unit_witness :
  formatRelativeTime Iso.getTime 1705320000000 (Some "2024-01-15T10:00:00.000Z")
  = pretty ((1705320000000 - 1705312800000) / 3600000) ++ "h ago" /\
  1 <= (1705320000000 - 1705312800000) / 3600000 <= 23.
Proof.
  destruct (formatRelativeTime_largest_unit Iso.getTime 1705320000000
              "2024-01-15T10:00:00.000Z" 1705312800000)
    as (_ & _ & Hhours & _).
  - discriminate.
  - vm_compute. reflexivity.
  - apply Hhours. lia.
Defined.

(** ** Validation and the parser *)

Lemma allChars_avoids (f : ascii -> bool) (h : ascii) (s : string) :
  f h = false -> allChars f s = true -> avoids h s = true.
Proof.
  intros Hh. unfold avoids. induction s as [|c r IH]; [done|]. cbn.
  intros [Hc Hr]%andb_true_iff. rewrite IH by done.
  destruct (Ascii.eqb_spec h c) as [->|]; [congruence|done].
Qed.

Lemma matchEvery_skip (unit a b : string) :
  avoids "e" a = true -> Js.matchEvery unit (a ++ b) = Js.matchEvery unit b.
Proof.
  unfold avoids. induction a as [|c a IH]; [done|]. rewrite append_cons. cbn [allChars].
  intros [Hc Ha]%andb_true_iff. rewrite matchEvery_unfold.
  unfold Js.matchEveryAt at 1. cbn [Js.stripPrefix].
  apply negb_true_iff in Hc. rewrite Hc. by apply IH.
Qed.

Lemma includes_unfold (p s : string) :
  Js.includes p s
  = Js.startsWith p s || match s with "" => false | String _ r => Js.includes p r end.
Proof. by destruct s. Qed.

Lemma includes_skip (h : ascii) (p a b : string) :
  avoids h a = true -> Js.includes (String h p) (a ++ b) = Js.includes (String h p) b.
Proof.
  unfold avoids. induction a as [|c a IH]; [done|]. rewrite append_cons. cbn [allChars].
  intros [Hc Ha]%andb_true_iff. rewrite includes_unfold.
  unfold Js.startsWith at 1. cbn [Js.stripPrefix].
  apply negb_true_iff in Hc. rewrite Hc. by apply IH.
Qed.

Lemma matchEvery_every (unit x : string) :
  Js.matchEvery unit ("every" ++ x)
  = match Js.matchEveryAt unit ("every" ++ x) with
    | Some ds => Some ds
    | None => Js.matchEvery unit x
    end.
Proof.
  rewrite matchEvery_unfold. destruct (Js.matchEveryAt unit ("every" ++ x)); [done|].
  change (Js.matchEvery unit ("v" ++ "ery" ++ x) = Js.matchEvery unit x).
  rewrite (matchEvery_skip unit "v") by done.
  change ("ery" ++ x) with (String "e" ("ry" ++ x)).
  rewrite matchEvery_unfold.
  change (Js.matchEveryAt unit (String "e" ("ry" ++ x))) with (@None string).
  by rewrite (matchEvery_skip unit "ry").
Qed.

Lemma includes_every (p x : string) :
  Js.includes ("every" ++ p) ("every" ++ x)
  = Js.startsWith p x || Js.includes ("every" ++ p) x.
Proof. reflexivity. Qed.

Lemma startsWith_other_head (h : ascii) (p x : string) :
  stopsAt (Ascii.eqb h) x = true -> Js.startsWith (String h p) x = false.
Proof.
  unfold Js.startsWith. destruct x as [|c x]; [done|]. cbn.
  intros H%negb_true_iff. by rewrite H.
Qed.

Lemma space_is_no_letter (h c : ascii) :
  Js.isSpace h = false -> Js.isSpace c = true -> Ascii.eqb h c = false.
Proof. intros Hh Hc. destruct (Ascii.eqb_spec h c) as [->|]; [congruence|done]. Qed.

Lemma digit_is_no_letter (h c : ascii) :
  Js.isDigit h = false -> Js.isDigit c = true -> Ascii.eqb h c = false.
Proof. intros Hh Hc. destruct (Ascii.eqb_spec h c) as [->|]; [congruence|done]. Qed.

(** [" " ++ word] is no prefix of a run of white space followed by
    [rest], unless the run is one space and [rest] begins like [word]. *)
Lemma startsWith_space_word (h : ascii) (word ws rest : string) :
  Js.isSpace h = false ->
  ws <> "" -> allChars Js.isSpace ws = true ->
  ws <> " " \/ stopsAt (Ascii.eqb h) rest = true ->
  Js.startsWith (String " " (String h word)) (ws ++ rest) = false.
Proof.
  intros Hh Hne Hws Hor. destruct ws as [|c ws]; [done|]. rewrite append_cons.
  cbn in Hws. apply andb_true_iff in Hws as [Hc Hws].
  unfold Js.startsWith. cbn [Js.stripPrefix].
  destruct (Ascii.eqb_spec " " c) as [<-|]; [|done].
  destruct ws as [|c' ws].
  - destruct Hor as [|Hrest]; [done|]. change ("" ++ rest) with rest.
    destruct rest as [|c' rest]; [done|]. cbn in *.
    apply negb_true_iff in Hrest. by rewrite Hrest.
  - rewrite append_cons. cbn in *. apply andb_true_iff in Hws as [Hc' _].
    by rewrite (space_is_no_letter h c' Hh Hc').
Qed.

Lemma existsb_eqb_elem (x : string) (l : list string) :
  existsb (String.eqb x) l = true <-> x ∈ l.
Proof.
  induction l as [|y l IH]; cbn.
  - split; [done|]. by intros ?%elem_of_nil.
  - rewrite orb_true_iff, String.eqb_eq, IH, elem_of_cons. done.
Qed.

Lemma digits_stop_letter (h : ascii) (ds rest : string) :
  Js.isDigit h = false -> ds <> "" -> allChars Js.isDigit ds = true ->
  stopsAt (Ascii.eqb h) (ds ++ rest) = true.
Proof.
  intros Hh Hne Hds. destruct ds as [|c ds]; [done|]. rewrite append_cons. cbn in *.
  apply andb_true_iff in Hds as [Hc _]. by rewrite (digit_is_no_letter h c Hh Hc).
Qed.

Section Forms.

Variables ws ds ws' : string.
Hypothesis ws_not_empty : ws <> "".
Hypothesis ws_spaces : allChars Js.isSpace ws = true.
Hypothesis ds_not_empty : ds <> "".
Hypothesis ds_digits : allChars Js.isDigit ds = true.
Hypothesis ws'_spaces : allChars Js.isSpace ws' = true.

(** The matcher of [/every\s+(\d+)\s*UNIT/] at the head of
    [every N unit]. *)
Lemma matchEveryAt_every_N (pattern unit : string) :
  stopsAt Js.isDigit unit = true -> stopsAt Js.isSpace unit = true ->
  Js.matchEveryAt pattern ("every" ++ ws ++ ds ++ ws' ++ unit)
  = if Js.startsWith pattern unit then Some ds else None.
Proof.
  intros Hud Hus. unfold Js.matchEveryAt. rewrite stripPrefix_app.
  rewrite (span_app Js.isSpace ws) by (try done; by apply digit_stops_space).
  apply isEmpty_false in ws_not_empty as ->.
  rewrite (span_app Js.isDigit ds)
    by (try done; by apply (stopsAt_run _ Js.isSpace); [apply space_not_digit|..]).
  apply isEmpty_false in ds_not_empty as ->.
  by rewrite (span_app Js.isSpace ws').
Qed.

Lemma matchEvery_after_every_N (pattern unit : string) :
  Js.matchEvery pattern (ws ++ ds ++ ws' ++ unit) = Js.matchEvery pattern unit.
Proof.
  rewrite (matchEvery_skip pattern ws) by (by apply (allChars_avoids Js.isSpace)).
  rewrite (matchEvery_skip pattern ds) by (by apply (allChars_avoids Js.isDigit)).
  by rewrite (matchEvery_skip pattern ws') by (by apply (allChars_avoids Js.isSpace)).
Qed.

Lemma parse_every_N_minutes (schedule unit : string) :
  unit ∈ ["min"; "mins"; "minute"; "minutes"] ->
  Js.toLowerCase schedule = "every" ++ ws ++ ds ++ ws' ++ unit ->
  parseScheduleInterval schedule = Js.parseDigits ds.
Proof.
  intros Hunit Hlower. unfold parseScheduleInterval. rewrite Hlower.
  rewrite matchEvery_every, matchEveryAt_every_N;
    repeat (apply elem_of_cons in Hunit as [->|Hunit]; [done|]);
    by apply elem_of_nil in Hunit.
Qed.

Lemma parse_every_N_hours (schedule unit : string) :
  unit ∈ ["hour"; "hours"] ->
  Js.toLowerCase schedule = "every" ++ ws ++ ds ++ ws' ++ unit ->
  parseScheduleInterval schedule = Js.parseDigits ds * 60.
Proof.
  intros Hunit Hlower. unfold parseScheduleInterval. rewrite Hlower.
  assert (Hminute : Js.includes "every minute" ("every" ++ ws ++ ds ++ ws' ++ unit)
                    = Js.includes "every minute" unit).
  { change "every minute" with ("every" ++ " minute"). rewrite includes_every.
    rewrite (startsWith_space_word "m" "inute" ws)
      by (try done; right; by apply digits_stop_letter).
    change ("every" ++ " minute") with (String "e" "very minute").
    rewrite (includes_skip "e" _ ws) by (by apply (allChars_avoids Js.isSpace)).
    rewrite (includes_skip "e" _ ds) by (by apply (allChars_avoids Js.isDigit)).
    by rewrite (includes_skip "e" _ ws') by (by apply (allChars_avoids Js.isSpace)). }
  rewrite Hminute.
  rewrite !matchEvery_every, !matchEveryAt_every_N, !matchEvery_after_every_N;
    repeat (apply elem_of_cons in Hunit as [->|Hunit]; [done|]);
    by apply elem_of_nil in Hunit.
Qed.

End Forms.

Section Apart.

Variable ws : string.
Hypothesis ws_not_empty : ws <> "".
Hypothesis ws_spaces : allChars Js.isSpace ws = true.

Lemma matchEvery_every_unit (pattern unit : string) :
  unit ∈ ["minute"; "hour"; "day"; "week"] ->
  Js.matchEvery pattern ("every" ++ ws ++ unit) = None.
Proof.
  intros Hunit. rewrite matchEvery_every.
  assert (Hat : Js.matchEveryAt pattern ("every" ++ ws ++ unit) = None).
  { unfold Js.matchEveryAt. rewrite stripPrefix_app.
    rewrite (span_app Js.isSpace ws);
      [apply isEmpty_false in ws_not_empty as ->|done|];
      repeat (apply elem_of_cons in Hunit as [->|Hunit]; [done|]);
      by apply elem_of_nil in Hunit. }
  rewrite Hat.
  rewrite (matchEvery_skip pattern ws) by (by apply (allChars_avoids Js.isSpace)).
  repeat (apply elem_of_cons in Hunit as [->|Hunit]; [done|]).
  by apply elem_of_nil in Hunit.
Qed.

Lemma includes_every_unit (h : ascii) (r unit : string) :
  Js.isSpace h = false -> ws <> " " ->
  Js.includes ("every" ++ String " " (String h r)) ("every" ++ ws ++ unit)
  = Js.includes ("every" ++ String " " (String h r)) unit.
Proof.
  intros Hh Hapart. rewrite includes_every.
  rewrite (startsWith_space_word h r ws) by (try done; by left).
  change ("every" ++ String " " (String h r)) with (String "e" ("very " ++ String h r)).
  by rewrite (includes_skip "e" _ ws) by (by apply (allChars_avoids Js.isSpace)).
Qed.

Lemma includes_word_every_unit (h : ascii) (r unit : string) :
  Js.isSpace h = false -> avoids h "every" = true ->
  Js.includes (String h r) ("every" ++ ws ++ unit) = Js.includes (String h r) unit.
Proof.
  intros Hh He. rewrite (includes_skip h r "every") by done.
  by rewrite (includes_skip h r ws) by (by apply (allChars_avoids Js.isSpace)).
Qed.

Lemma parse_every_unit_apart (schedule unit : string) :
  ws <> " " ->
  unit ∈ ["minute"; "hour"; "day"; "week"] ->
  Js.toLowerCase schedule = "every" ++ ws ++ unit ->
  parseScheduleInterval schedule = 1440.
Proof.
  intros Hapart Hunit Hlower. unfold parseScheduleInterval. rewrite Hlower.
  rewrite !matchEvery_every_unit by done.
  change "every minute" with ("every" ++ String " " (String "m" "inute")).
  change "every hour" with ("every" ++ String " " (String "h" "our")).
  change "every day" with ("every" ++ String " " (String "d" "ay")).
  change "every week" with ("every" ++ String " " (String "w" "eek")).
  rewrite !includes_every_unit by done.
  rewrite (includes_word_every_unit "d" "aily") by done.
  rewrite (includes_word_every_unit "w" "eekly") by done.
  repeat (apply elem_of_cons in Hunit as [->|Hunit]; [done|]).
  by apply elem_of_nil in Hunit.
Qed.

End Apart.

(** X23: the schedules that validation accepts and what the parser makes
    of them. [schedulePattern] accepts exactly the strings that, in lower
    case, are [every N unit] with a unit of minutes or hours,
    [every unit] with one of minute, hour, day and week, [daily] or
    [weekly], where any white space may stand after [every]. Of an
    accepted schedule whose interval is a safe integer (at most
    [Number.MAX_SAFE_INTEGER] minutes, so that the number of the schedule
    is read, and multiplied, without rounding) the parser gives [N] for
    minutes, [N] times 60 for hours, 1440 for [daily] and 10080 for
    [weekly]; for [every unit] it gives 1, 60, 1440 and 10080 when one
    space stands between the two words, and the default 1440 when
    anything else does. *)
Theorem schedulePattern_parsed (schedule : string) :
  (schedulePattern schedule = true <->
   exists interval, acceptedAs (Js.toLowerCase schedule) interval) /\
  (schedulePattern schedule = true ->
   parseScheduleInterval schedule <= MAX_SAFE_INTEGER ->
   acceptedAs (Js.toLowerCase schedule) (parseScheduleInterval schedule)).
Proof.
  assert (Hsound : schedulePattern schedule = true ->
            acceptedAs (Js.toLowerCase schedule) (parseScheduleInterval schedule)).
  { unfold schedulePattern. cbv zeta.
    destruct (Js.stripPrefix "every" (Js.toLowerCase schedule)) as [r0|] eqn:E0.
    - apply stripPrefix_Some in E0.
      destruct (Js.span Js.isSpace r0) as [ws r1] eqn:E1.
      apply span_Some in E1 as (-> & Hws & Hr1).
      destruct (Js.isEmpty ws) eqn:Hne; [done|]. apply isEmpty_false in Hne.
      destruct (Js.span Js.isDigit r1) as [ds r2] eqn:E2.
      pose proof E2 as E2'. apply span_Some in E2' as (-> & Hds & Hr2).
      destruct (Js.isEmpty ds) eqn:Hne'.
      + destruct ds; [|done]. change ("" ++ r2) with r2 in *.
        intros Hunit%existsb_eqb_elem. rewrite E0.
        destruct (decide (ws = " ")) as [->|Hapart].
        * unfold parseScheduleInterval. rewrite E0.
          repeat (apply elem_of_cons in Hunit as [->|Hunit];
                  [apply (every_unit _ _); rewrite !elem_of_cons; tauto|]).
          by apply elem_of_nil in Hunit.
        * rewrite (parse_every_unit_apart ws Hne Hws schedule r2 Hapart Hunit E0).
          by apply every_unit_apart.
      + apply isEmpty_false in Hne'.
        destruct (Js.span Js.isSpace r2) as [ws' r3] eqn:E3.
        apply span_Some in E3 as (-> & Hws' & Hr3).
        intros Hunit%existsb_eqb_elem. rewrite E0.
        assert (Hcases : r3 ∈ ["min"; "mins"; "minute"; "minutes"] \/ r3 ∈ ["hour"; "hours"]).
        { rewrite !elem_of_cons in Hunit. rewrite !elem_of_cons. tauto. }
        destruct Hcases as [Hm|Hh].
        * rewrite (parse_every_N_minutes ws ds ws' Hne Hws Hne' Hds Hws' schedule r3 Hm E0).
          by apply every_N_minutes.
        * rewrite (parse_every_N_hours ws ds ws' Hne Hws Hne' Hds Hws' schedule r3 Hh E0).
          by apply every_N_hours.
    - intros Hword%existsb_eqb_elem. unfold parseScheduleInterval.
      apply elem_of_cons in Hword as [->|Hword]; [apply daily|].
      apply elem_of_cons in Hword as [->|Hword]; [apply weekly|].
      by apply elem_of_nil in Hword. }
  split; [|intros H _; by apply Hsound]. split; [intros H; eexists; by apply Hsound|].
  intros [interval H]. unfold schedulePattern. cbv zeta.
  remember (Js.toLowerCase schedule) as lower eqn:Hl. clear Hl Hsound.
  assert (HN : forall ws ds ws' unit,
            ws <> "" -> allChars Js.isSpace ws = true ->
            ds <> "" -> allChars Js.isDigit ds = true ->
            allChars Js.isSpace ws' = true ->
            unit ∈ ["min"; "mins"; "minute"; "minutes"; "hour"; "hours"] ->
            match Js.stripPrefix "every" ("every" ++ ws ++ ds ++ ws' ++ unit) with
            | Some r0 =>
                let '(ws, r1) := Js.span Js.isSpace r0 in
                if Js.isEmpty ws then false else
                let '(ds, r2) := Js.span Js.isDigit r1 in
                if Js.isEmpty ds then
                  existsb (String.eqb r1) ["minute"; "hour"; "day"; "week"]
                else
                  let '(_, r3) := Js.span Js.isSpace r2 in
                  existsb (String.eqb r3)
                    ["min"; "mins"; "minute"; "minutes"; "hour"; "hours"]
            | None =>
                existsb (String.eqb ("every" ++ ws ++ ds ++ ws' ++ unit)) ["daily"; "weekly"]
            end = true).
  { intros ws ds ws' unit Hne Hws Hne' Hds Hws' Hunit.
    assert (Hstops : stopsAt Js.isDigit unit = true /\ stopsAt Js.isSpace unit = true).
    { repeat (apply elem_of_cons in Hunit as [->|Hunit]; [done|]).
      by apply elem_of_nil in Hunit. }
    destruct Hstops as [Hud Hus].
    rewrite stripPrefix_app.
    rewrite (span_app Js.isSpace ws) by (try done; by apply digit_stops_space).
    apply isEmpty_false in Hne as ->.
    rewrite (span_app Js.isDigit ds)
      by (try done; by apply (stopsAt_run _ Js.isSpace); [apply space_not_digit|..]).
    apply isEmpty_false in Hne' as ->.
    rewrite (span_app Js.isSpace ws') by done.
    by apply existsb_eqb_elem. }
  destruct H as [ws ds ws' unit Hne Hws Hne' Hds Hws' Hunit
                |ws ds ws' unit Hne Hws Hne' Hds Hws' Hunit
                |unit i Hunit|ws unit Hne Hws Hapart Hunit| |].
  - apply HN; try done.
    repeat (apply elem_of_cons in Hunit as [->|Hunit]; [by apply (bool_decide_unpack _)|]).
    by apply elem_of_nil in Hunit.
  - apply HN; try done.
    repeat (apply elem_of_cons in Hunit as [->|Hunit]; [by apply (bool_decide_unpack _)|]).
    by apply elem_of_nil in Hunit.
  - repeat (apply elem_of_cons in Hunit as [[= -> ->]|Hunit]; [done|]).
    by apply elem_of_nil in Hunit.
  - assert (Hstops : stopsAt Js.isSpace unit = true /\
                     Js.span Js.isDigit unit = ("", unit)).
    { repeat (apply elem_of_cons in Hunit as [->|Hunit]; [done|]).
      by apply elem_of_nil in Hunit. }
    destruct Hstops as [Hus Hud].
    rewrite stripPrefix_app. rewrite (span_app Js.isSpace ws) by done.
    apply isEmpty_false in Hne as ->. rewrite Hud. cbn [Js.isEmpty].
    by apply existsb_eqb_elem.
  - done.
  - done.
Qed.

Lemma schedulePattern_parsed_witness :
  acceptedAs (Js.toLowerCase "Every 5 minutes") (parseScheduleInterval "Every 5 minutes").
Proof.
  apply (schedulePattern_parsed "Every 5 minutes"); [reflexivity|].
  vm_compute. discriminate.
Defined.
